(** * Temporizador: a countdown timer (src/timer.py)

    A shallow embedding of the logic of [ModernTimer]: the parsing of the
    duration typed by the user, the three-state countdown engine driven by
    the toolkit's deferred callbacks, the alarm loop and the HH:MM:SS
    rendering, followed by the properties of the specification.

    Conventions of the model.
    - A Python [str] is a Rocq [string]: a sequence of code points below
      256.  Every character class used below ([float], [str.isdigit],
      [str.lower], the pattern class \d) is the restriction of Python's to
      that range.
    - A Python [int] is a [Z]; [//] and [%] with a positive divisor are
      [Z.div] and [Z.modulo].
    - A Python [float] is an IEEE 754 binary64 value, a [spec_float] of the
      Standard Library with precision 53 and maximal exponent 1024;
      arithmetic is the Standard Library's specification of it.
    - The widgets are reduced to the attributes the handlers read or write.
      [root.after] appends to a queue of pending callbacks.
    - The outcome of launching the external player is an input of the
      model: [spawn_ok st n] tells whether the [n]-th call of
      [subprocess.run] returns ([true]) or raises ([false]). *)

From Stdlib Require Import ZArith NArith PArith Bool List Ascii String Lia.
From Stdlib Require Import Floats.SpecFloat.
From Stdlib Require Import Decimal DecimalString DecimalN DecimalPos.
Import ListNotations.

Open Scope string_scope.
Open Scope Z_scope.

(* ================================================================== *)
(** * Part I: the model *)
(* ================================================================== *)

(** ** Python exceptions that the handlers can meet *)

Inductive exn : Type :=
| ValueError
| OverflowError
| TclError.

Inductive result (A : Type) : Type :=
| Ok (a : A)
| Raise (e : exn).
Arguments Ok {A} a.
Arguments Raise {A} e.

(** ** Characters *)

Definition code (c : ascii) : N := N_of_ascii c.

Definition is_digit (c : ascii) : bool :=
  ((48 <=? code c) && (code c <=? 57))%N.

Definition digit_val (c : ascii) : Z := Z.of_N (code c) - 48.

(** C's [Py_ISSPACE]: space, \t, \n, \v, \f, \r. *)
Definition Py_ISSPACE (c : ascii) : bool :=
  (((9 <=? code c) && (code c <=? 13)) || (code c =? 32))%N.

(** [Py_UNICODE_ISSPACE] below 256. *)
Definition Py_UNICODE_ISSPACE (c : ascii) : bool :=
  (((9 <=? code c) && (code c <=? 13))
   || ((28 <=? code c) && (code c <=? 32))
   || (code c =? 133) || (code c =? 160))%N.

(** [Py_TOLOWER]: ASCII letters only. *)
Definition Py_TOLOWER (c : ascii) : ascii :=
  if ((65 <=? code c) && (code c <=? 90))%N
  then ascii_of_N (code c + 32) else c.

(** One character of [str.lower()] below 256: the ASCII capitals and the
    Latin-1 capitals U+00C0..U+00DE except the multiplication sign. *)
Definition lower_char (c : ascii) : ascii :=
  if (((65 <=? code c) && (code c <=? 90))
      || ((192 <=? code c) && (code c <=? 222) && negb (code c =? 215)))%N
  then ascii_of_N (code c + 32) else c.

Fixpoint lower (s : string) : string :=
  match s with
  | EmptyString => EmptyString
  | String c r => String (lower_char c) (lower r)
  end.

(** One character of [str.isdigit()] below 256: the ASCII digits and the
    superscripts U+00B2, U+00B3, U+00B9. *)
Definition isdigit_char (c : ascii) : bool :=
  (is_digit c || (code c =? 178) || (code c =? 179) || (code c =? 185))%N.

Fixpoint all_chars (p : ascii -> bool) (s : string) : bool :=
  match s with
  | EmptyString => true
  | String c r => p c && all_chars p r
  end.

(** [str.isdigit()]: non-empty and made of digits. *)
Definition isdigit (s : string) : bool :=
  match s with
  | EmptyString => false
  | _ => all_chars isdigit_char s
  end.

(** ** Python floats *)

Module PyFloat.

Definition prec : Z := 53.
Definition emax : Z := 1024.

Definition float : Type := spec_float.

Definition fmul : float -> float -> float := SFmul prec emax.
Definition fleb : float -> float -> bool := SFleb.
Definition fltb : float -> float -> bool := SFltb.

Definition zero : float := S754_zero false.

(** Conversion of a Python [int] to a float: round to nearest, ties to
    even. *)
Definition of_int (z : Z) : float := binary_normalize prec emax z 0 false.

Definition is_finite (x : float) : bool :=
  match x with
  | S754_zero _ | S754_finite _ _ _ => true
  | _ => false
  end.

Definition is_nan (x : float) : bool :=
  match x with
  | S754_nan => true
  | _ => false
  end.

(** [int(x)]: truncation toward zero; fails on infinities and NaN. *)
Definition to_int (x : float) : result Z :=
  match x with
  | S754_zero _ => Ok 0
  | S754_infinity _ => Raise OverflowError
  | S754_nan => Raise ValueError
  | S754_finite s m e =>
      let a := if 0 <=? e then Zpos m * 2 ^ e else Zpos m / 2 ^ (- e) in
      Ok (if s then - a else a)
  end.

(** The mathematical floor of a finite float. *)
Definition floor (x : float) : option Z :=
  match x with
  | S754_zero _ => Some 0
  | S754_finite s m e =>
      let n := if s then Zneg m else Zpos m in
      Some (if 0 <=? e then n * 2 ^ e else n / 2 ^ (- e))
  | _ => None
  end.

(** The float nearest to [(-1)^neg * d * 10^e], ties to even; overflow
    gives an infinity and underflow a subnormal or a zero. *)
Definition of_decimal (neg : bool) (d : Z) (e : Z) : float :=
  match d with
  | Zpos p =>
      if 0 <=? e
      then binary_round prec emax neg (p * Z.to_pos (10 ^ e)) 0
      else SFdiv prec emax (S754_finite neg p 0)
                           (S754_finite false (Z.to_pos (10 ^ (- e))) 0)
  | _ => S754_zero neg
  end.

(** *** The scanner of [float(str)] *)

Fixpoint span (p : ascii -> bool) (s : list ascii) : list ascii * list ascii :=
  match s with
  | c :: r =>
      if p c then let '(a, b) := span p r in (c :: a, b) else ([], s)
  | [] => ([], [])
  end.

Fixpoint drop_while (p : ascii -> bool) (s : list ascii) : list ascii :=
  match s with
  | c :: r => if p c then drop_while p r else s
  | [] => []
  end.

Definition digits_value (ds : list ascii) : Z :=
  fold_left (fun acc c => 10 * acc + digit_val c) ds 0.

Definition is_char (a : ascii) (c : ascii) : bool := Ascii.eqb a c.

(** [_PyUnicode_TransformDecimalAndSpaceToASCII]: an ASCII string is kept;
    otherwise non-ASCII spaces become a space and the string is cut with a
    question mark at the first other non-ASCII character (there is no
    decimal digit between 127 and 255). *)
Fixpoint transform_loop (s : list ascii) : list ascii :=
  match s with
  | [] => []
  | c :: r =>
      if (code c <? 127)%N then c :: transform_loop r
      else if Py_UNICODE_ISSPACE c then " "%char :: transform_loop r
      else ["?"%char]
  end.

Definition transform (s : list ascii) : list ascii :=
  if forallb (fun c => (code c <? 128)%N) s then s else transform_loop s.

(** The loop of [_Py_string_to_number_with_underscores]: an underscore is
    only allowed between two digits. *)
Fixpoint remove_underscores (prev : ascii) (s : list ascii)
  : option (list ascii) :=
  match s with
  | [] => if is_char "_" prev then None else Some []
  | c :: r =>
      if is_char "_" c then
        if is_digit prev then remove_underscores c r else None
      else if is_char "_" prev && negb (is_digit c) then None
      else option_map (cons c) (remove_underscores c r)
  end.

(** Optional sign. *)
Definition scan_sign (s : list ascii) : bool * list ascii :=
  match s with
  | c :: r =>
      if is_char "-" c then (true, r)
      else if is_char "+" c then (false, r)
      else (false, s)
  | [] => (false, s)
  end.

(** The exponent part: [e] or [E], an optional sign and at least one
    digit; when no digit follows, nothing is consumed. *)
Definition scan_exponent (s : list ascii) : Z * list ascii :=
  match s with
  | c :: r =>
      if is_char "e" c || is_char "E" c then
        let '(neg, r1) := scan_sign r in
        let '(ds, r2) := span is_digit r1 in
        match ds with
        | [] => (0, s)
        | _ => ((if neg then - digits_value ds else digits_value ds), r2)
        end
      else (0, s)
  | [] => (0, s)
  end.

(** [_Py_dg_strtod]: sign, digits, optional point and digits, optional
    exponent.  [None] when no digit was found (nothing is consumed).
    CPython refuses more than 10^9 digits and clamps the exponent at
    1.1 * 10^9 in absolute value; below 10^9 digits the clamped exponent
    rounds to the same float, and the limits are left out here. *)
Definition dg_strtod (s : list ascii) : option (float * list ascii) :=
  let '(neg, s1) := scan_sign s in
  let '(ip, s2) := span is_digit s1 in
  let '(fp, s3) :=
    match s2 with
    | c :: r => if is_char "." c then span is_digit r else ([], s2)
    | [] => ([], s2)
    end in
  match (ip ++ fp)%list with
  | [] => None
  | ds =>
      let '(ex, s4) := scan_exponent s3 in
      let scale := ex - Z.of_nat (List.length fp) in
      Some (of_decimal neg (digits_value ds) scale, s4)
  end.

(** Case-insensitive match of a lower-case word at the head of [s]. *)
Fixpoint case_insensitive_match (w s : list ascii) : option (list ascii) :=
  match w, s with
  | [], _ => Some s
  | a :: w', c :: r =>
      if Ascii.eqb (Py_TOLOWER c) a then case_insensitive_match w' r else None
  | _ :: _, [] => None
  end.

(** [_Py_parse_inf_or_nan]. *)
Definition parse_inf_or_nan (s : list ascii) : option (float * list ascii) :=
  let '(neg, s1) := scan_sign s in
  match case_insensitive_match (list_ascii_of_string "inf") s1 with
  | Some s2 =>
      match case_insensitive_match (list_ascii_of_string "inity") s2 with
      | Some s3 => Some (S754_infinity neg, s3)
      | None => Some (S754_infinity neg, s2)
      end
  | None =>
      match case_insensitive_match (list_ascii_of_string "nan") s1 with
      | Some s2 => Some (S754_nan, s2)
      | None => None
      end
  end.

(** [PyOS_string_to_double]: the number, then the special values. *)
Definition string_to_double (s : list ascii) : option (float * list ascii) :=
  match dg_strtod s with
  | Some r => Some r
  | None => parse_inf_or_nan s
  end.

(** [float_from_string_inner]: white space is stripped at both ends and
    the whole of what is left has to be consumed. *)
Definition float_from_string_inner (s : list ascii) : result float :=
  match drop_while Py_ISSPACE s with
  | [] => Raise ValueError
  | s1 =>
      let s2 := List.rev (drop_while Py_ISSPACE (List.rev s1)) in
      match string_to_double s2 with
      | Some (x, []) => Ok x
      | _ => Raise ValueError
      end
  end.

Definition has_char (a : ascii) (s : list ascii) : bool :=
  existsb (is_char a) s.

(** [float(s)] for a [str]. *)
Definition of_string (s : string) : result float :=
  let t := transform (list_ascii_of_string s) in
  if has_char "_" t then
    match remove_underscores "000" t with
    | Some u =>
        if has_char "000" u then Raise ValueError
        else float_from_string_inner u
    | None => Raise ValueError
    end
  else float_from_string_inner t.

End PyFloat.

(** ** Regular expressions, as far as [validate_input] needs them *)

Module Re.

Inductive regex : Type :=
| Empty
| Eps
| Chr (p : ascii -> bool)
| Seq (r1 r2 : regex)
| Alt (r1 r2 : regex)
| Star (r : regex).

Fixpoint nullable (r : regex) : bool :=
  match r with
  | Empty => false
  | Eps => true
  | Chr _ => false
  | Seq r1 r2 => nullable r1 && nullable r2
  | Alt r1 r2 => nullable r1 || nullable r2
  | Star _ => true
  end.

Fixpoint deriv (c : ascii) (r : regex) : regex :=
  match r with
  | Empty => Empty
  | Eps => Empty
  | Chr p => if p c then Eps else Empty
  | Seq r1 r2 =>
      if nullable r1
      then Alt (Seq (deriv c r1) r2) (deriv c r2)
      else Seq (deriv c r1) r2
  | Alt r1 r2 => Alt (deriv c r1) (deriv c r2)
  | Star r1 => Seq (deriv c r1) (Star r1)
  end.

Fixpoint matches (r : regex) (s : string) : bool :=
  match s with
  | EmptyString => nullable r
  | String c s' => matches (deriv c r) s'
  end.

Definition Plus (r : regex) : regex := Seq r (Star r).
Definition Opt (r : regex) : regex := Alt r Eps.

(** [\d] below 256. *)
Definition d : regex := Chr is_digit.
Definition lit (a : ascii) : regex := Chr (Ascii.eqb a).

(** [$] without the MULTILINE flag: the end of the string, or just before
    a newline that ends the string. *)
Definition dollar : regex := Alt Eps (lit "010").

End Re.

(** ** The timer *)

Inductive TimerState : Type :=
| STOPPED
| RUNNING
| PAUSED.

Definition TimerState_eqb (a b : TimerState) : bool :=
  match a, b with
  | STOPPED, STOPPED | RUNNING, RUNNING | PAUSED, PAUSED => true
  | _, _ => false
  end.

Record TimerConfig : Type := {
  sound_file : string;
  volume : string;
  repetitions : Z;
  window_size : string;
  font_size_large : Z;
  font_size_normal : Z;
  padding : Z
}.

(** The defaults of the dataclass. *)
Definition default_config : TimerConfig := {|
  sound_file := "/System/Library/Sounds/Ping.aiff";
  volume := "4";
  repetitions := 3;
  window_size := "400x300";
  font_size_large := 48;
  font_size_normal := 14;
  padding := 20
|}.

Inductive widget_state : Type :=
| normal
| disabled.

Record Button : Type := {
  btn_text : string;
  btn_state : widget_state
}.

(** The dictionary [self.buttons]; its three keys never change. *)
Record Buttons : Type := {
  iniciar : Button;
  pausar : Button;
  detener : Button
}.

(** What [root.after] and [dialog.after] can be asked to call. *)
Inductive callback : Type :=
| cb_update_timer
| cb_root_destroy
| cb_label_destroy (id : nat).

Record ModernTimer : Type := {
  config : TimerConfig;
  state : TimerState;
  remaining : Z;
  (** text of [self.time_label] *)
  time_label : string;
  buttons : Buttons;
  (** text of [self.time_entry]; [None] once the dialog that holds it has
      been destroyed: reading it then raises [TclError] *)
  time_entry : option string;
  (** the error labels on show in the dialog, with their message *)
  error_labels : list (nat * string);
  next_id : nat;
  (** callbacks registered with [after], oldest first, with their delay in
      milliseconds *)
  pending : list (Z * callback);
  root_alive : bool;
  (** the environment: does the [n]-th launch of the player return? *)
  spawn_ok : nat -> bool;
  (** calls of [subprocess.run] so far, and those that returned *)
  spawned : nat;
  played : nat;
  (** calls of [play_alarm] so far *)
  alarms : nat;
  (** lines printed on the console, latest first *)
  printed : list string
}.

Definition set_state (v : TimerState) (t : ModernTimer) : ModernTimer :=
  {| config := config t; state := v; remaining := remaining t;
     time_label := time_label t; buttons := buttons t;
     time_entry := time_entry t; error_labels := error_labels t;
     next_id := next_id t; pending := pending t; root_alive := root_alive t;
     spawn_ok := spawn_ok t; spawned := spawned t; played := played t;
     alarms := alarms t; printed := printed t |}.

Definition set_remaining (v : Z) (t : ModernTimer) : ModernTimer :=
  {| config := config t; state := state t; remaining := v;
     time_label := time_label t; buttons := buttons t;
     time_entry := time_entry t; error_labels := error_labels t;
     next_id := next_id t; pending := pending t; root_alive := root_alive t;
     spawn_ok := spawn_ok t; spawned := spawned t; played := played t;
     alarms := alarms t; printed := printed t |}.

Definition set_time_label (v : string) (t : ModernTimer) : ModernTimer :=
  {| config := config t; state := state t; remaining := remaining t;
     time_label := v; buttons := buttons t;
     time_entry := time_entry t; error_labels := error_labels t;
     next_id := next_id t; pending := pending t; root_alive := root_alive t;
     spawn_ok := spawn_ok t; spawned := spawned t; played := played t;
     alarms := alarms t; printed := printed t |}.

Definition set_buttons (v : Buttons) (t : ModernTimer) : ModernTimer :=
  {| config := config t; state := state t; remaining := remaining t;
     time_label := time_label t; buttons := v;
     time_entry := time_entry t; error_labels := error_labels t;
     next_id := next_id t; pending := pending t; root_alive := root_alive t;
     spawn_ok := spawn_ok t; spawned := spawned t; played := played t;
     alarms := alarms t; printed := printed t |}.

(** The dialog and what it holds: the entry and the error labels. *)
Definition set_dialog (e : option string) (l : list (nat * string))
  (n : nat) (t : ModernTimer) : ModernTimer :=
  {| config := config t; state := state t; remaining := remaining t;
     time_label := time_label t; buttons := buttons t;
     time_entry := e; error_labels := l;
     next_id := n; pending := pending t; root_alive := root_alive t;
     spawn_ok := spawn_ok t; spawned := spawned t; played := played t;
     alarms := alarms t; printed := printed t |}.

Definition set_pending (v : list (Z * callback)) (t : ModernTimer)
  : ModernTimer :=
  {| config := config t; state := state t; remaining := remaining t;
     time_label := time_label t; buttons := buttons t;
     time_entry := time_entry t; error_labels := error_labels t;
     next_id := next_id t; pending := v; root_alive := root_alive t;
     spawn_ok := spawn_ok t; spawned := spawned t; played := played t;
     alarms := alarms t; printed := printed t |}.

Definition set_root_alive (v : bool) (t : ModernTimer) : ModernTimer :=
  {| config := config t; state := state t; remaining := remaining t;
     time_label := time_label t; buttons := buttons t;
     time_entry := time_entry t; error_labels := error_labels t;
     next_id := next_id t; pending := pending t; root_alive := v;
     spawn_ok := spawn_ok t; spawned := spawned t; played := played t;
     alarms := alarms t; printed := printed t |}.

(** The console and the counters of the player. *)
Definition set_player (sp pl al : nat) (pr : list string) (t : ModernTimer)
  : ModernTimer :=
  {| config := config t; state := state t; remaining := remaining t;
     time_label := time_label t; buttons := buttons t;
     time_entry := time_entry t; error_labels := error_labels t;
     next_id := next_id t; pending := pending t; root_alive := root_alive t;
     spawn_ok := spawn_ok t; spawned := sp; played := pl;
     alarms := al; printed := pr |}.

(** [widget.after(ms, f)] *)
Definition after (ms : Z) (f : callback) (t : ModernTimer) : ModernTimer :=
  set_pending (pending t ++ [(ms, f)])%list t.

(** [button.configure(state=...)] and [button.configure(text=...)] *)
Definition configure_state (v : widget_state) (b : Button) : Button :=
  {| btn_text := btn_text b; btn_state := v |}.

Definition configure_text (v : string) (b : Button) : Button :=
  {| btn_text := v; btn_state := btn_state b |}.

Definition on_iniciar (f : Button -> Button) (t : ModernTimer) : ModernTimer :=
  set_buttons {| iniciar := f (iniciar (buttons t));
                 pausar := pausar (buttons t);
                 detener := detener (buttons t) |} t.

Definition on_pausar (f : Button -> Button) (t : ModernTimer) : ModernTimer :=
  set_buttons {| iniciar := iniciar (buttons t);
                 pausar := f (pausar (buttons t));
                 detener := detener (buttons t) |} t.

Definition on_detener (f : Button -> Button) (t : ModernTimer) : ModernTimer :=
  set_buttons {| iniciar := iniciar (buttons t);
                 pausar := pausar (buttons t);
                 detener := f (detener (buttons t)) |} t.

(** *** Rendering *)

(** [str(n)] for a natural number. *)
Definition decimal (n : N) : string := NilEmpty.string_of_uint (N.to_uint n).

Fixpoint zeros (n : nat) : string :=
  match n with
  | O => EmptyString
  | S k => String "0" (zeros k)
  end.

(** Padding with zeros on the left up to a width. *)
Definition zfill (width : nat) (s : string) : string :=
  (zeros (width - String.length s) ++ s)%string.

(** The format specification [02d]: the sign, then the digits padded with
    zeros so that the whole is at least two characters wide. *)
Definition format_02d (z : Z) : string :=
  if z <? 0
  then String "-" (zfill 1 (decimal (Z.to_N (- z))))
  else zfill 2 (decimal (Z.to_N z)).

Definition format_time (t : ModernTimer) : string :=
  let hours := remaining t / 3600 in
  let minutes := (remaining t mod 3600) / 60 in
  let seconds := remaining t mod 60 in
  (format_02d hours ++ ":" ++ format_02d minutes ++ ":"
     ++ format_02d seconds)%string.

Definition update_display (t : ModernTimer) : ModernTimer :=
  set_time_label (format_time t) t.

(** *** The alarm *)

(** What [play_alarm] prints when a launch raises (the text of the
    exception, which follows it, is not modelled). *)
Definition alarm_error : string := "Error al reproducir el sonido: ".

(** The [for] loop of [play_alarm] inside its [try]: each turn launches
    the player; a launch that raises ends the loop in the handler. *)
Fixpoint alarm_loop (n : nat) (t : ModernTimer) : ModernTimer :=
  match n with
  | O => t
  | S k =>
      if spawn_ok t (spawned t)
      then alarm_loop k
             (set_player (S (spawned t)) (S (played t)) (alarms t) (printed t) t)
      else set_player (S (spawned t)) (played t) (alarms t)
             (alarm_error :: printed t) t
  end.

(** [range(n)] is empty for a negative [n]. *)
Definition play_alarm (t : ModernTimer) : ModernTimer :=
  alarm_loop (Z.to_nat (repetitions (config t)))
    (set_player (spawned t) (played t) (S (alarms t)) (printed t) t).

(** *** The countdown engine *)

Definition update_timer (t : ModernTimer) : ModernTimer :=
  if TimerState_eqb (state t) RUNNING && (remaining t >? 0) then
    let t1 := update_display t in
    let t2 := set_remaining (remaining t1 - 1) t1 in
    after 1000 cb_update_timer t2
  else if TimerState_eqb (state t) RUNNING && (remaining t <=? 0) then
    let t1 := update_display t in
    let t2 := play_alarm t1 in
    let t3 := set_state STOPPED t2 in
    after 1000 cb_root_destroy t3
  else t.

Definition start_countdown (t : ModernTimer) : ModernTimer :=
  let t1 := set_state RUNNING t in
  let t2 := on_pausar (configure_state normal) t1 in
  let t3 := on_detener (configure_state normal) t2 in
  let t4 := on_iniciar (configure_state disabled) t3 in
  update_timer t4.

Definition pause_timer (t : ModernTimer) : ModernTimer :=
  if TimerState_eqb (state t) RUNNING || TimerState_eqb (state t) PAUSED then
    let t1 :=
      set_state (if TimerState_eqb (state t) RUNNING then PAUSED else RUNNING) t in
    let t2 :=
      on_pausar (configure_text
                   (if TimerState_eqb (state t1) PAUSED
                    then "Reanudar" else "Pausar")) t1 in
    if TimerState_eqb (state t2) RUNNING then update_timer t2 else t2
  else t.

Definition stop_timer (t : ModernTimer) : ModernTimer :=
  let t1 := set_state STOPPED t in
  let t2 := set_remaining 0 t1 in
  let t3 := update_display t2 in
  let t4 := on_iniciar (configure_state normal) t3 in
  let t5 := on_pausar (configure_state disabled) t4 in
  on_detener (configure_state disabled) t5.

(** *** The input dialog *)

(** A new dialog replaces [self.dialog]; its entry is empty. *)
Definition show_time_input (t : ModernTimer) : ModernTimer :=
  set_dialog (Some EmptyString) [] (next_id t) t.

Definition start_timer (t : ModernTimer) : ModernTimer :=
  show_time_input t.

(** [self.dialog.destroy()] takes the entry and the labels with it. *)
Definition dialog_destroy (t : ModernTimer) : ModernTimer :=
  set_dialog None [] (next_id t) t.

(** The user edits the entry of a dialog that is open. *)
Definition type_text (s : string) (t : ModernTimer) : ModernTimer :=
  match time_entry t with
  | Some _ => set_dialog (Some s) (error_labels t) (next_id t) t
  | None => t
  end.

Definition show_error_message (message : string) (t : ModernTimer)
  : ModernTimer :=
  let id := next_id t in
  let t1 :=
    set_dialog (time_entry t) (error_labels t ++ [(id, message)])%list (S id) t in
  after 2000 (cb_label_destroy id) t1.

(** "Por favor ingrese un número válido mayor que 0" *)
Definition invalid_number : string :=
  ("Por favor ingrese un n" ++ String "250" "mero v"
     ++ String "225" "lido mayor que 0")%string.

Definition validate_input (input_text : string) : bool :=
  Re.matches
    (Re.Seq (Re.Plus Re.d)
       (Re.Seq (Re.Opt (Re.Seq (Re.lit ".") (Re.Plus Re.d))) Re.dollar))
    input_text.

(** The body of the [try] of [process_time_input]. *)
Definition process_time_input_body (key : string) (t : ModernTimer)
  : ModernTimer * result unit :=
  match time_entry t with
  | None => (t, Raise TclError)
  | Some input_value =>
      if (input_value =? "")%string then (t, Ok tt)
      else
        match PyFloat.of_string input_value with
        | Raise e => (t, Raise e)
        | Ok time_val =>
            if PyFloat.fleb time_val (PyFloat.of_int 0) then (t, Raise ValueError)
            else
              match PyFloat.to_int
                      (PyFloat.fmul time_val
                         (PyFloat.of_int (if (key =? "d")%string then 60 else 1)))
              with
              | Raise e => (t, Raise e)
              | Ok n =>
                  let t1 := set_remaining n t in
                  let t2 := dialog_destroy t1 in
                  (start_countdown t2, Ok tt)
              end
        end
  end.

(** Only [ValueError] is handled; anything else leaves the method. *)
Definition process_time_input (key : string) (t : ModernTimer)
  : ModernTimer * result unit :=
  match process_time_input_body key t with
  | (t1, Raise ValueError) => (show_error_message invalid_number t1, Ok tt)
  | r => r
  end.

(** [handle_key]: [char] is [event.char]; the value returned is
    [Some "break"] or [None]. *)
Definition handle_key (char : string) (t : ModernTimer)
  : ModernTimer * result (option string) :=
  let key := lower char in
  if (key =? "d")%string || (key =? "f")%string then
    match process_time_input key t with
    | (t1, Ok _) => (t1, Ok (Some "break"))
    | (t1, Raise e) => (t1, Raise e)
    end
  else if negb (char =? "")%string
          && negb (isdigit char || (char =? ".")%string) then
    (t, Ok (Some "break"))
  else (t, Ok None).

(** *** The event loop *)

Definition run_callback (f : callback) (t : ModernTimer) : ModernTimer :=
  match f with
  | cb_update_timer => update_timer t
  | cb_root_destroy => set_root_alive false t
  | cb_label_destroy id =>
      set_dialog (time_entry t)
        (filter (fun l => negb (Nat.eqb (fst l) id)) (error_labels t))
        (next_id t) t
  end.

(** The oldest pending callback comes due and is run. *)
Definition fire (t : ModernTimer) : ModernTimer :=
  if root_alive t then
    match pending t with
    | (_, f) :: rest => run_callback f (set_pending rest t)
    | [] => t
    end
  else t.

(** [ModernTimer(config)]: the window, the engine at rest, the buttons and
    the first dialog. *)
Definition init (cfg : TimerConfig) (env : nat -> bool) : ModernTimer :=
  show_time_input
    {| config := cfg; state := STOPPED; remaining := 0;
       time_label := "00:00:00";
       buttons := {| iniciar := {| btn_text := "Iniciar"; btn_state := normal |};
                     pausar := {| btn_text := "Pausar"; btn_state := disabled |};
                     detener := {| btn_text := "Detener"; btn_state := disabled |} |};
       time_entry := None; error_labels := []; next_id := O;
       pending := []; root_alive := true;
       spawn_ok := env; spawned := O; played := O; alarms := O;
       printed := [] |}.

(** *** Reading a display back *)

(** The fields of a string between its colons. *)
Fixpoint split_colon (s : string) : list string :=
  match s with
  | EmptyString => [EmptyString]
  | String c r =>
      if Ascii.eqb c ":" then EmptyString :: split_colon r
      else
        match split_colon r with
        | f :: fs => String c f :: fs
        | [] => [String c EmptyString]
        end
  end.

(** The number written by a non-empty string of decimal digits. *)
Definition read_decimal (s : string) : option N :=
  match s with
  | EmptyString => None
  | _ => option_map N.of_uint (NilEmpty.uint_of_string s)
  end.

(** Hours, minutes and seconds of a display. *)
Definition read_hms (s : string) : option (Z * Z * Z) :=
  match split_colon s with
  | [h; m; sec] =>
      match read_decimal h, read_decimal m, read_decimal sec with
      | Some a, Some b, Some c => Some (Z.of_N a, Z.of_N b, Z.of_N c)
      | _, _, _ => None
      end
  | _ => None
  end.

(** A display of [r] seconds as three fields of exactly two digits. *)
Definition two_digit_fields (r : Z) (s : string) : Prop :=
  exists h m sec : string,
    split_colon s = [h; m; sec]
    /\ String.length h = 2%nat /\ String.length m = 2%nat
    /\ String.length sec = 2%nat
    /\ exists a b c : Z,
         read_hms s = Some (a, b, c)
         /\ 0 <= b < 60 /\ 0 <= c < 60 /\ a * 3600 + b * 60 + c = r.

(** *** Observations used by the statements *)

(** The transient error message appeared: a label with the message was
    added to the dialog and its removal was scheduled two seconds later. *)
Definition error_shown (t t' : ModernTimer) : Prop :=
  error_labels t' = (error_labels t ++ [(next_id t, invalid_number)])%list
  /\ pending t' = (pending t ++ [(2000, cb_label_destroy (next_id t))])%list.

(** All the launches of one alarm return. *)
Definition player_works (t : ModernTimer) : Prop :=
  forall i : nat,
    (i < Z.to_nat (repetitions (config t)))%nat ->
    spawn_ok t (spawned t + i)%nat = true.

(** A timer at rest holding a given text in its entry. *)
Definition timer_with_entry (s : string) : ModernTimer :=
  type_text s (init default_config (fun _ => true)).

(** A timer counting down from a given value. *)
Definition timer_running (r : Z) (env : nat -> bool) : ModernTimer :=
  set_state RUNNING (set_remaining r (init default_config env)).

(** ** Rounding: a notion used by the proofs about floats *)

(** A mantissa and an exponent in canonical position, zero included. *)
Definition placed (prec emax m e : Z) : Prop :=
  (m = 0 /\ e = emin prec emax)
  \/ (0 < m /\ fexp prec emax (Zdigits2 m + e) = e).

(** ** Executions *)

(** The text that [format_time] gives to a time left of [r] seconds. *)
Definition display (r : Z) : string :=
  (format_02d (r / 3600) ++ ":" ++ format_02d ((r mod 3600) / 60) ++ ":"
     ++ format_02d (r mod 60))%string.

Fixpoint remove_nth {A : Type} (i : nat) (l : list A) : list A :=
  match l, i with
  | [], _ => []
  | _ :: r, O => r
  | x :: r, S j => x :: remove_nth j r
  end.

(** Any pending callback may be the next to come due: the delays differ
    and the handlers run at any time in between.  [fire] is the case of
    the oldest one. *)
Definition fire_nth (i : nat) (t : ModernTimer) : ModernTimer :=
  if root_alive t then
    match nth_error (pending t) i with
    | Some (_, f) => run_callback f (set_pending (remove_nth i (pending t)) t)
    | None => t
    end
  else t.

(** What the event loop can deliver: a key press carrying [event.char],
    an edit of the entry, the command of one of the three buttons, or a
    pending callback coming due. *)
Inductive event : Type :=
| ev_key (char : string)
| ev_edit (text : string)
| ev_iniciar
| ev_pausar
| ev_detener
| ev_timer (i : nat).

Definition step (e : event) (t : ModernTimer) : ModernTimer :=
  match e with
  | ev_key char => fst (handle_key char t)
  | ev_edit text => type_text text t
  | ev_iniciar => start_timer t
  | ev_pausar => pause_timer t
  | ev_detener => stop_timer t
  | ev_timer i => fire_nth i t
  end.

(** [main]: the timer is built, then the loop delivers the events. *)
Definition run (cfg : TimerConfig) (env : nat -> bool) (es : list event)
  : ModernTimer :=
  fold_left (fun t e => step e t) es (init cfg env).

(** What every handler keeps true. *)
Definition consistent (cfg : TimerConfig) (env : nat -> bool)
  (t : ModernTimer) : Prop :=
  config t = cfg /\ spawn_ok t = env
  /\ 0 <= remaining t
  /\ (state t = STOPPED -> remaining t = 0 /\ time_label t = "00:00:00")
  /\ (state t <> STOPPED ->
      time_label t = display (remaining t + 1)
      /\ btn_state (iniciar (buttons t)) = disabled
      /\ btn_state (pausar (buttons t)) = normal
      /\ btn_state (detener (buttons t)) = normal)
  /\ (state t = PAUSED -> btn_text (pausar (buttons t)) = "Reanudar")
  /\ (forall id m, In (id, m) (error_labels t) ->
        m = invalid_number /\ In (2000, cb_label_destroy id) (pending t))
  /\ (played t <= spawned t
      /\ spawned t <= alarms t * Z.to_nat (repetitions cfg))%nat.

(** ** The validator's pattern and the literals of [float] *)

(** The strings a regular expression denotes. *)
Inductive lang : Re.regex -> string -> Prop :=
| lang_eps : lang Re.Eps ""
| lang_chr (p : ascii -> bool) (c : ascii) :
    p c = true -> lang (Re.Chr p) (String c "")
| lang_seq (r1 r2 : Re.regex) (s1 s2 : string) :
    lang r1 s1 -> lang r2 s2 -> lang (Re.Seq r1 r2) (s1 ++ s2)
| lang_alt_l (r1 r2 : Re.regex) (s : string) :
    lang r1 s -> lang (Re.Alt r1 r2) s
| lang_alt_r (r1 r2 : Re.regex) (s : string) :
    lang r2 s -> lang (Re.Alt r1 r2) s
| lang_star_nil (r : Re.regex) : lang (Re.Star r) ""
| lang_star_cons (r : Re.regex) (s1 s2 : string) :
    lang r s1 -> lang (Re.Star r) s2 -> lang (Re.Star r) (s1 ++ s2).

(** The characters of a decimal literal, with or without a final
    newline. *)
Definition literal_char (c : ascii) : bool :=
  is_digit c || Ascii.eqb c "." || Ascii.eqb c "010".

(* ================================================================== *)
(** * Part II: properties *)
(* ================================================================== *)

(** ** Floats: the rounding of the Standard Library's specification *)

Section Rounding.

Variables prec emax : Z.
Hypothesis prec_pos : 0 < prec.

Lemma fexp_ge_emin (e : Z) : emin prec emax <= fexp prec emax e.
Proof. unfold SpecFloat.fexp. lia. Qed.

Lemma fexp_mono (a b : Z) : a <= b -> fexp prec emax a <= fexp prec emax b.
Proof. unfold SpecFloat.fexp. lia. Qed.

Lemma digits2_pos_bounds (p : positive) :
  2 ^ (Zpos (digits2_pos p) - 1) <= Zpos p < 2 ^ Zpos (digits2_pos p).
Proof.
  induction p as [p IH|p IH|]; simpl digits2_pos.
  - rewrite Pos2Z.inj_succ.
    replace (Z.succ (Zpos (digits2_pos p)) - 1)
      with (Z.succ (Zpos (digits2_pos p) - 1)) by lia.
    rewrite !Z.pow_succ_r by lia. lia.
  - rewrite Pos2Z.inj_succ.
    replace (Z.succ (Zpos (digits2_pos p)) - 1)
      with (Z.succ (Zpos (digits2_pos p) - 1)) by lia.
    rewrite !Z.pow_succ_r by lia. lia.
  - simpl. lia.
Qed.

Lemma Zdigits2_nonneg (m : Z) : 0 <= Zdigits2 m.
Proof. destruct m; simpl; lia. Qed.

Lemma Zdigits2_bounds (m : Z) :
  0 < m -> 2 ^ (Zdigits2 m - 1) <= m < 2 ^ Zdigits2 m.
Proof.
  destruct m as [|p|p]; try lia. intros _. apply digits2_pos_bounds.
Qed.

Lemma Zdigits2_unique (m k : Z) :
  2 ^ (k - 1) <= m < 2 ^ k -> 0 < m -> Zdigits2 m = k.
Proof.
  intros H Hm. pose proof (Zdigits2_bounds m Hm) as B.
  pose proof (Zdigits2_nonneg m) as N.
  assert (Hk : 0 < k).
  { destruct (Z_lt_le_dec 0 k) as [|Hk]; [assumption|].
    destruct (Z.eq_dec k 0) as [->|]; [simpl in H; lia|].
    rewrite (Z.pow_neg_r 2 k) in H by lia. lia. }
  destruct (Z_lt_le_dec (Zdigits2 m) k) as [Hlt|Hge].
  - assert (2 ^ Zdigits2 m <= 2 ^ (k - 1)) by (apply Z.pow_le_mono_r; lia). lia.
  - destruct (Z_lt_le_dec k (Zdigits2 m)) as [Hlt|Hle]; [|lia].
    assert (2 ^ k <= 2 ^ (Zdigits2 m - 1)) by (apply Z.pow_le_mono_r; lia). lia.
Qed.

Lemma Zdigits2_mono (a b : Z) : 0 <= a <= b -> Zdigits2 a <= Zdigits2 b.
Proof.
  intros H. destruct (Z.eq_dec a 0) as [->|Ha].
  - apply Zdigits2_nonneg.
  - pose proof (Zdigits2_bounds a ltac:(lia)) as A.
    pose proof (Zdigits2_bounds b ltac:(lia)) as B.
    destruct (Z_lt_le_dec (Zdigits2 b) (Zdigits2 a)) as [Hlt|]; [|assumption].
    pose proof (Zdigits2_nonneg b).
    assert (2 ^ Zdigits2 b <= 2 ^ (Zdigits2 a - 1))
      by (apply Z.pow_le_mono_r; lia).
    lia.
Qed.

(** Digits of a quotient by a power of two. *)
Lemma Zdigits2_div_pow2 (m n : Z) :
  0 < m -> 0 <= n ->
  (m / 2 ^ n = 0 /\ Zdigits2 m <= n)
  \/ (0 < m / 2 ^ n /\ Zdigits2 (m / 2 ^ n) = Zdigits2 m - n).
Proof.
  intros Hm Hn. pose proof (Zdigits2_bounds m Hm) as B.
  pose proof (Zdigits2_nonneg m) as N.
  assert (P : 0 < 2 ^ n) by (apply Z.pow_pos_nonneg; lia).
  destruct (Z_le_gt_dec (Zdigits2 m) n) as [Hle|Hgt].
  - left. split; [|assumption]. apply Z.div_small. split; [lia|].
    assert (2 ^ Zdigits2 m <= 2 ^ n) by (apply Z.pow_le_mono_r; lia). lia.
  - right.
    assert (E1 : 2 ^ (Zdigits2 m - 1) = 2 ^ (Zdigits2 m - n - 1) * 2 ^ n).
    { rewrite <- Z.pow_add_r by lia. f_equal. lia. }
    assert (E2 : 2 ^ Zdigits2 m = 2 ^ (Zdigits2 m - n) * 2 ^ n).
    { rewrite <- Z.pow_add_r by lia. f_equal. lia. }
    assert (L : 2 ^ (Zdigits2 m - n - 1) <= m / 2 ^ n).
    { apply Z.div_le_lower_bound; [assumption|]. rewrite Z.mul_comm. lia. }
    assert (U : m / 2 ^ n < 2 ^ (Zdigits2 m - n)).
    { apply Z.div_lt_upper_bound; [assumption|]. rewrite Z.mul_comm. lia. }
    assert (0 < 2 ^ (Zdigits2 m - n - 1)) by (apply Z.pow_pos_nonneg; lia).
    split; [lia|]. apply Zdigits2_unique; [|lia].
    split; [exact L|exact U].
Qed.

(** [shr_1] halves a mantissa that is not negative. *)
Lemma shr_1_m (mrs : shr_record) :
  0 <= shr_m mrs -> shr_m (shr_1 mrs) = shr_m mrs / 2.
Proof.
  destruct mrs as [m r s]. simpl. intros Hm.
  destruct m as [|p|p]; try lia; [reflexivity|].
  destruct p as [p|p|]; simpl shr_m.
  - rewrite Pos2Z.inj_xI.
    apply Z.div_unique with (r := 1); lia.
  - rewrite (Pos2Z.inj_xO p).
    apply Z.div_unique with (r := 0); lia.
  - reflexivity.
Qed.

Lemma iter_shr_1_m (n : positive) :
  forall mrs, 0 <= shr_m mrs ->
    shr_m (iter_pos shr_1 n mrs) = shr_m mrs / 2 ^ Zpos n.
Proof.
  induction n as [n IH|n IH|]; intros mrs Hm; simpl iter_pos.
  - assert (H1 : 0 <= shr_m (shr_1 mrs)).
    { rewrite shr_1_m by assumption. apply Z.div_pos; lia. }
    assert (H2 : 0 <= shr_m (iter_pos shr_1 n (shr_1 mrs))).
    { rewrite IH by assumption. apply Z.div_pos; [assumption|].
      apply Z.pow_pos_nonneg; lia. }
    rewrite IH, IH, shr_1_m by assumption.
    rewrite !Z.div_div by (try apply Z.pow_pos_nonneg; lia).
    f_equal. rewrite (Pos2Z.inj_xI n).
    replace (2 * Zpos n + 1) with (1 + Zpos n + Zpos n) by lia.
    rewrite !Z.pow_add_r by lia. change (2 ^ 1) with 2. lia.
  - assert (H2 : 0 <= shr_m (iter_pos shr_1 n mrs)).
    { rewrite IH by assumption. apply Z.div_pos; [assumption|].
      apply Z.pow_pos_nonneg; lia. }
    rewrite IH, IH by assumption.
    rewrite !Z.div_div by (try apply Z.pow_pos_nonneg; lia).
    f_equal. rewrite (Pos2Z.inj_xO n).
    replace (2 * Zpos n) with (Zpos n + Zpos n) by lia.
    rewrite Z.pow_add_r by lia. reflexivity.
  - rewrite shr_1_m by assumption. reflexivity.
Qed.

Lemma shr_record_of_loc_m (m : Z) (l : location) :
  shr_m (shr_record_of_loc m l) = m.
Proof. destruct l as [|[]]; reflexivity. Qed.

(** The mantissa and the exponent after [shr_fexp]. *)
Lemma shr_fexp_spec (m e : Z) (l : location) :
  0 <= m -> e <= fexp prec emax (Zdigits2 m + e) ->
  shr_m (fst (shr_fexp prec emax m e l))
  = m / 2 ^ (fexp prec emax (Zdigits2 m + e) - e)
  /\ snd (shr_fexp prec emax m e l) = fexp prec emax (Zdigits2 m + e).
Proof.
  intros Hm He. unfold shr_fexp, shr.
  destruct (fexp prec emax (Zdigits2 m + e) - e) as [|n|n] eqn:En;
    simpl fst; simpl snd.
  - rewrite shr_record_of_loc_m. simpl. rewrite Z.div_1_r. split; lia.
  - rewrite iter_shr_1_m by (rewrite shr_record_of_loc_m; assumption).
    rewrite shr_record_of_loc_m. split; [reflexivity|lia].
  - lia.
Qed.

Lemma shr_fexp_placed (m e : Z) (l : location) :
  0 <= m -> e <= fexp prec emax (Zdigits2 m + e) ->
  placed prec emax (shr_m (fst (shr_fexp prec emax m e l)))
    (snd (shr_fexp prec emax m e l)).
Proof.
  intros Hm He. destruct (shr_fexp_spec m e l Hm He) as [-> ->].
  set (n := fexp prec emax (Zdigits2 m + e) - e).
  assert (Hn : 0 <= n) by (unfold n; lia).
  destruct (Z.eq_dec m 0) as [->|Hm0].
  - left. split; [apply Z.div_0_l; apply Z.pow_nonzero; lia|].
    simpl Zdigits2 in *. simpl. unfold SpecFloat.fexp in *. lia.
  - destruct (Zdigits2_div_pow2 m n ltac:(lia) Hn) as [[Hq Hd]|[Hq Hd]].
    + left. split; [assumption|]. unfold n in Hd.
      unfold SpecFloat.fexp in *. lia.
    + right. split; [assumption|]. rewrite Hd. f_equal. unfold n. lia.
Qed.

Lemma round_nearest_even_cases (m : Z) (l : location) :
  round_nearest_even m l = m \/ round_nearest_even m l = m + 1.
Proof.
  destruct l as [|[]]; simpl; auto. destruct (Z.even m); auto.
Qed.

Lemma placed_round (m e : Z) (l : location) :
  placed prec emax m e ->
  0 <= round_nearest_even m l
  /\ e <= fexp prec emax (Zdigits2 (round_nearest_even m l) + e).
Proof.
  intros [[-> ->]|[Hm Hc]].
  - split; [destruct (round_nearest_even_cases 0 l) as [->| ->]; lia|].
    apply fexp_ge_emin.
  - assert (Hr : m <= round_nearest_even m l)
      by (destruct (round_nearest_even_cases m l) as [->| ->]; lia).
    split; [lia|]. rewrite <- Hc at 1. apply fexp_mono.
    pose proof (Zdigits2_mono m (round_nearest_even m l)). lia.
Qed.

(** The result of [binary_round_aux] is a valid float whenever the
    mantissa it is given is not negative and not shorter than its exponent
    allows. *)
Lemma binary_round_aux_valid (s : bool) (m e : Z) (l : location) :
  0 <= m -> e <= fexp prec emax (Zdigits2 m + e) ->
  valid_binary prec emax (binary_round_aux prec emax s m e l) = true.
Proof.
  intros Hm He. unfold binary_round_aux.
  pose proof (shr_fexp_placed m e l Hm He) as P1.
  destruct (shr_fexp prec emax m e l) as [mrs1 e1].
  simpl fst in P1; simpl snd in P1.
  destruct (placed_round _ _ (loc_of_shr_record mrs1) P1) as [R1 R2].
  pose proof (shr_fexp_placed _ _ loc_Exact R1 R2) as P2.
  destruct (shr_fexp prec emax
              (round_nearest_even (shr_m mrs1) (loc_of_shr_record mrs1))
              e1 loc_Exact) as [mrs2 e2].
  simpl fst in P2; simpl snd in P2.
  destruct (shr_m mrs2) as [|p|p] eqn:Em; [reflexivity| |reflexivity].
  destruct (e2 <=? emax - prec) eqn:Eb; [|reflexivity].
  simpl. unfold bounded, canonical_mantissa. rewrite Eb.
  destruct P2 as [[? _]|[_ Hc]]; [discriminate|].
  simpl Zdigits2 in Hc. rewrite Hc, Z.eqb_refl. reflexivity.
Qed.


(** Whatever the exponent, a mantissa that is not negative stays so. *)
Lemma shr_fexp_nonneg (m e : Z) (l : location) :
  0 <= m -> 0 <= shr_m (fst (shr_fexp prec emax m e l)).
Proof.
  intros Hm. unfold shr_fexp, shr.
  destruct (fexp prec emax (Zdigits2 m + e) - e) as [|n|n]; simpl fst;
    try (rewrite shr_record_of_loc_m; assumption).
  rewrite iter_shr_1_m by (rewrite shr_record_of_loc_m; assumption).
  rewrite shr_record_of_loc_m. apply Z.div_pos; [assumption|].
  apply Z.pow_pos_nonneg; lia.
Qed.

Lemma binary_round_aux_not_nan (s : bool) (m e : Z) (l : location) :
  0 <= m -> binary_round_aux prec emax s m e l <> S754_nan.
Proof.
  intros Hm. unfold binary_round_aux.
  pose proof (shr_fexp_nonneg m e l Hm) as N1.
  destruct (shr_fexp prec emax m e l) as [mrs1 e1]. simpl fst in N1.
  assert (R : 0 <= round_nearest_even (shr_m mrs1) (loc_of_shr_record mrs1))
    by (destruct (round_nearest_even_cases (shr_m mrs1)
                    (loc_of_shr_record mrs1)) as [->| ->]; lia).
  pose proof (shr_fexp_nonneg _ e1 loc_Exact R) as N2.
  destruct (shr_fexp prec emax (round_nearest_even (shr_m mrs1)
              (loc_of_shr_record mrs1)) e1 loc_Exact) as [mrs2 e2].
  simpl fst in N2.
  destruct (shr_m mrs2) as [|p|p]; [discriminate| |lia].
  destruct (e2 <=? emax - prec); discriminate.
Qed.

(** *** Alignment to the left *)

Lemma iter_xO_value (d : positive) (m : positive) :
  Zpos (Pos.iter xO m d) = Zpos m * 2 ^ Zpos d.
Proof.
  induction d as [|d IH] using Pos.peano_ind.
  - simpl. lia.
  - rewrite Pos.iter_succ, Pos2Z.inj_xO, IH, Pos2Z.inj_succ.
    rewrite Z.pow_succ_r by lia. lia.
Qed.

Lemma iter_xO_digits (d : positive) (m : positive) :
  Zpos (digits2_pos (Pos.iter xO m d)) = Zpos (digits2_pos m) + Zpos d.
Proof.
  induction d as [|d IH] using Pos.peano_ind.
  - simpl. lia.
  - rewrite Pos.iter_succ. simpl digits2_pos.
    rewrite Pos2Z.inj_succ, IH, Pos2Z.inj_succ. lia.
Qed.

Lemma binary_round_valid (s : bool) (m : positive) (e : Z) :
  valid_binary prec emax (binary_round prec emax s m e) = true.
Proof.
  unfold binary_round, shl_align.
  destruct (fexp prec emax (Zpos (digits2_pos m) + e) - e) as [|d|d] eqn:Ed;
    apply binary_round_aux_valid; try lia; simpl Zdigits2.
  - lia.
  - lia.
  - rewrite iter_xO_digits.
    replace (Zpos (digits2_pos m) + Zpos d
             + fexp prec emax (Zpos (digits2_pos m) + e))
      with (Zpos (digits2_pos m) + e) by lia.
    lia.
Qed.

(** *** Division *)

Lemma SFdiv_core_binary_fits (m1 m2 : positive) (e1 e2 : Z) :
  let '(q, e, _) := SFdiv_core_binary prec emax (Zpos m1) e1 (Zpos m2) e2 in
  0 <= q /\ e <= fexp prec emax (Zdigits2 q + e).
Proof.
  unfold SFdiv_core_binary.
  set (d1 := Zdigits2 (Zpos m1)). set (d2 := Zdigits2 (Zpos m2)).
  set (e := Z.min (fexp prec emax (d1 + e1 - (d2 + e2))) (e1 - e2)).
  set (s := e1 - e2 - e).
  set (m := match s with
            | Z0 => Zpos m1
            | Zpos _ => Z.shiftl (Zpos m1) s
            | Zneg _ => 0
            end).
  assert (Hs : 0 <= s) by (unfold s, e; lia).
  assert (Hm : m = Zpos m1 * 2 ^ s).
  { unfold m. destruct s as [|p|p]; [simpl; lia| |lia].
    rewrite Z.shiftl_mul_pow2 by lia. reflexivity. }
  assert (Hq : fst (Z.div_eucl m (Zpos m2)) = m / Zpos m2) by reflexivity.
  destruct (Z.div_eucl m (Zpos m2)) as [q r]. simpl fst in Hq.
  assert (P2 : 0 < 2 ^ s) by (apply Z.pow_pos_nonneg; lia).
  assert (Hq0 : 0 <= q).
  { rewrite Hq. apply Z.div_pos; [rewrite Hm|]; lia. }
  split; [assumption|].
  pose proof (Zdigits2_bounds (Zpos m1) ltac:(lia)) as B1.
  pose proof (Zdigits2_bounds (Zpos m2) ltac:(lia)) as B2.
  fold d1 in B1. fold d2 in B2.
  assert (D1 : 0 < d1) by (unfold d1; simpl; lia).
  assert (D2 : 0 < d2) by (unfold d2; simpl; lia).
  destruct (Z_lt_le_dec (d1 - 1 + s - d2) 0) as [Hk|Hk].
  - assert (e <= SpecFloat.emin prec emax).
    { unfold s in Hk. unfold e in *. unfold SpecFloat.fexp in *. lia. }
    pose proof (fexp_ge_emin (Zdigits2 q + e)). lia.
  - assert (L : 2 ^ (d1 - 1 + s - d2) <= q).
    { rewrite Hq. apply Z.div_le_lower_bound; [lia|].
      assert (2 ^ (d1 - 1 + s - d2) * 2 ^ d2 = 2 ^ (d1 - 1) * 2 ^ s).
      { rewrite <- !Z.pow_add_r by lia. f_equal. lia. }
      assert (0 < 2 ^ (d1 - 1 + s - d2)) by (apply Z.pow_pos_nonneg; lia).
      rewrite Hm. nia. }
    assert (0 < 2 ^ (d1 - 1 + s - d2)) by (apply Z.pow_pos_nonneg; lia).
    pose proof (Zdigits2_bounds q ltac:(lia)) as Bq.
    assert (d1 - 1 + s - d2 < Zdigits2 q).
    { apply (Z.pow_lt_mono_r_iff 2); [lia|apply Zdigits2_nonneg|lia]. }
    assert (e <= fexp prec emax (d1 + e1 - (d2 + e2))) by (unfold e; lia).
    assert (fexp prec emax (d1 + e1 - (d2 + e2))
            <= fexp prec emax (Zdigits2 q + e))
      by (apply fexp_mono; unfold s in *; lia).
    lia.
Qed.

Lemma SFdiv_finite_valid (s1 s2 : bool) (m1 m2 : positive) (e1 e2 : Z) :
  valid_binary prec emax
    (SFdiv prec emax (S754_finite s1 m1 e1) (S754_finite s2 m2 e2)) = true.
Proof.
  unfold SFdiv.
  pose proof (SFdiv_core_binary_fits m1 m2 e1 e2) as H.
  destruct (SFdiv_core_binary prec emax (Zpos m1) e1 (Zpos m2) e2)
    as [[q e] l].
  destruct H as [Hq He]. now apply binary_round_aux_valid.
Qed.

(** *** Exact products *)

Lemma shr_1_even (m : Z) :
  0 <= m ->
  shr_1 (Build_shr_record (2 * m) false false) = Build_shr_record m false false.
Proof. destruct m as [|p|p]; try lia; reflexivity. Qed.

Lemma iter_shr_1_exact (n : positive) :
  forall m, 0 <= m ->
    iter_pos shr_1 n (Build_shr_record (m * 2 ^ Zpos n) false false)
    = Build_shr_record m false false.
Proof.
  induction n as [n IH|n IH|]; intros m Hm; cbn [iter_pos].
  - assert (P : 0 < 2 ^ Zpos n) by (apply Z.pow_pos_nonneg; lia).
    replace (m * 2 ^ Zpos n~1) with (2 * (m * 2 ^ Zpos n * 2 ^ Zpos n)).
    + rewrite shr_1_even by nia. rewrite IH by nia. now apply IH.
    + rewrite (Pos2Z.inj_xI n).
      replace (2 * Zpos n + 1) with (1 + Zpos n + Zpos n) by lia.
      rewrite !Z.pow_add_r by lia. change (2 ^ 1) with 2. lia.
  - assert (P : 0 < 2 ^ Zpos n) by (apply Z.pow_pos_nonneg; lia).
    replace (m * 2 ^ Zpos n~0) with (m * 2 ^ Zpos n * 2 ^ Zpos n).
    + rewrite IH by nia. now apply IH.
    + rewrite (Pos2Z.inj_xO n).
      replace (2 * Zpos n) with (Zpos n + Zpos n) by lia.
      rewrite Z.pow_add_r by lia. lia.
  - replace (m * 2 ^ 1) with (2 * m) by (change (2 ^ 1) with 2; lia).
    now apply shr_1_even.
Qed.

Lemma Zdigits2_mul_pow2 (m : positive) (k : Z) :
  0 <= k -> Zdigits2 (Zpos m * 2 ^ k) = Zdigits2 (Zpos m) + k.
Proof.
  intros Hk. pose proof (Zdigits2_bounds (Zpos m) ltac:(lia)) as B.
  assert (P : 0 < 2 ^ k) by (apply Z.pow_pos_nonneg; lia).
  assert (D : 0 < Zdigits2 (Zpos m)) by (simpl; lia).
  apply Zdigits2_unique; [|nia].
  replace (Zdigits2 (Zpos m) + k - 1) with (Zdigits2 (Zpos m) - 1 + k) by lia.
  rewrite !Z.pow_add_r by lia. nia.
Qed.

Lemma shr_fexp_exact (m : positive) (e : Z) (k : positive) :
  fexp prec emax (Zpos (digits2_pos m) + e) = e ->
  shr_fexp prec emax (Zpos m * 2 ^ Zpos k) (e - Zpos k) loc_Exact
  = (Build_shr_record (Zpos m) false false, e).
Proof.
  intros Hc. unfold shr_fexp, shr.
  rewrite Zdigits2_mul_pow2 by lia. cbn [Zdigits2].
  replace (Zpos (digits2_pos m) + Zpos k + (e - Zpos k))
    with (Zpos (digits2_pos m) + e) by lia.
  rewrite Hc. replace (e - (e - Zpos k)) with (Zpos k) by lia.
  unfold shr_record_of_loc. rewrite iter_shr_1_exact by lia.
  f_equal. lia.
Qed.

Lemma shr_fexp_still (m : positive) (e : Z) :
  fexp prec emax (Zpos (digits2_pos m) + e) = e ->
  shr_fexp prec emax (Zpos m) e loc_Exact
  = (Build_shr_record (Zpos m) false false, e).
Proof.
  intros Hc. unfold shr_fexp, shr. cbn [Zdigits2].
  rewrite Hc, Z.sub_diag. reflexivity.
Qed.

(** Rounding a valid float written with [k] more bits gives it back. *)
Lemma binary_round_aux_exact (s : bool) (m : positive) (e : Z) (k : positive) :
  bounded prec emax m e = true ->
  binary_round_aux prec emax s (Zpos m * 2 ^ Zpos k) (e - Zpos k) loc_Exact
  = S754_finite s m e.
Proof.
  unfold bounded, canonical_mantissa. intros Hb.
  apply andb_prop in Hb. destruct Hb as [Hc Hb].
  apply Z.eqb_eq in Hc.
  unfold binary_round_aux.
  rewrite (shr_fexp_exact m e k Hc).
  cbn [shr_m loc_of_shr_record round_nearest_even].
  rewrite (shr_fexp_still m e Hc). cbn [shr_m].
  rewrite Hb. reflexivity.
Qed.

End Rounding.

(** ** The countdown engine *)

Lemma TimerState_eqb_eq (a b : TimerState) :
  TimerState_eqb a b = true <-> a = b.
Proof. destruct a, b; simpl; split; congruence. Qed.

Lemma TimerState_eqb_refl (a : TimerState) : TimerState_eqb a a = true.
Proof. now destruct a. Qed.

Lemma TimerState_eqb_neq (a b : TimerState) :
  a <> b -> TimerState_eqb a b = false.
Proof. destruct a, b; simpl; congruence. Qed.

(** [play_alarm] touches nothing but the player's counters and the
    console. *)
Lemma alarm_loop_frame (n : nat) (t : ModernTimer) :
  let t' := alarm_loop n t in
  config t' = config t /\ state t' = state t /\ remaining t' = remaining t
  /\ time_label t' = time_label t /\ buttons t' = buttons t
  /\ time_entry t' = time_entry t /\ error_labels t' = error_labels t
  /\ next_id t' = next_id t /\ pending t' = pending t
  /\ root_alive t' = root_alive t /\ spawn_ok t' = spawn_ok t
  /\ alarms t' = alarms t.
Proof.
  revert t; induction n as [|k IH]; intros t; simpl.
  - repeat split.
  - destruct (spawn_ok t (spawned t)).
    + specialize (IH (set_player (S (spawned t)) (S (played t)) (alarms t)
                        (printed t) t)).
      simpl in IH. exact IH.
    + simpl. repeat split.
Qed.

Lemma play_alarm_frame (t : ModernTimer) :
  let t' := play_alarm t in
  config t' = config t /\ state t' = state t /\ remaining t' = remaining t
  /\ time_label t' = time_label t /\ buttons t' = buttons t
  /\ time_entry t' = time_entry t /\ error_labels t' = error_labels t
  /\ next_id t' = next_id t /\ pending t' = pending t
  /\ root_alive t' = root_alive t /\ spawn_ok t' = spawn_ok t
  /\ alarms t' = S (alarms t).
Proof.
  unfold play_alarm.
  pose proof (alarm_loop_frame (Z.to_nat (repetitions (config t)))
                (set_player (spawned t) (played t) (S (alarms t)) (printed t) t))
    as H.
  simpl in H. exact H.
Qed.

(** When every launch returns, the loop launches and plays [n] times. *)
Lemma alarm_loop_all_ok (n : nat) (t : ModernTimer) :
  (forall i, (i < n)%nat -> spawn_ok t (spawned t + i)%nat = true) ->
  spawned (alarm_loop n t) = (spawned t + n)%nat
  /\ played (alarm_loop n t) = (played t + n)%nat
  /\ printed (alarm_loop n t) = printed t.
Proof.
  revert t; induction n as [|k IH]; intros t Hok; simpl.
  - repeat split; lia.
  - assert (H0 : spawn_ok t (spawned t) = true).
    { specialize (Hok O). rewrite Nat.add_0_r in Hok. apply Hok. lia. }
    rewrite H0.
    destruct (IH (set_player (S (spawned t)) (S (played t)) (alarms t)
                    (printed t) t)) as (A & B & C).
    { intros i Hi. simpl.
      rewrite plus_n_Sm. apply Hok. lia. }
    simpl in A, B, C. repeat split; [lia | lia | exact C].
Qed.

(** A launch that raises ends the loop: nothing is launched after it. *)
Lemma alarm_loop_first_fails (n : nat) (t : ModernTimer) :
  spawn_ok t (spawned t) = false ->
  spawned (alarm_loop (S n) t) = S (spawned t)
  /\ played (alarm_loop (S n) t) = played t
  /\ printed (alarm_loop (S n) t) = alarm_error :: printed t.
Proof. intros H. simpl. rewrite H. simpl. repeat split. Qed.

(** The same at the launch number [k]: the [k] launches before it have
    played, and the loop ends there. *)
Lemma alarm_loop_fails_at (k : nat) :
  forall (n : nat) (t : ModernTimer),
    (k < n)%nat ->
    (forall i, (i < k)%nat -> spawn_ok t (spawned t + i)%nat = true) ->
    spawn_ok t (spawned t + k)%nat = false ->
    spawned (alarm_loop n t) = (spawned t + S k)%nat
    /\ played (alarm_loop n t) = (played t + k)%nat
    /\ printed (alarm_loop n t) = alarm_error :: printed t.
Proof.
  induction k as [|k IH]; intros n t Hk Hok Hbad;
    (destruct n as [|n]; [lia|]).
  - rewrite Nat.add_0_r in Hbad.
    destruct (alarm_loop_first_fails n t Hbad) as (A & B & C).
    repeat split; [lia|lia|exact C].
  - assert (H0 : spawn_ok t (spawned t) = true).
    { specialize (Hok O). rewrite Nat.add_0_r in Hok. apply Hok. lia. }
    cbn [alarm_loop]. rewrite H0.
    destruct (IH n (set_player (S (spawned t)) (S (played t)) (alarms t)
                      (printed t) t)) as (A & B & C).
    + lia.
    + intros i Hi. cbn [set_player spawn_ok spawned].
      replace (S (spawned t) + i)%nat with (spawned t + S i)%nat by lia.
      apply Hok. lia.
    + cbn [set_player spawn_ok spawned].
      replace (S (spawned t) + k)%nat with (spawned t + S k)%nat by lia.
      exact Hbad.
    + cbn [set_player spawned played printed] in A, B, C.
      repeat split; [lia|lia|exact C].
Qed.

(** Whatever the launches do, the loop never launches or plays more than
    [n] times. *)
Lemma alarm_loop_at_most (n : nat) (t : ModernTimer) :
  (spawned (alarm_loop n t) <= spawned t + n)%nat
  /\ (played (alarm_loop n t) <= played t + n)%nat
  /\ (played t <= played (alarm_loop n t))%nat.
Proof.
  revert t; induction n as [|k IH]; intros t; simpl.
  - lia.
  - destruct (spawn_ok t (spawned t)).
    + destruct (IH (set_player (S (spawned t)) (S (played t)) (alarms t)
                      (printed t) t)) as (A & B & C).
      simpl in A, B, C. lia.
    + simpl. lia.
Qed.

Lemma update_timer_running_pos (t : ModernTimer) :
  state t = RUNNING -> remaining t > 0 ->
  update_timer t =
    after 1000 cb_update_timer
      (set_remaining (remaining t - 1) (set_time_label (format_time t) t)).
Proof.
  intros Hs Hr. unfold update_timer.
  rewrite Hs. simpl.
  destruct (remaining t >? 0) eqn:E; [reflexivity|].
  rewrite Z.gtb_ltb in E. apply Z.ltb_ge in E. lia.
Qed.

Lemma update_timer_running_zero (t : ModernTimer) :
  state t = RUNNING -> remaining t <= 0 ->
  update_timer t =
    after 1000 cb_root_destroy
      (set_state STOPPED (play_alarm (set_time_label (format_time t) t))).
Proof.
  intros Hs Hr. unfold update_timer.
  rewrite Hs. simpl.
  destruct (remaining t >? 0) eqn:E.
  - rewrite Z.gtb_ltb in E. apply Z.ltb_lt in E. lia.
  - destruct (remaining t <=? 0) eqn:F; [reflexivity|].
    apply Z.leb_gt in F. lia.
Qed.

Lemma update_timer_not_running (t : ModernTimer) :
  state t <> RUNNING -> update_timer t = t.
Proof.
  intros Hs. unfold update_timer.
  now rewrite (TimerState_eqb_neq _ _ Hs).
Qed.

(** The fields after a tick of a running engine. *)
Lemma update_timer_fields (t : ModernTimer) :
  state t = RUNNING ->
  (remaining t > 0 ->
     time_label (update_timer t) = format_time t
     /\ remaining (update_timer t) = remaining t - 1
     /\ pending (update_timer t) = (pending t ++ [(1000, cb_update_timer)])%list
     /\ state (update_timer t) = RUNNING
     /\ alarms (update_timer t) = alarms t)
  /\ (remaining t = 0 ->
     time_label (update_timer t) = format_time t
     /\ alarms (update_timer t) = S (alarms t)
     /\ state (update_timer t) = STOPPED
     /\ pending (update_timer t) = (pending t ++ [(1000, cb_root_destroy)])%list
     /\ remaining (update_timer t) = 0).
Proof.
  intros Hs. split.
  - intros Hr. rewrite (update_timer_running_pos t Hs Hr). simpl.
    repeat split; assumption.
  - intros Hr.
    rewrite (update_timer_running_zero t Hs) by lia.
    destruct (play_alarm_frame (set_time_label (format_time t) t))
      as (_ & _ & Hrem & Hlab & _ & _ & _ & _ & Hpen & _ & _ & Hal).
    simpl in *. rewrite Hlab, Hal, Hpen, Hrem. repeat split. exact Hr.
Qed.

(** C2.  One tick, for every state of the engine.  While RUNNING with
    time left, [update_timer] shows the time left, then takes one second
    off and schedules the next tick.  While RUNNING with no time left, it
    shows it, fires the alarm, goes to STOPPED and schedules the end of the
    application.  In any other state it changes nothing. *)
Theorem update_timer_tick (t : ModernTimer) :
  (state t = RUNNING -> remaining t > 0 ->
     time_label (update_timer t) = format_time t
     /\ remaining (update_timer t) = remaining t - 1
     /\ pending (update_timer t) = (pending t ++ [(1000, cb_update_timer)])%list
     /\ state (update_timer t) = RUNNING
     /\ alarms (update_timer t) = alarms t)
  /\ (state t = RUNNING -> remaining t = 0 ->
     time_label (update_timer t) = format_time t
     /\ alarms (update_timer t) = S (alarms t)
     /\ state (update_timer t) = STOPPED
     /\ pending (update_timer t) = (pending t ++ [(1000, cb_root_destroy)])%list
     /\ remaining (update_timer t) = 0)
  /\ (state t <> RUNNING -> update_timer t = t).
Proof.
  split; [|split].
  - intros Hs. apply (update_timer_fields t Hs).
  - intros Hs. apply (update_timer_fields t Hs).
  - apply update_timer_not_running.
Qed.

Lemma update_timer_tick_witness :
  (remaining (update_timer (timer_running 5 (fun _ => true))) = 5 - 1)
  /\ (state (update_timer (timer_running 0 (fun _ => true))) = STOPPED)
  /\ (update_timer (init default_config (fun _ => true))
      = init default_config (fun _ => true)).
Proof.
  split; [|split].
  - refine (proj1 (proj2 (proj1 (update_timer_tick
              (timer_running 5 (fun _ => true))) _ _))); reflexivity.
  - refine (proj1 (proj2 (proj2 (proj1 (proj2 (update_timer_tick
              (timer_running 0 (fun _ => true)))) _ _)))); reflexivity.
  - refine (proj2 (proj2 (update_timer_tick
              (init default_config (fun _ => true)))) _).
    simpl. discriminate.
Defined.

(** The claim C3 as it is worded fails: a pause followed by a resume takes
    one second off the time left, because resuming runs a tick at once. *)
Lemma pause_resume_takes_a_second :
  ~ (forall t : ModernTimer,
       state t = RUNNING ->
       remaining (pause_timer (pause_timer t)) = remaining t).
Proof.
  intros H.
  specialize (H (timer_running 5 (fun _ => true)) eq_refl).
  vm_compute in H. discriminate H.
Qed.

(** A tick that was pending when the pause began and has not come due when
    the timer is resumed stays in the queue next to the new one. *)
Lemma pause_resume_keeps_pending_tick :
  pending (pause_timer (pause_timer
             (update_timer (timer_running 5 (fun _ => true)))))
  = [(1000, cb_update_timer); (1000, cb_update_timer)].
Proof. reflexivity. Qed.

(** C3, amended.  From RUNNING with [R] seconds left, pausing keeps [R],
    and a tick that comes due during the pause changes nothing.  Resuming
    goes back to RUNNING and runs one tick at once: with [R > 0] it shows
    [R], leaves [R - 1] and schedules a tick; with [R <= 0] it fires the
    alarm and stops. *)
Theorem pause_resume (t : ModernTimer) :
  state t = RUNNING ->
  let p := pause_timer t in
  let r := pause_timer p in
  state p = PAUSED /\ remaining p = remaining t /\ pending p = pending t
  /\ update_timer p = p
  /\ (remaining t > 0 ->
      state r = RUNNING /\ remaining r = remaining t - 1
      /\ time_label r = format_time t
      /\ pending r = (pending t ++ [(1000, cb_update_timer)])%list)
  /\ (remaining t <= 0 ->
      state r = STOPPED /\ remaining r = remaining t
      /\ alarms r = S (alarms t)).
Proof.
  intros Hs p r.
  assert (Hp : p = on_pausar (configure_text "Reanudar") (set_state PAUSED t)).
  { unfold p, pause_timer. rewrite Hs. reflexivity. }
  assert (Hr : r = update_timer
                     (on_pausar (configure_text "Pausar") (set_state RUNNING p))).
  { unfold r. rewrite Hp. reflexivity. }
  split; [rewrite Hp; reflexivity|].
  split; [rewrite Hp; reflexivity|].
  split; [rewrite Hp; reflexivity|].
  split.
  { apply update_timer_not_running. rewrite Hp. simpl. discriminate. }
  split.
  - intros Hpos. rewrite Hr, update_timer_running_pos.
    + rewrite Hp. simpl. repeat split.
    + reflexivity.
    + rewrite Hp. simpl. exact Hpos.
  - intros Hle. rewrite Hr, update_timer_running_zero.
    + match goal with
      | |- context [play_alarm ?u] =>
          destruct (play_alarm_frame u)
            as (_ & _ & Hrem & _ & _ & _ & _ & _ & _ & _ & _ & Hal)
      end.
      simpl in *. rewrite Hrem, Hal, Hp. simpl. repeat split.
    + reflexivity.
    + rewrite Hp. simpl. exact Hle.
Qed.

Lemma pause_resume_witness :
  let t := timer_running 5 (fun _ => true) in
  state (pause_timer t) = PAUSED /\ remaining (pause_timer t) = 5
  /\ remaining (pause_timer (pause_timer t)) = 4.
Proof.
  intros t.
  pose proof (pause_resume t eq_refl) as H. cbv zeta in H.
  destruct H as (A & B & _ & _ & C & _).
  split; [exact A|]. split; [exact B|].
  destruct (C eq_refl) as (_ & D & _). exact D.
Defined.

Lemma ticks_not_running (n : nat) (t : ModernTimer) :
  state t <> RUNNING -> Nat.iter n update_timer t = t.
Proof.
  intros Hs. induction n as [|k IH]; simpl.
  - reflexivity.
  - rewrite IH. now apply update_timer_not_running.
Qed.

Lemma iter_shift {A : Type} (f : A -> A) (n : nat) (x : A) :
  Nat.iter n f (f x) = f (Nat.iter n f x).
Proof.
  induction n as [|k IH]; simpl; [reflexivity | now rewrite IH].
Qed.

(** A countdown left alone: from RUNNING with [r] seconds left, [r] ticks
    bring the time left to zero without any alarm. *)
Lemma ticks_count_down (r : nat) (t : ModernTimer) :
  state t = RUNNING -> remaining t = Z.of_nat r ->
  let t' := Nat.iter r update_timer t in
  state t' = RUNNING /\ remaining t' = 0 /\ alarms t' = alarms t
  /\ played t' = played t /\ spawned t' = spawned t
  /\ config t' = config t /\ spawn_ok t' = spawn_ok t.
Proof.
  revert t; induction r as [|k IH]; intros t Hs Hr.
  - simpl. repeat split; assumption.
  - cbv zeta. simpl Nat.iter. rewrite <- iter_shift.
    assert (Hpos : remaining t > 0) by lia.
    specialize (IH (update_timer t)).
    rewrite (update_timer_running_pos t Hs Hpos) in *.
    simpl in IH. destruct IH as (A & B & C & D & E & F & G); [assumption|lia|].
    repeat split; assumption.
Qed.

(** The claim C6 as it is worded fails on the number of times the sound is
    played: when the launch of the player raises, the handler of
    [play_alarm] ends the loop and nothing is played. *)
Lemma alarm_without_player :
  ~ (forall t : ModernTimer,
       state t = RUNNING -> remaining t = 0 ->
       Z.of_nat (played (update_timer t))
       = Z.of_nat (played t) + repetitions (config t)).
Proof.
  intros H.
  specialize (H (timer_running 0 (fun _ => false)) eq_refl eq_refl).
  vm_compute in H. discriminate H.
Qed.

(** C6, amended.  [update_timer] changes the time left only while RUNNING,
    and then by one second.  A tick that finds the engine RUNNING with no
    time left calls the alarm once and goes to STOPPED, and ticks that
    follow change nothing; the alarm never plays more than [repetitions]
    times, and plays exactly [repetitions] times when [repetitions] is not
    negative and every launch of the player returns.  A launch that raises
    is caught and ends the loop: when the launch number [k], counting from
    zero, is the first to raise, the sound has played [k] times, nothing is
    launched after it, one line is printed, and the engine goes to STOPPED
    all the same.  A countdown left alone from [r] seconds reaches that
    tick after [r] others. *)
Theorem alarm_exactly_once (t : ModernTimer) :
  (remaining (update_timer t) <> remaining t ->
     state t = RUNNING /\ remaining (update_timer t) = remaining t - 1)
  /\ (state t = RUNNING -> remaining t = 0 ->
      let t' := update_timer t in
      alarms t' = S (alarms t) /\ state t' = STOPPED
      /\ (forall n, Nat.iter n update_timer t' = t')
      /\ (played t <= played t' <= played t + Z.to_nat (repetitions (config t)))%nat
      /\ (0 <= repetitions (config t) -> player_works t ->
          Z.of_nat (spawned t') = Z.of_nat (spawned t) + repetitions (config t)
          /\ Z.of_nat (played t') = Z.of_nat (played t) + repetitions (config t)
          /\ printed t' = printed t)
      /\ (forall k : nat,
          (k < Z.to_nat (repetitions (config t)))%nat ->
          (forall i, (i < k)%nat -> spawn_ok t (spawned t + i)%nat = true) ->
          spawn_ok t (spawned t + k)%nat = false ->
          spawned t' = (spawned t + S k)%nat
          /\ played t' = (played t + k)%nat
          /\ printed t' = alarm_error :: printed t))
  /\ (forall r : nat,
      state t = RUNNING -> remaining t = Z.of_nat r ->
      let t' := Nat.iter (S r) update_timer t in
      alarms t' = S (alarms t) /\ state t' = STOPPED /\ remaining t' = 0
      /\ forall n, Nat.iter n update_timer t' = t').
Proof.
  assert (Hzero : forall u, state u = RUNNING -> remaining u = 0 ->
            alarms (update_timer u) = S (alarms u)
            /\ state (update_timer u) = STOPPED
            /\ remaining (update_timer u) = 0
            /\ forall n, Nat.iter n update_timer (update_timer u)
                         = update_timer u).
  { intros u Hs Hr.
    destruct (update_timer_fields u Hs) as (_ & Z0).
    destruct (Z0 Hr) as (_ & A & B & _ & C).
    repeat split; try assumption.
    intros n. apply ticks_not_running. rewrite B. discriminate. }
  split; [|split].
  - intros Hne. destruct (state t) eqn:Hs.
    + exfalso. apply Hne. rewrite update_timer_not_running; [reflexivity|].
      rewrite Hs. discriminate.
    + split; [reflexivity|].
      destruct (Z_gt_le_dec (remaining t) 0) as [Hpos|Hle].
      * rewrite (update_timer_running_pos t Hs Hpos). reflexivity.
      * exfalso. apply Hne. rewrite (update_timer_running_zero t Hs Hle).
        destruct (play_alarm_frame (set_time_label (format_time t) t))
          as (_ & _ & Hrem & _).
        simpl in *. exact Hrem.
    + exfalso. apply Hne. rewrite update_timer_not_running; [reflexivity|].
      rewrite Hs. discriminate.
  - intros Hs Hr t'. destruct (Hzero t Hs Hr) as (A & B & _ & D).
    split; [exact A|]. split; [exact B|]. split; [exact D|].
    unfold t'. rewrite (update_timer_running_zero t Hs) by lia. simpl.
    unfold play_alarm. simpl.
    split.
    { match goal with
      | |- context [alarm_loop ?k ?u] =>
          destruct (alarm_loop_at_most k u) as (_ & F & G)
      end.
      simpl in F, G. lia. }
    split.
    { intros Hrep Hok.
      match goal with
      | |- context [alarm_loop ?k ?u] =>
          destruct (alarm_loop_all_ok k u) as (E & F & G)
      end.
      { intros i Hi. simpl. apply Hok. exact Hi. }
      simpl in E, F, G. rewrite E, F, G.
      rewrite !Nat2Z.inj_add, Z2Nat.id by exact Hrep. repeat split. }
    intros k Hk Hok Hbad.
    match goal with
    | |- context [alarm_loop ?n ?u] =>
        destruct (alarm_loop_fails_at k n u Hk Hok Hbad) as (E & F & G)
    end.
    simpl in E, F, G. repeat split; assumption.
  - intros r Hs Hr t'.
    destruct (ticks_count_down r t Hs Hr) as (A & B & C & _).
    destruct (Hzero (Nat.iter r update_timer t) A B) as (E & F & G & H).
    unfold t'. simpl Nat.iter. rewrite E, C. repeat split; assumption.
Qed.

Lemma alarm_exactly_once_witness :
  let t := timer_running 0 (fun _ => true) in
  let u := timer_running 0 (fun i => Nat.ltb i 1) in
  alarms (update_timer t) = 1%nat /\ state (update_timer t) = STOPPED
  /\ Z.of_nat (played (update_timer t)) = 3
  /\ alarms (Nat.iter 3 update_timer (timer_running 2 (fun _ => true))) = 1%nat
  /\ state (update_timer u) = STOPPED
  /\ played (update_timer u) = 1%nat /\ spawned (update_timer u) = 2%nat.
Proof.
  intros t u.
  destruct (alarm_exactly_once t) as (_ & H & _).
  destruct (H eq_refl eq_refl) as (A & B & _ & _ & C & _).
  destruct C as (_ & D & _).
  { simpl. lia. }
  { intros i _. reflexivity. }
  split; [exact A|]. split; [exact B|]. split; [exact D|].
  destruct (alarm_exactly_once (timer_running 2 (fun _ => true)))
    as (_ & _ & R).
  destruct (R 2%nat eq_refl eq_refl) as (E & _). split; [exact E|].
  destruct (alarm_exactly_once u) as (_ & Hu & _).
  destruct (Hu eq_refl eq_refl) as (_ & Bu & _ & _ & _ & Fu).
  destruct (Fu 1%nat) as (Su & Pu & _).
  { vm_compute. lia. }
  { intros [|i] Hi; [reflexivity|lia]. }
  { reflexivity. }
  split; [exact Bu|]. split; [exact Pu|exact Su].
Defined.

(** The same through the event loop: a countdown left alone, with its tick
    pending, fires the alarm once after [r] seconds more, and the callback
    scheduled then ends the application. *)
Lemma countdown_left_alone (r : nat) (t : ModernTimer) :
  root_alive t = true -> state t = RUNNING -> remaining t = Z.of_nat r ->
  pending t = [(1000, cb_update_timer)] ->
  let t' := Nat.iter (S r) fire t in
  state t' = STOPPED /\ alarms t' = S (alarms t) /\ remaining t' = 0
  /\ pending t' = [(1000, cb_root_destroy)] /\ root_alive t' = true
  /\ root_alive (fire t') = false.
Proof.
  revert t; induction r as [|k IH]; intros t Ha Hs Hr Hp.
  - cbv zeta. simpl Nat.iter.
    set (u := set_pending [] t).
    assert (Hf : fire t = update_timer u).
    { unfold fire. rewrite Ha, Hp. reflexivity. }
    destruct (update_timer_fields u Hs) as (_ & Z0).
    destruct (Z0 Hr) as (_ & A & B & C & D).
    destruct (play_alarm_frame (set_time_label (format_time u) u))
      as (_ & _ & _ & _ & _ & _ & _ & _ & _ & E & _).
    assert (F : root_alive (update_timer u) = true).
    { rewrite (update_timer_running_zero u Hs)
        by (change (remaining u) with (remaining t); lia).
      simpl in *. rewrite E. exact Ha. }
    rewrite Hf. repeat split; try assumption.
    unfold fire. rewrite F, C. reflexivity.
  - assert (Hf : fire t
                 = after 1000 cb_update_timer
                     (set_remaining (remaining t - 1)
                        (set_time_label (format_time t) (set_pending [] t)))).
    { unfold fire. rewrite Ha, Hp. cbn [run_callback].
      apply (update_timer_running_pos (set_pending [] t) Hs).
      change (remaining t > 0). lia. }
    assert (Hi : Nat.iter (S (S k)) fire t = Nat.iter (S k) fire (fire t)).
    { symmetry. apply (iter_shift fire (S k) t). }
    cbv zeta. rewrite Hi.
    destruct (IH (fire t)) as (A & B & C).
    + rewrite Hf. exact Ha.
    + rewrite Hf. exact Hs.
    + rewrite Hf. cbn [after set_pending set_remaining remaining]. lia.
    + rewrite Hf. reflexivity.
    + split; [exact A|]. split; [|exact C].
      rewrite B, Hf. reflexivity.
Qed.

(** C7.  Whatever the state and the time left, [stop_timer] leaves the
    engine STOPPED with no time left. *)
Theorem stop_timer_resets (t : ModernTimer) :
  remaining (stop_timer t) = 0 /\ state (stop_timer t) = STOPPED.
Proof. split; reflexivity. Qed.

(** [stop_timer] also shows the zero time and gives the buttons back. *)
Lemma stop_timer_widgets (t : ModernTimer) :
  time_label (stop_timer t) = "00:00:00"
  /\ btn_state (iniciar (buttons (stop_timer t))) = normal
  /\ btn_state (pausar (buttons (stop_timer t))) = disabled
  /\ btn_state (detener (buttons (stop_timer t))) = disabled.
Proof. repeat split. Qed.

(** C10.  While STOPPED the pause button does nothing at all: the engine
    stays STOPPED with the same time left, however often it is pressed. *)
Theorem pause_timer_stopped (t : ModernTimer) :
  state t = STOPPED ->
  pause_timer t = t
  /\ state (pause_timer t) = STOPPED
  /\ remaining (pause_timer t) = remaining t
  /\ forall n, Nat.iter n pause_timer t = t.
Proof.
  intros Hs.
  assert (H : pause_timer t = t).
  { unfold pause_timer. rewrite Hs. reflexivity. }
  rewrite H. repeat split; try assumption.
  intros n. induction n as [|k IH]; simpl; [reflexivity|].
  rewrite IH. exact H.
Qed.

Lemma pause_timer_stopped_witness :
  pause_timer (init default_config (fun _ => true))
  = init default_config (fun _ => true).
Proof.
  exact (proj1 (pause_timer_stopped
                  (init default_config (fun _ => true)) eq_refl)).
Defined.

(** ** Floats as [float(str)] builds them *)

Lemma of_decimal_valid (neg : bool) (d e : Z) :
  valid_binary PyFloat.prec PyFloat.emax (PyFloat.of_decimal neg d e) = true.
Proof.
  unfold PyFloat.of_decimal. destruct d as [|p|p]; try reflexivity.
  destruct (0 <=? e).
  - apply binary_round_valid. reflexivity.
  - apply SFdiv_finite_valid. reflexivity.
Qed.

Lemma dg_strtod_valid (s r : list ascii) (x : PyFloat.float) :
  PyFloat.dg_strtod s = Some (x, r) ->
  valid_binary PyFloat.prec PyFloat.emax x = true.
Proof.
  unfold PyFloat.dg_strtod.
  destruct (PyFloat.scan_sign s) as [neg s1].
  destruct (PyFloat.span is_digit s1) as [ip s2].
  destruct (match s2 with
            | [] => ([], s2)
            | c :: r0 =>
                if PyFloat.is_char "." c then PyFloat.span is_digit r0
                else ([], s2)
            end) as [fp s3].
  destruct (ip ++ fp)%list as [|c ds]; [discriminate|].
  destruct (PyFloat.scan_exponent s3) as [ex s4].
  intros H. injection H as <- _. apply of_decimal_valid.
Qed.

Lemma parse_inf_or_nan_valid (s r : list ascii) (x : PyFloat.float) :
  PyFloat.parse_inf_or_nan s = Some (x, r) ->
  valid_binary PyFloat.prec PyFloat.emax x = true.
Proof.
  unfold PyFloat.parse_inf_or_nan.
  destruct (PyFloat.scan_sign s) as [neg s1].
  repeat match goal with
         | |- context [match ?o with Some _ => _ | None => _ end] =>
             destruct o
         end;
    intros H; try discriminate; injection H as <- _; reflexivity.
Qed.

Lemma float_from_string_inner_cases (s : list ascii) :
  PyFloat.float_from_string_inner s = Raise ValueError
  \/ exists x, PyFloat.float_from_string_inner s = Ok x
               /\ valid_binary PyFloat.prec PyFloat.emax x = true.
Proof.
  unfold PyFloat.float_from_string_inner.
  destruct (PyFloat.drop_while Py_ISSPACE s) as [|c s1]; [now left|].
  destruct (PyFloat.string_to_double _) as [[x r]|] eqn:E; [|now left].
  destruct r; [|now left]. right. exists x. split; [reflexivity|].
  unfold PyFloat.string_to_double in E.
  destruct (PyFloat.dg_strtod _) as [[y r]|] eqn:D.
  - injection E as <- _. eapply dg_strtod_valid; eassumption.
  - eapply parse_inf_or_nan_valid; eassumption.
Qed.

(** [float(s)] either raises [ValueError] or returns a valid binary64
    value. *)
Lemma of_string_cases (s : string) :
  PyFloat.of_string s = Raise ValueError
  \/ exists x, PyFloat.of_string s = Ok x
               /\ valid_binary PyFloat.prec PyFloat.emax x = true.
Proof.
  unfold PyFloat.of_string.
  destruct (PyFloat.has_char "_" _).
  - destruct (PyFloat.remove_underscores _ _) as [u|]; [|now left].
    destruct (PyFloat.has_char "000" u); [now left|].
    apply float_from_string_inner_cases.
  - apply float_from_string_inner_cases.
Qed.

Lemma of_string_valid (s : string) (x : PyFloat.float) :
  PyFloat.of_string s = Ok x ->
  valid_binary PyFloat.prec PyFloat.emax x = true.
Proof.
  intros H. destruct (of_string_cases s) as [E|(y & E & V)];
    rewrite E in H; [discriminate|]. now injection H as <-.
Qed.

Lemma of_string_raises (s : string) (e : exn) :
  PyFloat.of_string s = Raise e -> e = ValueError.
Proof.
  intros H. destruct (of_string_cases s) as [E|(y & E & V)];
    rewrite E in H; [|discriminate]. now injection H as <-.
Qed.

Lemma of_string_empty : PyFloat.of_string "" = Raise ValueError.
Proof. reflexivity. Qed.

(** Multiplying by the float 1.0 is exact. *)
Lemma fmul_one (x : PyFloat.float) :
  valid_binary PyFloat.prec PyFloat.emax x = true ->
  PyFloat.fmul x (PyFloat.of_int 1) = x.
Proof.
  intros V.
  change (PyFloat.of_int 1) with (S754_finite false 4503599627370496 (-52)).
  destruct x as [s|s| |s m e]; try (destruct s; reflexivity);
    try reflexivity.
  unfold PyFloat.fmul, SFmul. rewrite xorb_false_r.
  change (Zpos (m * 4503599627370496)) with (Zpos m * 2 ^ 52).
  replace (e + -52) with (e - 52) by lia.
  apply binary_round_aux_exact. exact V.
Qed.

(** A product by a finite float that is not zero is a NaN only when the
    other factor is. *)
Lemma fmul_not_nan (x : PyFloat.float) (s : bool) (m : positive) (e : Z) :
  x <> S754_nan -> PyFloat.fmul x (S754_finite s m e) <> S754_nan.
Proof.
  intros Hx. destruct x as [sx|sx| |sx mx ex]; simpl; try discriminate.
  - congruence.
  - apply binary_round_aux_not_nan. lia.
Qed.

(** The floats above zero. *)
Lemma fltb_zero_cases (x : PyFloat.float) :
  PyFloat.fltb PyFloat.zero x = true ->
  x = S754_infinity false \/ exists m e, x = S754_finite false m e.
Proof.
  destruct x as [s|[]| |[] m e]; simpl; try discriminate.
  - now left.
  - right. now exists m, e.
Qed.

(** Below or at zero, above zero, or unordered. *)
Lemma fleb_zero_cases (x : PyFloat.float) :
  PyFloat.fleb x PyFloat.zero = true
  \/ PyFloat.fltb PyFloat.zero x = true
  \/ x = S754_nan.
Proof. destruct x as [s|[]| |[] m e]; simpl; auto. Qed.

Lemma fleb_fltb_zero (x : PyFloat.float) :
  PyFloat.fltb PyFloat.zero x = true -> PyFloat.fleb x PyFloat.zero = false.
Proof. destruct x as [s|[]| |[] m e]; simpl; auto; discriminate. Qed.

(** On a float that is not negative, [int] is the floor. *)
Lemma to_int_floor (m : positive) (e : Z) :
  exists n, PyFloat.to_int (S754_finite false m e) = Ok n
            /\ PyFloat.floor (S754_finite false m e) = Some n.
Proof. eexists. split; reflexivity. Qed.

(** The sign of a product of floats above zero. *)
Lemma fmul_pos_cases (x : PyFloat.float) (m : positive) (e : Z) :
  PyFloat.fltb PyFloat.zero x = true ->
  let p := PyFloat.fmul x (S754_finite false m e) in
  p = S754_infinity false \/ p = S754_zero false
  \/ exists m' e', p = S754_finite false m' e'.
Proof.
  intros Hx. destruct (fltb_zero_cases x Hx) as [->|(mx & ex & ->)].
  - now left.
  - simpl.
    pose proof (binary_round_aux_not_nan PyFloat.prec PyFloat.emax false
                  (Zpos (mx * m)) (ex + e) loc_Exact ltac:(lia)) as N.
    unfold binary_round_aux in *.
    destruct (shr_fexp _ _ _ _ _) as [mrs1 e1].
    destruct (shr_fexp _ _ _ _ _) as [mrs2 e2].
    destruct (shr_m mrs2) as [|p|p] eqn:E.
    + right. now left.
    + destruct (e2 <=? _); [right; right; now exists p, e2|now left].
    + now elim N.
Qed.

(** ** The input dialog *)

(** The first tick, run by [start_countdown], leaves the dialog alone. *)
Lemma update_timer_dialog (t : ModernTimer) :
  error_labels (update_timer t) = error_labels t
  /\ time_entry (update_timer t) = time_entry t.
Proof.
  destruct (state t) eqn:Hs;
    try (rewrite update_timer_not_running by (rewrite Hs; discriminate);
         split; reflexivity).
  destruct (Z_gt_le_dec (remaining t) 0) as [Hpos|Hle].
  - rewrite (update_timer_running_pos t Hs Hpos). split; reflexivity.
  - rewrite (update_timer_running_zero t Hs Hle).
    destruct (play_alarm_frame (set_time_label (format_time t) t))
      as (_ & _ & _ & _ & _ & He & Hl & _).
    simpl in *. now rewrite He, Hl.
Qed.

Lemma start_countdown_dialog (t : ModernTimer) :
  error_labels (start_countdown t) = error_labels t
  /\ time_entry (start_countdown t) = time_entry t.
Proof.
  unfold start_countdown.
  match goal with |- context [update_timer ?u] =>
    destruct (update_timer_dialog u) as [A B] end.
  split; [rewrite A|rewrite B]; reflexivity.
Qed.

(** The first tick shows the time that was set and takes the first second
    off it. *)
Lemma start_countdown_first_tick (n : Z) (t : ModernTimer) :
  0 <= n ->
  let t' := start_countdown (dialog_destroy (set_remaining n t)) in
  time_label t' = format_time (set_remaining n t)
  /\ remaining t' = Z.max 0 (n - 1)
  /\ state t' = (if n =? 0 then STOPPED else RUNNING).
Proof.
  intros Hn t'. unfold t', start_countdown.
  set (u := on_iniciar _ _).
  assert (Hs : state u = RUNNING) by reflexivity.
  assert (Hr : remaining u = n) by reflexivity.
  assert (Hf : format_time u = format_time (set_remaining n t)) by reflexivity.
  destruct (update_timer_fields u Hs) as (P & Z).
  destruct (Z.eqb_spec n 0) as [E|Hne].
  - destruct Z as (A & _ & B & _ & C); [lia|].
    rewrite A, B, C, Hf. repeat split. lia.
  - destruct P as (A & B & _ & C & _); [lia|].
    rewrite A, B, C, Hf, Hr. repeat split. lia.
Qed.

Lemma process_time_input_empty (key : string) (t : ModernTimer) :
  time_entry t = Some "" -> process_time_input key t = (t, Ok tt).
Proof.
  intros He. unfold process_time_input, process_time_input_body.
  rewrite He. reflexivity.
Qed.

Lemma process_time_input_no_entry (key : string) (t : ModernTimer) :
  time_entry t = None -> process_time_input key t = (t, Raise TclError).
Proof.
  intros He. unfold process_time_input, process_time_input_body.
  rewrite He. reflexivity.
Qed.

(** What is rejected: text that is no float, a float that is not above
    zero, and NaN, for which [int] raises [ValueError] too. *)
Lemma process_time_input_rejects (key s : string) (t : ModernTimer) :
  time_entry t = Some s -> s <> "" ->
  (PyFloat.of_string s = Raise ValueError
   \/ exists v, PyFloat.of_string s = Ok v
                /\ (PyFloat.fleb v PyFloat.zero = true \/ v = S754_nan)) ->
  process_time_input key t = (show_error_message invalid_number t, Ok tt).
Proof.
  intros He Hs H. unfold process_time_input, process_time_input_body.
  rewrite He. apply String.eqb_neq in Hs. rewrite Hs.
  destruct H as [->|(v & -> & [Hv| ->])]; [reflexivity| |reflexivity].
  change (PyFloat.of_int 0) with PyFloat.zero. rewrite Hv. reflexivity.
Qed.

(** What is taken: a float above zero.  Its product by the unit is turned
    into the time left, unless it is infinite. *)
Lemma process_time_input_takes (key s : string) (t : ModernTimer)
  (v : PyFloat.float) :
  time_entry t = Some s -> PyFloat.of_string s = Ok v ->
  PyFloat.fltb PyFloat.zero v = true ->
  let p := PyFloat.fmul v
             (PyFloat.of_int (if (key =? "d")%string then 60 else 1)) in
  (p = S754_infinity false
   /\ process_time_input key t = (t, Raise OverflowError))
  \/ (exists n, 0 <= n /\ PyFloat.floor p = Some n
        /\ process_time_input key t
           = (start_countdown (dialog_destroy (set_remaining n t)), Ok tt)).
Proof.
  intros He Hv Hpos p.
  assert (Hs : (s =? "")%string = false).
  { apply String.eqb_neq. intros ->. rewrite of_string_empty in Hv.
    discriminate. }
  assert (Hp : p = S754_infinity false \/ p = S754_zero false
               \/ exists m e, p = S754_finite false m e).
  { unfold p. destruct (key =? "d")%string.
    - change (PyFloat.of_int 60)
        with (S754_finite false 8444249301319680 (-47)).
      now apply fmul_pos_cases.
    - change (PyFloat.of_int 1)
        with (S754_finite false 4503599627370496 (-52)).
      now apply fmul_pos_cases. }
  unfold process_time_input, process_time_input_body.
  rewrite He, Hs, Hv. change (PyFloat.of_int 0) with PyFloat.zero.
  rewrite (fleb_fltb_zero v Hpos). fold p.
  destruct Hp as [Hp|[Hp|(m & e & Hp)]]; rewrite Hp.
  - left. split; reflexivity.
  - right. exists 0. repeat split. lia.
  - right. cbn [PyFloat.to_int PyFloat.floor].
    eexists. split; [|split; reflexivity].
    destruct (Z.leb_spec 0 e).
    + apply Z.mul_nonneg_nonneg; [lia|]. apply Z.pow_nonneg. lia.
    + apply Z.div_pos; [lia|]. apply Z.pow_pos_nonneg; lia.
Qed.

Lemma not_error_shown_same (t : ModernTimer) : ~ error_shown t t.
Proof.
  intros [H _]. apply (f_equal (@List.length _)) in H.
  rewrite length_app in H. simpl in H. lia.
Qed.

Lemma not_error_shown_started (t u : ModernTimer) :
  ~ error_shown t (start_countdown (dialog_destroy u)).
Proof.
  intros [H _]. destruct (start_countdown_dialog (dialog_destroy u)) as [A _].
  rewrite A in H. simpl in H. symmetry in H.
  now apply app_eq_nil in H.
Qed.

Lemma error_shown_message (t : ModernTimer) :
  error_shown t (show_error_message invalid_number t).
Proof. split; reflexivity. Qed.

(** The claim C1 as it is worded fails on the strings that [float] turns
    into an infinity, such as a one followed by 309 zeros: [int] raises
    [OverflowError], which [process_time_input] does not handle, and the
    time left is not set. *)
Lemma huge_input_overflows :
  let s := String "1" (zeros 309) in
  let t := timer_with_entry s in
  PyFloat.of_string s = Ok (S754_infinity false)
  /\ PyFloat.fltb PyFloat.zero (S754_infinity false) = true
  /\ PyFloat.floor (PyFloat.fmul (S754_infinity false) (PyFloat.of_int 1)) = None
  /\ process_time_input "f" t = (t, Raise OverflowError)
  /\ remaining (fst (process_time_input "f" t)) = remaining t.
Proof.
  cbv zeta.
  assert (H : PyFloat.of_string (String "1" (zeros 309))
              = Ok (S754_infinity false)) by (vm_compute; reflexivity).
  split; [exact H|]. split; [reflexivity|]. split; [reflexivity|].
  assert (P : process_time_input "f" (timer_with_entry (String "1" (zeros 309)))
              = (timer_with_entry (String "1" (zeros 309)), Raise OverflowError)).
  { destruct (process_time_input_takes "f" (String "1" (zeros 309))
                (timer_with_entry (String "1" (zeros 309)))
                (S754_infinity false) eq_refl H eq_refl)
      as [[_ E]|(n & _ & F & _)]; [exact E|discriminate F]. }
  rewrite P. split; reflexivity.
Qed.

(** C1, amended.  Let the text of the entry parse as a float [v] above
    zero, and let [p] be the float product of [v] by 60 (key [d]) or by 1
    (key [f]).  When [p] is finite, confirming sets the time left to the
    floor [n] of [p], which for [f] is the floor of [v], closes the dialog
    and calls [start_countdown], whose first tick runs at once and shows
    [n]: with [n] at least 1 the engine is RUNNING, the time left is
    [n - 1] and the next tick is scheduled; with [n = 0], an entry below
    one second, that tick fires the alarm and the engine is STOPPED with
    no time left.  When [p] is not finite it is the infinity, [int] raises
    [OverflowError], which leaves [process_time_input], and the timer is
    as it was. *)
Theorem confirmed_input_sets_remaining (t : ModernTimer) (s key : string)
  (v : PyFloat.float) :
  time_entry t = Some s ->
  PyFloat.of_string s = Ok v ->
  PyFloat.fltb PyFloat.zero v = true ->
  key = "d" \/ key = "f" ->
  let p := PyFloat.fmul v
             (PyFloat.of_int (if (key =? "d")%string then 60 else 1)) in
  (PyFloat.is_finite p = true ->
   exists n,
     PyFloat.floor p = Some n /\ 0 <= n
     /\ (key = "f" -> PyFloat.floor v = Some n)
     /\ process_time_input key t
        = (start_countdown (dialog_destroy (set_remaining n t)), Ok tt)
     /\ let t' := fst (process_time_input key t) in
        time_entry t' = None
        /\ time_label t' = format_time (set_remaining n t)
        /\ (1 <= n ->
            state t' = RUNNING /\ remaining t' = n - 1
            /\ alarms t' = alarms t
            /\ pending t' = (pending t ++ [(1000, cb_update_timer)])%list)
        /\ (n = 0 ->
            state t' = STOPPED /\ remaining t' = 0
            /\ alarms t' = S (alarms t)
            /\ pending t' = (pending t ++ [(1000, cb_root_destroy)])%list))
  /\ (PyFloat.is_finite p = false ->
      p = S754_infinity false
      /\ process_time_input key t = (t, Raise OverflowError)).
Proof.
  intros He Hv Hpos Hkey p.
  destruct (process_time_input_takes key s t v He Hv Hpos)
    as [[Hinf Hraise]|(n & Hn & Hfl & Hrun)]; fold p in Hinf || fold p in Hfl.
  - split.
    + intros Hfin. rewrite Hinf in Hfin. discriminate.
    + intros _. split; assumption.
  - split.
    2:{ intros Hfin. destruct p; simpl in Hfin, Hfl; discriminate. }
    intros _. exists n. split; [exact Hfl|]. split; [exact Hn|]. split.
    { intros ->. unfold p in Hfl.
      change (PyFloat.of_int (if ("f" =? "d")%string then 60 else 1))
        with (PyFloat.of_int 1) in Hfl.
      rewrite fmul_one in Hfl by (eapply of_string_valid; eassumption).
      exact Hfl. }
    split; [exact Hrun|]. rewrite Hrun. cbn [fst]. cbv zeta.
    destruct (start_countdown_dialog (dialog_destroy (set_remaining n t)))
      as [_ Hent].
    destruct (start_countdown_first_tick n t Hn) as (Hlab & _ & _).
    cbv zeta in Hlab.
    split; [exact Hent|]. split; [exact Hlab|].
    unfold start_countdown.
    set (u := on_iniciar _ _).
    assert (Hs : state u = RUNNING) by reflexivity.
    assert (Hr : remaining u = n) by reflexivity.
    assert (Hp : pending u = pending t) by reflexivity.
    assert (Ha : alarms u = alarms t) by reflexivity.
    destruct (update_timer_fields u Hs) as (P & Z0).
    split.
    + intros H1. destruct P as (_ & A & B & C & D); [lia|].
      rewrite A, B, C, D, Hr, Hp, Ha. repeat split.
    + intros H0. destruct (Z0 ltac:(lia)) as (_ & A & B & C & D).
      rewrite A, B, C, D, Hp, Ha. repeat split.
Qed.

Lemma confirmed_input_sets_remaining_witness :
  let t := timer_with_entry "5" in
  let u := timer_with_entry "0.5" in
  (process_time_input "d" t
   = (start_countdown (dialog_destroy (set_remaining 300 t)), Ok tt)
   /\ time_label (fst (process_time_input "d" t)) = "00:05:00"
   /\ state (fst (process_time_input "d" t)) = RUNNING
   /\ remaining (fst (process_time_input "d" t)) = 299)
  /\ (state (fst (process_time_input "f" u)) = STOPPED
      /\ remaining (fst (process_time_input "f" u)) = 0
      /\ alarms (fst (process_time_input "f" u)) = 1%nat).
Proof.
  intros t u. split.
  - destruct (confirmed_input_sets_remaining t "5" "d"
                (S754_finite false 5629499534213120 (-50)))
      as (H & _).
    + reflexivity.
    + vm_compute. reflexivity.
    + reflexivity.
    + left. reflexivity.
    + destruct (H ltac:(vm_compute; reflexivity))
        as (n & Hfl & _ & _ & Hrun & _ & Hlab & Hpos & _).
      assert (E : n = 300) by (vm_compute in Hfl; congruence).
      subst n. destruct (Hpos ltac:(lia)) as (A & B & _).
      split; [exact Hrun|]. split; [exact Hlab|]. split; [exact A|exact B].
  - destruct (confirmed_input_sets_remaining u "0.5" "f"
                (S754_finite false 4503599627370496 (-53)))
      as (H & _).
    + reflexivity.
    + vm_compute. reflexivity.
    + reflexivity.
    + right. reflexivity.
    + destruct (H ltac:(vm_compute; reflexivity))
        as (n & Hfl & _ & _ & _ & _ & _ & _ & Hzero).
      assert (E : n = 0) by (vm_compute in Hfl; congruence).
      destruct (Hzero E) as (A & B & C & _).
      split; [exact A|]. split; [exact B|exact C].
Defined.

(** The example of the specification, through the key handler: the text
    "5" confirmed with the key D. *)
Lemma five_minutes :
  let r := handle_key "D" (timer_with_entry "5") in
  snd r = Ok (Some "break")
  /\ time_label (fst r) = "00:05:00" /\ remaining (fst r) = 299
  /\ state (fst r) = RUNNING.
Proof. vm_compute. repeat split. Qed.

(** The product is the binary64 one, rounded to nearest: it is neither
    the product of the decimal that was typed nor the exact product of the
    float.  "4.1" minutes give 245 seconds, where the decimal gives 246;
    "0.35" minutes give 21 seconds, where the float 0.35, a little below
    the decimal, gives 20 and a fraction. *)
Lemma float_product_is_rounded :
  (let t := timer_with_entry "4.1" in
   process_time_input "d" t
   = (start_countdown (dialog_destroy (set_remaining 245 t)), Ok tt))
  /\ (let t := timer_with_entry "0.35" in
      process_time_input "d" t
      = (start_countdown (dialog_destroy (set_remaining 21 t)), Ok tt))
  /\ PyFloat.of_string "0.35" = Ok (S754_finite false 6305039478318694 (-54))
  /\ 6305039478318694 * 60 / 2 ^ 54 = 20.
Proof. vm_compute. repeat split. Qed.

(** The claim C4 as it is worded fails on the empty string: it does not
    parse, and yet no message is shown, because [process_time_input]
    returns at once on an empty entry. *)
Lemma empty_input_shows_no_error :
  let t := timer_with_entry "" in
  PyFloat.of_string "" = Raise ValueError
  /\ process_time_input "f" t = (t, Ok tt)
  /\ ~ error_shown t (fst (process_time_input "f" t)).
Proof.
  cbv zeta. split; [reflexivity|].
  rewrite (process_time_input_empty "f" (timer_with_entry "") eq_refl).
  split; [reflexivity|]. apply not_error_shown_same.
Qed.

(** C4, amended.  On a confirmation the transient error message is shown
    exactly when the text is not empty and either does not parse as a
    float, or parses to a float that is not above zero, NaN included.  An
    empty text is ignored without a message, and an entry that starts the
    countdown never shows one. *)
Theorem error_shown_iff (t : ModernTimer) (s key : string) :
  time_entry t = Some s ->
  (error_shown t (fst (process_time_input key t)) <->
   s <> ""
   /\ (PyFloat.of_string s = Raise ValueError
       \/ exists v, PyFloat.of_string s = Ok v
                    /\ (PyFloat.fleb v PyFloat.zero = true \/ v = S754_nan)))
  /\ (s = "" -> process_time_input key t = (t, Ok tt))
  /\ (forall n, process_time_input key t
                = (start_countdown (dialog_destroy (set_remaining n t)), Ok tt)
                -> ~ error_shown t (fst (process_time_input key t))).
Proof.
  intros He. split; [split|split].
  - intros Hshown.
    destruct (String.eqb_spec s "") as [->|Hne].
    { rewrite process_time_input_empty in Hshown by assumption.
      now apply not_error_shown_same in Hshown. }
    split; [assumption|].
    destruct (of_string_cases s) as [E|(v & E & _)]; [now left|].
    right. exists v. split; [assumption|].
    destruct (fleb_zero_cases v) as [H|[H|H]]; [now left| |now right].
    exfalso.
    destruct (process_time_input_takes key s t v He E H)
      as [[_ R]|(n & _ & _ & R)]; rewrite R in Hshown; cbn [fst] in Hshown.
    + now apply not_error_shown_same in Hshown.
    + now apply not_error_shown_started in Hshown.
  - intros [Hne H].
    rewrite (process_time_input_rejects key s t He Hne H). cbn [fst].
    apply error_shown_message.
  - intros ->. now apply process_time_input_empty.
  - intros n ->. cbn [fst]. apply not_error_shown_started.
Qed.

Lemma error_shown_iff_witness :
  error_shown (timer_with_entry "abc")
    (fst (process_time_input "f" (timer_with_entry "abc")))
  /\ process_time_input "d" (timer_with_entry "")
     = (timer_with_entry "", Ok tt).
Proof.
  split.
  - apply (proj1 (error_shown_iff (timer_with_entry "abc") "abc" "f" eq_refl)).
    split; [discriminate|]. left. vm_compute. reflexivity.
  - apply (proj1 (proj2 (error_shown_iff (timer_with_entry "") "" "d" eq_refl))).
    reflexivity.
Defined.

(** The message goes away when its callback comes due. *)
Lemma error_message_transient (t : ModernTimer) :
  error_labels t = [] -> pending t = [] -> root_alive t = true ->
  error_labels (fire (show_error_message invalid_number t)) = [].
Proof.
  intros Hl Hp Ha. unfold fire, show_error_message. simpl.
  rewrite Ha, Hp, Hl. simpl. now rewrite Nat.eqb_refl.
Qed.

(** C5.  A confirmation that is rejected, because the text is no number or
    is a number not above zero, leaves the engine as it was: the state, in
    particular STOPPED, and the time left are unchanged. *)
Theorem rejected_input_changes_nothing (t : ModernTimer) (s key : string) :
  time_entry t = Some s ->
  (PyFloat.of_string s = Raise ValueError
   \/ exists v, PyFloat.of_string s = Ok v
                /\ PyFloat.fleb v PyFloat.zero = true) ->
  let r := process_time_input key t in
  snd r = Ok tt
  /\ state (fst r) = state t /\ remaining (fst r) = remaining t
  /\ (state t = STOPPED -> state (fst r) = STOPPED)
  /\ time_label (fst r) = time_label t /\ buttons (fst r) = buttons t
  /\ time_entry (fst r) = Some s.
Proof.
  intros He H r. unfold r.
  destruct (String.eqb_spec s "") as [->|Hne].
  - rewrite process_time_input_empty by assumption. cbn [fst snd].
    repeat split; auto.
  - rewrite (process_time_input_rejects key s t He Hne).
    + cbn [fst snd]. repeat split; auto.
    + destruct H as [H|(v & E & L)]; [now left|].
      right. exists v. auto.
Qed.

Lemma rejected_input_changes_nothing_witness :
  let r := process_time_input "f" (timer_with_entry "-3") in
  state (fst r) = STOPPED /\ remaining (fst r) = 0.
Proof.
  intros r.
  destruct (rejected_input_changes_nothing (timer_with_entry "-3") "-3" "f")
    as (_ & A & B & _).
  - reflexivity.
  - right. exists (S754_finite true 6755399441055744 (-51)).
    split; vm_compute; reflexivity.
  - split; [exact A|exact B].
Defined.

(** The example of the specification: the text "-3" confirmed with the
    key F is rejected with the message and nothing else changes. *)
Lemma minus_three_seconds :
  let t := timer_with_entry "-3" in
  let r := handle_key "F" t in
  snd r = Ok (Some "break") /\ error_shown t (fst r)
  /\ state (fst r) = STOPPED /\ remaining (fst r) = 0.
Proof. vm_compute. repeat split. Qed.

(** Any other failure leaves the engine as it was too: a NaN is rejected
    like a number not above zero, and an overflow leaves the method. *)
Lemma failed_input_changes_nothing (t : ModernTimer) (s key : string) :
  time_entry t = Some s ->
  (forall n, process_time_input key t
             <> (start_countdown (dialog_destroy (set_remaining n t)), Ok tt)) ->
  state (fst (process_time_input key t)) = state t
  /\ remaining (fst (process_time_input key t)) = remaining t.
Proof.
  intros He Hno.
  destruct (String.eqb_spec s "") as [->|Hne].
  { rewrite process_time_input_empty by assumption. split; reflexivity. }
  destruct (of_string_cases s) as [E|(v & E & _)].
  { rewrite (process_time_input_rejects key s t He Hne) by now left.
    split; reflexivity. }
  destruct (fleb_zero_cases v) as [H|[H|H]].
  - rewrite (process_time_input_rejects key s t He Hne)
      by (right; exists v; auto).
    split; reflexivity.
  - destruct (process_time_input_takes key s t v He E H)
      as [[_ R]|(n & _ & _ & R)].
    + rewrite R. split; reflexivity.
    + now elim (Hno n).
  - rewrite (process_time_input_rejects key s t He Hne)
      by (right; exists v; auto).
    split; reflexivity.
Qed.

(** The pattern of [validate_input] on a few texts; the last one ends with
    a newline, which [$] lets through. *)
Lemma validate_input_examples :
  validate_input "5" = true /\ validate_input "5.25" = true
  /\ validate_input "5." = false /\ validate_input ".5" = false
  /\ validate_input "" = false /\ validate_input "-3" = false
  /\ validate_input "1e3" = false
  /\ validate_input (String "5" (String "010" "")) = true.
Proof. repeat split. Qed.

(** C8 does not hold of the code: [validate_input] is never called.  The
    text "5." does not match the pattern, and confirming it starts a
    countdown of five seconds. *)
Theorem validator_not_consulted :
  let t := timer_with_entry "5." in
  validate_input "5." = false
  /\ process_time_input "f" t
     = (start_countdown (dialog_destroy (set_remaining 5 t)), Ok tt)
  /\ state (fst (process_time_input "f" t)) = RUNNING
  /\ time_label (fst (process_time_input "f" t)) = "00:00:05".
Proof. vm_compute. repeat split. Qed.

(** ** The display *)

Lemma is_digit_not_colon (c : ascii) :
  is_digit c = true -> Ascii.eqb c ":" = false.
Proof.
  intros H. destruct (Ascii.eqb_spec c ":") as [->|]; [discriminate|reflexivity].
Qed.

Lemma split_colon_digits (s : string) :
  all_chars is_digit s = true -> split_colon s = [s].
Proof.
  induction s as [|c s IH]; simpl; [reflexivity|].
  intros H. apply andb_prop in H. destruct H as [Hc Hs].
  rewrite (is_digit_not_colon c Hc), (IH Hs). reflexivity.
Qed.

Lemma split_colon_field (a r : string) :
  all_chars is_digit a = true ->
  split_colon (a ++ String ":" r) = a :: split_colon r.
Proof.
  induction a as [|c a IH]; simpl; [reflexivity|].
  intros H. apply andb_prop in H. destruct H as [Hc Ha].
  rewrite (is_digit_not_colon c Hc), (IH Ha). reflexivity.
Qed.

Lemma all_chars_app (p : ascii -> bool) (a b : string) :
  all_chars p (a ++ b) = all_chars p a && all_chars p b.
Proof.
  induction a as [|c a IH]; simpl; [reflexivity|].
  now rewrite IH, andb_assoc.
Qed.

Lemma string_of_uint_digits (d : uint) :
  all_chars is_digit (NilEmpty.string_of_uint d) = true.
Proof. induction d; simpl; auto. Qed.

Lemma zeros_digits (n : nat) : all_chars is_digit (zeros n) = true.
Proof. induction n; simpl; auto. Qed.

Lemma zfill_digits (w : nat) (n : N) :
  all_chars is_digit (zfill w (decimal n)) = true.
Proof.
  unfold zfill, decimal.
  now rewrite all_chars_app, zeros_digits, string_of_uint_digits.
Qed.

Lemma decimal_nonempty (n : N) : decimal n <> "".
Proof.
  unfold decimal. destruct n as [|p]; [discriminate|].
  simpl. pose proof (DecimalPos.Unsigned.to_uint_nonnil p) as H.
  destruct (Pos.to_uint p); [congruence|discriminate..].
Qed.

Lemma zeros_length (n : nat) : String.length (zeros n) = n.
Proof. induction n; simpl; auto. Qed.

Lemma append_length (a b : string) :
  String.length (a ++ b) = (String.length a + String.length b)%nat.
Proof. induction a as [|c a IH]; simpl; [reflexivity|now rewrite IH]. Qed.

Lemma zfill_length (w : nat) (s : string) :
  String.length (zfill w s) = Nat.max w (String.length s).
Proof.
  unfold zfill. rewrite append_length, zeros_length. lia.
Qed.

Lemma uint_of_zeros (k : nat) (d : uint) :
  exists d', NilEmpty.uint_of_string (zeros k ++ NilEmpty.string_of_uint d)
             = Some d'
             /\ N.of_uint d' = N.of_uint d.
Proof.
  induction k as [|k (d' & E & V)]; simpl.
  - exists d. split; [apply NilEmpty.usu|reflexivity].
  - rewrite E. exists (D0 d'). split; [reflexivity|exact V].
Qed.

(** Reading a padded number gives the number back. *)
Lemma read_decimal_zfill (w : nat) (n : N) :
  read_decimal (zfill w (decimal n)) = Some n.
Proof.
  unfold read_decimal.
  destruct (zfill w (decimal n)) as [|c r] eqn:E.
  - exfalso. unfold zfill in E.
    destruct (zeros _); [|discriminate]. simpl in E.
    now apply decimal_nonempty in E.
  - rewrite <- E. unfold zfill, decimal.
    destruct (uint_of_zeros (w - String.length
                (NilEmpty.string_of_uint (N.to_uint n))) (N.to_uint n))
      as (d' & -> & V).
    simpl. now rewrite V, DecimalN.Unsigned.of_to.
Qed.

Lemma decimal_short (n : N) :
  (n < 100)%N -> (String.length (decimal n) <= 2)%nat.
Proof.
  intros Hn.
  assert (H : forallb (fun k => String.length (decimal (N.of_nat k)) <=? 2)%nat
                (seq 0 100) = true) by (vm_compute; reflexivity).
  rewrite forallb_forall in H. specialize (H (N.to_nat n)).
  rewrite N2Nat.id in H. apply Nat.leb_le, H, in_seq. lia.
Qed.

Lemma format_02d_nonneg (z : Z) :
  0 <= z -> format_02d z = zfill 2 (decimal (Z.to_N z)).
Proof.
  intros Hz. unfold format_02d.
  destruct (Z.ltb_spec z 0); [lia|reflexivity].
Qed.

Lemma format_02d_two_digits (z : Z) :
  0 <= z < 100 -> String.length (format_02d z) = 2%nat.
Proof.
  intros Hz. rewrite format_02d_nonneg, zfill_length by lia.
  pose proof (decimal_short (Z.to_N z)). lia.
Qed.

(** The claim C9 as it is worded fails from a hundred hours on: the hours
    are padded to two digits, not cut to them. *)
Lemma hundred_hours_three_digits :
  let t := set_remaining 360000 (init default_config (fun _ => true)) in
  format_time t = "100:00:00"
  /\ ~ two_digit_fields (remaining t) (format_time t).
Proof.
  cbv zeta. split; [reflexivity|].
  intros (h & m & sec & Hs & Hh & _).
  vm_compute in Hs. injection Hs as <- _ _. discriminate Hh.
Qed.

(** C9, amended.  For a time left that is not negative the display reads
    back as hours, minutes and seconds that add up to it, with minutes and
    seconds below 60 and written with exactly two digits; the hours are
    written with at least two digits, and with exactly two below a hundred
    hours. *)
Theorem format_time_reads_back (t : ModernTimer) :
  0 <= remaining t ->
  exists h m sec : string,
    split_colon (format_time t) = [h; m; sec]
    /\ (2 <= String.length h)%nat
    /\ (remaining t < 360000 -> String.length h = 2%nat)
    /\ String.length m = 2%nat /\ String.length sec = 2%nat
    /\ all_chars is_digit h = true /\ all_chars is_digit m = true
    /\ all_chars is_digit sec = true
    /\ exists a b c : Z,
         read_hms (format_time t) = Some (a, b, c)
         /\ 0 <= a /\ 0 <= b < 60 /\ 0 <= c < 60
         /\ a * 3600 + b * 60 + c = remaining t.
Proof.
  intros Hr. set (r := remaining t) in *.
  assert (Ha : 0 <= r / 3600) by (apply Z.div_pos; lia).
  assert (Hb : 0 <= r mod 3600 / 60 < 60).
  { pose proof (Z.mod_pos_bound r 3600 ltac:(lia)).
    split; [apply Z.div_pos; lia|apply Z.div_lt_upper_bound; lia]. }
  assert (Hc : 0 <= r mod 60 < 60) by (apply Z.mod_pos_bound; lia).
  assert (Hsum : r / 3600 * 3600 + r mod 3600 / 60 * 60 + r mod 60 = r).
  { pose proof (Z.div_mod r 3600 ltac:(lia)).
    pose proof (Z.div_mod (r mod 3600) 60 ltac:(lia)).
    assert (r mod 60 = (r mod 3600) mod 60).
    { symmetry. apply Z.mod_mod_divide. exists 60. reflexivity. }
    lia. }
  assert (Hsplit : split_colon (format_time t)
                   = [format_02d (r / 3600); format_02d (r mod 3600 / 60);
                      format_02d (r mod 60)]).
  { unfold format_time. fold r.
    rewrite !format_02d_nonneg by lia.
    change (split_colon
              (zfill 2 (decimal (Z.to_N (r / 3600)))
               ++ String ":"
                    (zfill 2 (decimal (Z.to_N (r mod 3600 / 60)))
                     ++ String ":" (zfill 2 (decimal (Z.to_N (r mod 60))))))
            = [zfill 2 (decimal (Z.to_N (r / 3600)));
               zfill 2 (decimal (Z.to_N (r mod 3600 / 60)));
               zfill 2 (decimal (Z.to_N (r mod 60)))]).
    rewrite !split_colon_field by apply zfill_digits.
    rewrite split_colon_digits by apply zfill_digits. reflexivity. }
  exists (format_02d (r / 3600)), (format_02d (r mod 3600 / 60)),
         (format_02d (r mod 60)).
  split; [exact Hsplit|].
  split; [rewrite format_02d_nonneg, zfill_length by lia; lia|].
  split.
  { intros Hlt. apply format_02d_two_digits. split; [lia|].
    apply Z.div_lt_upper_bound; lia. }
  split; [apply format_02d_two_digits; lia|].
  split; [apply format_02d_two_digits; lia|].
  rewrite !format_02d_nonneg by lia.
  split; [apply zfill_digits|]. split; [apply zfill_digits|].
  split; [apply zfill_digits|].
  exists (r / 3600), (r mod 3600 / 60), (r mod 60).
  split.
  - unfold read_hms. rewrite Hsplit, !format_02d_nonneg by lia.
    rewrite !read_decimal_zfill, !Z2N.id by lia. reflexivity.
  - repeat split; lia.
Qed.

Lemma format_time_reads_back_witness :
  read_hms (format_time (set_remaining 90 (init default_config (fun _ => true))))
  = Some (0, 1, 30).
Proof.
  destruct (format_time_reads_back
              (set_remaining 90 (init default_config (fun _ => true))))
    as (h & m & sec & _ & _ & _ & _ & _ & _ & _ & _ & a & b & c & E & _).
  - simpl. lia.
  - rewrite E. vm_compute in E. symmetry. exact E.
Defined.

(** The example of the specification: ninety seconds. *)
Lemma ninety_seconds :
  let t := fst (handle_key "f" (timer_with_entry "90")) in
  time_label t = "00:01:30" /\ remaining t = 89 /\ state t = RUNNING
  /\ let t' := Nat.iter 90 fire t in
     time_label t' = "00:00:00" /\ state t' = STOPPED
     /\ played t' = 3%nat /\ alarms t' = 1%nat.
Proof. vm_compute. repeat split. Qed.

(** ** Executions: what every handler keeps true *)

Lemma format_time_display (t : ModernTimer) :
  format_time t = display (remaining t).
Proof. reflexivity. Qed.

Lemma alarm_loop_played_spawned (n : nat) (t : ModernTimer) :
  (played (alarm_loop n t) + spawned t
   <= spawned (alarm_loop n t) + played t)%nat.
Proof.
  revert t; induction n as [|k IH]; intros t; simpl.
  - lia.
  - destruct (spawn_ok t (spawned t)).
    + specialize (IH (set_player (S (spawned t)) (S (played t)) (alarms t)
                        (printed t) t)).
      simpl in IH. lia.
    + simpl. lia.
Qed.

(** The counters of the player across one alarm. *)
Lemma play_alarm_counters (t : ModernTimer) :
  (played t <= played (play_alarm t)
   /\ played (play_alarm t) + spawned t <= spawned (play_alarm t) + played t
   /\ spawned (play_alarm t)
      <= spawned t + Z.to_nat (repetitions (config t)))%nat.
Proof.
  unfold play_alarm.
  set (u := set_player (spawned t) (played t) (S (alarms t)) (printed t) t).
  destruct (alarm_loop_at_most (Z.to_nat (repetitions (config t))) u)
    as (A & B & C).
  pose proof (alarm_loop_played_spawned
                (Z.to_nat (repetitions (config t))) u) as D.
  change (spawned u) with (spawned t) in *.
  change (played u) with (played t) in *.
  lia.
Qed.

Lemma remove_nth_keeps {A : Type} (x y : A) (l : list A) (i : nat) :
  In x l -> nth_error l i = Some y -> x <> y -> In x (remove_nth i l).
Proof.
  revert i; induction l as [|a l IH]; intros i Hin Hn Hne; [contradiction|].
  destruct i as [|j]; simpl in *.
  - injection Hn as ->. destruct Hin as [->|]; [contradiction|assumption].
  - destruct Hin as [->|Hin]; [now left|]. right. now apply (IH j).
Qed.

Lemma consistent_init (cfg : TimerConfig) (env : nat -> bool) :
  consistent cfg env (init cfg env).
Proof.
  unfold consistent. simpl.
  repeat split; try reflexivity; try lia; try contradiction; try discriminate.
Qed.

(** A tick of a running engine whose buttons are set keeps everything
    consistent, whatever the display showed before. *)
Lemma consistent_tick (cfg : TimerConfig) (env : nat -> bool)
  (u : ModernTimer) :
  config u = cfg -> spawn_ok u = env -> 0 <= remaining u ->
  state u = RUNNING ->
  btn_state (iniciar (buttons u)) = disabled ->
  btn_state (pausar (buttons u)) = normal ->
  btn_state (detener (buttons u)) = normal ->
  (forall id m, In (id, m) (error_labels u) ->
     m = invalid_number /\ In (2000, cb_label_destroy id) (pending u)) ->
  (played u <= spawned u
   /\ spawned u <= alarms u * Z.to_nat (repetitions cfg))%nat ->
  consistent cfg env (update_timer u).
Proof.
  intros Hc He Hr Hs Hi Hp Hd Hl Hb.
  destruct (Z_gt_le_dec (remaining u) 0) as [Hpos|Hle].
  - rewrite (update_timer_running_pos u Hs Hpos). unfold consistent.
    cbn [after set_pending set_remaining set_time_label config spawn_ok
         remaining state time_label buttons error_labels pending played
         spawned alarms].
    rewrite Hs, format_time_display.
    replace (remaining u - 1 + 1) with (remaining u) by lia.
    repeat split; try assumption; try lia; try discriminate.
    + apply (Hl id m H).
    + apply in_or_app. left. apply (Hl id m H).
  - assert (Hz : remaining u = 0) by lia.
    rewrite (update_timer_running_zero u Hs Hle).
    set (w := set_time_label (format_time u) u).
    destruct (play_alarm_frame w)
      as (A1 & A2 & A3 & A4 & A5 & A6 & A7 & A8 & A9 & A10 & A11 & A12).
    destruct (play_alarm_counters w) as (B1 & B2 & B3).
    unfold consistent.
    cbn [after set_pending set_state config spawn_ok
         remaining state time_label buttons error_labels pending played
         spawned alarms].
    rewrite A1, A11, A3, A4, A7, A9, A12.
    change (config w) with (config u) in *.
    change (spawn_ok w) with (spawn_ok u).
    change (remaining w) with (remaining u).
    change (time_label w) with (format_time u).
    change (error_labels w) with (error_labels u).
    change (pending w) with (pending u).
    change (alarms w) with (alarms u).
    change (spawned w) with (spawned u) in *.
    change (played w) with (played u) in *.
    rewrite format_time_display, Hz, Hc in *.
    repeat split; try assumption; try lia; try discriminate;
      try (intros; congruence); try reflexivity.
    + apply (Hl id m H).
    + apply in_or_app. left. apply (Hl id m H).
Qed.

(** Every way out of [process_time_input]. *)
Lemma process_time_input_outcomes (key : string) (t : ModernTimer) :
  (fst (process_time_input key t) = t
   /\ (snd (process_time_input key t) = Ok tt
       \/ snd (process_time_input key t) = Raise TclError
       \/ snd (process_time_input key t) = Raise OverflowError))
  \/ process_time_input key t = (show_error_message invalid_number t, Ok tt)
  \/ exists n, 0 <= n
       /\ process_time_input key t
          = (start_countdown (dialog_destroy (set_remaining n t)), Ok tt).
Proof.
  destruct (time_entry t) as [s|] eqn:He.
  2:{ left. rewrite process_time_input_no_entry by assumption. auto. }
  destruct (String.eqb_spec s "") as [->|Hne].
  { left. rewrite process_time_input_empty by assumption. auto. }
  destruct (of_string_cases s) as [E|(v & E & _)].
  { right. left. apply (process_time_input_rejects key s t He Hne). now left. }
  destruct (fleb_zero_cases v) as [H|[H|H]].
  - right. left. apply (process_time_input_rejects key s t He Hne).
    right. exists v. auto.
  - destruct (process_time_input_takes key s t v He E H)
      as [[_ R]|(n & Hn & _ & R)].
    + left. rewrite R. auto.
    + right. right. exists n. auto.
  - right. left. apply (process_time_input_rejects key s t He Hne).
    right. exists v. auto.
Qed.

Ltac unpack H :=
  destruct H as (Hc & He & Hr & Hst & Hrun & Hpa & Hl & Hb);
  pose proof Hb as (Hb1 & Hb2).

Lemma consistent_show_error (cfg : TimerConfig) (env : nat -> bool)
  (t : ModernTimer) :
  consistent cfg env t ->
  consistent cfg env (show_error_message invalid_number t).
Proof.
  intros H. unpack H. unfold consistent, show_error_message.
  cbn [after set_pending set_dialog config spawn_ok remaining state
       time_label buttons error_labels pending played spawned alarms].
  repeat split; try assumption; try (now apply Hst); try (now apply Hrun).
  - apply in_app_or in H. destruct H as [H|[H|[]]].
    + apply (Hl id m H).
    + congruence.
  - apply in_or_app. apply in_app_or in H. destruct H as [H|[H|[]]].
    + left. apply (Hl id m H).
    + right. left. congruence.
Qed.

Lemma consistent_start (cfg : TimerConfig) (env : nat -> bool)
  (t : ModernTimer) (n : Z) :
  consistent cfg env t -> 0 <= n ->
  consistent cfg env (start_countdown (dialog_destroy (set_remaining n t))).
Proof.
  intros H Hn. unpack H. unfold start_countdown.
  apply consistent_tick; try assumption; try reflexivity.
  intros id m [].
Qed.

Lemma consistent_handle_key (cfg : TimerConfig) (env : nat -> bool)
  (char : string) (t : ModernTimer) :
  consistent cfg env t -> consistent cfg env (fst (handle_key char t)).
Proof.
  intros H. unfold handle_key.
  destruct ((lower char =? "d")%string || (lower char =? "f")%string).
  - destruct (process_time_input_outcomes (lower char) t)
      as [[E _]|[E|(n & Hn & E)]].
    + destruct (process_time_input (lower char) t) as [t1 [[]|e]];
        simpl in *; now subst.
    + rewrite E. now apply consistent_show_error.
    + rewrite E. now apply consistent_start.
  - destruct (_ && _); exact H.
Qed.

Lemma consistent_type_text (cfg : TimerConfig) (env : nat -> bool)
  (s : string) (t : ModernTimer) :
  consistent cfg env t -> consistent cfg env (type_text s t).
Proof.
  intros H. unfold type_text. destruct (time_entry t); exact H.
Qed.

Lemma consistent_start_timer (cfg : TimerConfig) (env : nat -> bool)
  (t : ModernTimer) :
  consistent cfg env t -> consistent cfg env (start_timer t).
Proof.
  intros H. unpack H. unfold consistent, start_timer, show_time_input.
  cbn [set_dialog config spawn_ok remaining state
       time_label buttons error_labels pending played spawned alarms].
  repeat split; try assumption; try (now apply Hst); try (now apply Hrun);
    contradiction.
Qed.

Lemma consistent_stop_timer (cfg : TimerConfig) (env : nat -> bool)
  (t : ModernTimer) :
  consistent cfg env t -> consistent cfg env (stop_timer t).
Proof.
  intros H. unpack H. unfold consistent. simpl.
  repeat split; try assumption; try reflexivity; try lia;
    try discriminate; try (intros; congruence).
  - apply (Hl id m H).
  - apply (Hl id m H).
Qed.

Lemma consistent_pause_timer (cfg : TimerConfig) (env : nat -> bool)
  (t : ModernTimer) :
  consistent cfg env t -> consistent cfg env (pause_timer t).
Proof.
  intros H. pose proof H as H0. unpack H. unfold pause_timer.
  destruct (state t) eqn:Hs; cbn [TimerState_eqb orb].
  - exact H0.
  - destruct Hrun as (R1 & R2 & R3 & R4); [discriminate|].
    unfold consistent. simpl.
    repeat split; try assumption; try reflexivity; try discriminate.
    + apply (Hl id m H).
    + apply (Hl id m H).
  - destruct Hrun as (R1 & R2 & R3 & R4); [discriminate|].
    cbn [set_state state TimerState_eqb on_pausar set_buttons].
    apply consistent_tick; try assumption; reflexivity.
Qed.

Lemma consistent_fire_nth (cfg : TimerConfig) (env : nat -> bool)
  (i : nat) (t : ModernTimer) :
  consistent cfg env t -> consistent cfg env (fire_nth i t).
Proof.
  intros H. pose proof H as H0. unpack H. unfold fire_nth.
  destruct (root_alive t); [|exact H0].
  destruct (nth_error (pending t) i) as [[ms f]|] eqn:En; [|exact H0].
  set (u := set_pending (remove_nth i (pending t)) t).
  assert (Hlu : forall f', (forall id, f' <> cb_label_destroy id) ->
            f = f' ->
            forall id m, In (id, m) (error_labels u) ->
              m = invalid_number
              /\ In (2000, cb_label_destroy id) (pending u)).
  { intros f' Hf' -> id m Hin. destruct (Hl id m Hin) as [A B].
    split; [exact A|]. unfold u. cbn [set_pending pending].
    apply (remove_nth_keeps _ (ms, f') _ i B En).
    intros E. injection E as _ E. now apply (Hf' id). }
  destruct f as [| |id0]; cbn [run_callback].
  - destruct (state t) eqn:Hs.
    + rewrite update_timer_not_running by (unfold u; simpl; congruence).
      unfold consistent, u. simpl.
      repeat split; try assumption; try (now apply Hst);
        try (intros; congruence);
        apply (Hlu cb_update_timer ltac:(discriminate) eq_refl id m H).
    + destruct Hrun as (R1 & R2 & R3 & R4); [discriminate|].
      apply consistent_tick; try assumption.
      apply (Hlu cb_update_timer ltac:(discriminate) eq_refl).
    + rewrite update_timer_not_running by (unfold u; simpl; congruence).
      destruct Hrun as (R1 & R2 & R3 & R4); [discriminate|].
      unfold consistent, u. simpl.
      repeat split; try assumption; try (intros; congruence);
        try (intros _; now apply Hpa);
        apply (Hlu cb_update_timer ltac:(discriminate) eq_refl id m H).
  - unfold consistent, u. simpl.
    repeat split; try assumption; try (now apply Hst); try (now apply Hrun);
      apply (Hlu cb_root_destroy ltac:(discriminate) eq_refl id m H).
  - unfold consistent, u.
    cbn [set_dialog set_pending config spawn_ok remaining state
         time_label buttons error_labels pending played spawned alarms].
    repeat split; try assumption; try (now apply Hst); try (now apply Hrun).
    + apply filter_In in H. destruct H as [H _]. apply (Hl id m H).
    + apply filter_In in H. destruct H as [H Hne].
      apply (remove_nth_keeps _ (ms, cb_label_destroy id0) _ i);
        [apply (Hl id m H)|exact En|].
      intros E. injection E as _ E. subst id0. simpl in Hne.
      now rewrite Nat.eqb_refl in Hne.
Qed.

Lemma consistent_step (cfg : TimerConfig) (env : nat -> bool)
  (e : event) (t : ModernTimer) :
  consistent cfg env t -> consistent cfg env (step e t).
Proof.
  intros H. destruct e; simpl.
  - now apply consistent_handle_key.
  - now apply consistent_type_text.
  - now apply consistent_start_timer.
  - now apply consistent_pause_timer.
  - now apply consistent_stop_timer.
  - now apply consistent_fire_nth.
Qed.

(** Whatever the events, the timer stays consistent. *)
Lemma consistent_run (cfg : TimerConfig) (env : nat -> bool)
  (es : list event) :
  consistent cfg env (run cfg env es).
Proof.
  unfold run. generalize (consistent_init cfg env).
  generalize (init cfg env). induction es as [|e es IH]; intros t H.
  - exact H.
  - simpl. apply IH. now apply consistent_step.
Qed.

(** ** Reading any display back *)

Lemma read_hms_display (r : Z) :
  0 <= r ->
  read_hms (display r) = Some (r / 3600, r mod 3600 / 60, r mod 60).
Proof.
  intros Hr.
  assert (Ha : 0 <= r / 3600) by (apply Z.div_pos; lia).
  assert (Hb : 0 <= r mod 3600 / 60).
  { pose proof (Z.mod_pos_bound r 3600 ltac:(lia)). apply Z.div_pos; lia. }
  assert (Hc : 0 <= r mod 60) by (apply Z.mod_pos_bound; lia).
  unfold read_hms, display. rewrite !format_02d_nonneg by lia.
  cbn [String.append].
  rewrite !split_colon_field by apply zfill_digits.
  rewrite split_colon_digits by apply zfill_digits.
  rewrite !read_decimal_zfill, !Z2N.id by lia. reflexivity.
Qed.

Lemma hms_sum (r : Z) :
  r / 3600 * 3600 + r mod 3600 / 60 * 60 + r mod 60 = r.
Proof.
  pose proof (Z.div_mod r 3600 ltac:(lia)).
  pose proof (Z.div_mod (r mod 3600) 60 ltac:(lia)).
  assert (r mod 60 = (r mod 3600) mod 60).
  { symmetry. apply Z.mod_mod_divide. exists 60. reflexivity. }
  lia.
Qed.

(** X1.  Two times left that are not negative and are shown alike are
    equal: the display loses nothing. *)
Theorem format_time_injective (t1 t2 : ModernTimer) :
  0 <= remaining t1 -> 0 <= remaining t2 ->
  format_time t1 = format_time t2 -> remaining t1 = remaining t2.
Proof.
  intros H1 H2 E. rewrite !format_time_display in E.
  pose proof (read_hms_display _ H1) as R1.
  pose proof (read_hms_display _ H2) as R2.
  rewrite E in R1. rewrite R1 in R2. injection R2 as A B C.
  rewrite <- (hms_sum (remaining t1)), <- (hms_sum (remaining t2)).
  now rewrite A, B, C.
Qed.

Lemma format_time_injective_witness :
  remaining (set_remaining 90 (init default_config (fun _ => true)))
  = remaining (set_time_label "x"
                 (set_remaining 90 (init default_config (fun _ => true)))).
Proof.
  apply format_time_injective; [simpl; lia|simpl; lia|reflexivity].
Defined.

(** ** Executions: the invariants, one by one *)

(** X2.  The time left is never negative, and an engine at rest has none
    left and shows 00:00:00. *)
Theorem remaining_never_negative (cfg : TimerConfig) (env : nat -> bool)
  (es : list event) :
  0 <= remaining (run cfg env es)
  /\ (state (run cfg env es) = STOPPED ->
      remaining (run cfg env es) = 0
      /\ time_label (run cfg env es) = "00:00:00").
Proof.
  destruct (consistent_run cfg env es) as (_ & _ & A & B & _).
  split; assumption.
Qed.

Lemma remaining_never_negative_witness :
  remaining (run default_config (fun _ => true)
               [ev_edit "2"; ev_key "f"; ev_timer 0; ev_timer 0]) = 0.
Proof.
  apply (proj2 (remaining_never_negative default_config (fun _ => true)
                  [ev_edit "2"; ev_key "f"; ev_timer 0; ev_timer 0])).
  vm_compute. reflexivity.
Defined.

(** X3.  While the engine is RUNNING or PAUSED the display is one second
    ahead of the time left: it shows the second that is being counted. *)
Theorem display_one_second_ahead (cfg : TimerConfig) (env : nat -> bool)
  (es : list event) :
  state (run cfg env es) <> STOPPED ->
  time_label (run cfg env es) = display (remaining (run cfg env es) + 1)
  /\ exists h m s,
       read_hms (time_label (run cfg env es)) = Some (h, m, s)
       /\ h * 3600 + m * 60 + s = remaining (run cfg env es) + 1.
Proof.
  intros Hs.
  destruct (consistent_run cfg env es) as (_ & _ & A & _ & B & _).
  destruct (B Hs) as (L & _). split; [exact L|].
  rewrite L, read_hms_display by lia.
  do 3 eexists. split; [reflexivity|apply hms_sum].
Qed.

Lemma display_one_second_ahead_witness :
  time_label (run default_config (fun _ => true)
                [ev_edit "5"; ev_key "D"; ev_timer 0])
  = display (298 + 1).
Proof.
  apply (proj1 (display_one_second_ahead default_config (fun _ => true)
                  [ev_edit "5"; ev_key "D"; ev_timer 0]
                  ltac:(vm_compute; discriminate))).
Defined.

(** X4.  While the engine is RUNNING or PAUSED the pause and stop buttons
    are enabled and the start button is disabled. *)
Theorem buttons_while_counting (cfg : TimerConfig) (env : nat -> bool)
  (es : list event) :
  state (run cfg env es) <> STOPPED ->
  btn_state (iniciar (buttons (run cfg env es))) = disabled
  /\ btn_state (pausar (buttons (run cfg env es))) = normal
  /\ btn_state (detener (buttons (run cfg env es))) = normal.
Proof.
  intros Hs.
  destruct (consistent_run cfg env es) as (_ & _ & _ & _ & B & _).
  now destruct (B Hs) as (_ & R).
Qed.

Lemma buttons_while_counting_witness :
  btn_state (iniciar (buttons (run default_config (fun _ => true)
                                 [ev_edit "5"; ev_key "d"; ev_pausar])))
  = disabled.
Proof.
  apply (proj1 (buttons_while_counting default_config (fun _ => true)
                  [ev_edit "5"; ev_key "d"; ev_pausar]
                  ltac:(vm_compute; discriminate))).
Defined.

(** X5.  A paused engine always offers to resume: the pause button reads
    Reanudar. *)
Theorem paused_button_reads_resume (cfg : TimerConfig) (env : nat -> bool)
  (es : list event) :
  state (run cfg env es) = PAUSED ->
  btn_text (pausar (buttons (run cfg env es))) = "Reanudar".
Proof.
  intros Hs.
  destruct (consistent_run cfg env es) as (_ & _ & _ & _ & _ & B & _).
  exact (B Hs).
Qed.

Lemma paused_button_reads_resume_witness :
  btn_text (pausar (buttons (run default_config (fun _ => true)
                               [ev_edit "5"; ev_key "d"; ev_pausar])))
  = "Reanudar".
Proof.
  apply (paused_button_reads_resume default_config (fun _ => true)
           [ev_edit "5"; ev_key "d"; ev_pausar]).
  vm_compute. reflexivity.
Defined.

(** X6.  Every message on show in the dialog is the one error message
    and has its removal pending: none stays for ever. *)
Theorem messages_have_removal_pending (cfg : TimerConfig)
  (env : nat -> bool) (es : list event) (id : nat) (m : string) :
  In (id, m) (error_labels (run cfg env es)) ->
  m = invalid_number
  /\ In (2000, cb_label_destroy id) (pending (run cfg env es)).
Proof.
  intros H.
  destruct (consistent_run cfg env es) as (_ & _ & _ & _ & _ & _ & B & _).
  exact (B id m H).
Qed.

Lemma messages_have_removal_pending_witness :
  In (2000, cb_label_destroy 0)
    (pending (run default_config (fun _ => true)
                [ev_edit "abc"; ev_key "d"])).
Proof.
  apply (proj2 (messages_have_removal_pending default_config (fun _ => true)
                  [ev_edit "abc"; ev_key "d"] 0%nat invalid_number
                  ltac:(vm_compute; left; reflexivity))).
Defined.

(** X7.  The player is never launched more than [repetitions] times for
    each alarm, and never plays more often than it is launched. *)
Theorem launches_bounded (cfg : TimerConfig) (env : nat -> bool)
  (es : list event) :
  (played (run cfg env es) <= spawned (run cfg env es)
   /\ spawned (run cfg env es)
      <= alarms (run cfg env es) * Z.to_nat (repetitions cfg))%nat.
Proof.
  now destruct (consistent_run cfg env es) as (_ & _ & _ & _ & _ & _ & _ & B).
Qed.

(** ** The key handler *)

Lemma lower_char_is (a c : ascii) :
  lower_char c = a -> lower_char a = a -> c = a \/ lower_char c = a.
Proof. auto. Qed.

Lemma lower_char_d (c : ascii) :
  lower_char c = "d"%char <-> c = "d"%char \/ c = "D"%char.
Proof.
  destruct c as [[] [] [] [] [] [] [] []]; vm_compute;
    (split; [intros H; first [discriminate H | now left | now right]
            |intros [H|H]; first [discriminate H | reflexivity]]).
Qed.

Lemma lower_char_f (c : ascii) :
  lower_char c = "f"%char <-> c = "f"%char \/ c = "F"%char.
Proof.
  destruct c as [[] [] [] [] [] [] [] []]; vm_compute;
    (split; [intros H; first [discriminate H | now left | now right]
            |intros [H|H]; first [discriminate H | reflexivity]]).
Qed.

Lemma lower_d (s : string) : lower s = "d" <-> s = "d" \/ s = "D".
Proof.
  destruct s as [|c [|c' r]]; simpl.
  - split; [discriminate|intros [H|H]; discriminate].
  - split.
    + intros H. injection H as H. apply lower_char_d in H.
      destruct H as [->| ->]; auto.
    + intros [H|H]; injection H as ->; reflexivity.
  - split; [discriminate|intros [H|H]; discriminate].
Qed.

Lemma lower_f (s : string) : lower s = "f" <-> s = "f" \/ s = "F".
Proof.
  destruct s as [|c [|c' r]]; simpl.
  - split; [discriminate|intros [H|H]; discriminate].
  - split.
    + intros H. injection H as H. apply lower_char_f in H.
      destruct H as [->| ->]; auto.
    + intros [H|H]; injection H as ->; reflexivity.
  - split; [discriminate|intros [H|H]; discriminate].
Qed.

(** X8.  The keys d, D, f and F, and no others, confirm the entry: d and D
    as minutes, f and F as seconds; the key is then suppressed, unless the
    confirmation raises.  Any other key leaves the timer as it is; it is
    let through to the entry when it carries no character, only digits, or
    a point, and is suppressed otherwise. *)
Theorem handle_key_filter (char : string) (t : ModernTimer) :
  (char = "d" \/ char = "D" ->
     fst (handle_key char t) = fst (process_time_input "d" t)
     /\ snd (handle_key char t)
        = match snd (process_time_input "d" t) with
          | Ok _ => Ok (Some "break")
          | Raise e => Raise e
          end)
  /\ (char = "f" \/ char = "F" ->
     fst (handle_key char t) = fst (process_time_input "f" t)
     /\ snd (handle_key char t)
        = match snd (process_time_input "f" t) with
          | Ok _ => Ok (Some "break")
          | Raise e => Raise e
          end)
  /\ (char <> "d" -> char <> "D" -> char <> "f" -> char <> "F" ->
     fst (handle_key char t) = t
     /\ snd (handle_key char t)
        = Ok (if (char =? "")%string || isdigit char || (char =? ".")%string
              then None else Some "break")).
Proof.
  split; [|split].
  - intros H. apply lower_d in H. unfold handle_key. rewrite H.
    cbn [String.eqb Ascii.eqb Bool.eqb andb orb].
    destruct (process_time_input "d" t) as [t1 [a|e]]; split; reflexivity.
  - intros H. apply lower_f in H. unfold handle_key. rewrite H.
    cbn [String.eqb Ascii.eqb Bool.eqb andb orb].
    destruct (process_time_input "f" t) as [t1 [a|e]]; split; reflexivity.
  - intros H1 H2 H3 H4. unfold handle_key.
    assert (Hd : (lower char =? "d")%string = false).
    { apply String.eqb_neq. intros E. apply lower_d in E. tauto. }
    assert (Hf : (lower char =? "f")%string = false).
    { apply String.eqb_neq. intros E. apply lower_f in E. tauto. }
    rewrite Hd, Hf. simpl.
    destruct (char =? "")%string; simpl; [now split|].
    destruct (isdigit char); simpl; [now split|].
    destruct (char =? ".")%string; simpl; now split.
Qed.

Lemma handle_key_filter_witness :
  handle_key "x" (timer_with_entry "5")
  = (timer_with_entry "5", Ok (Some "break"))
  /\ fst (handle_key "D" (timer_with_entry "5"))
     = fst (process_time_input "d" (timer_with_entry "5"))
  /\ fst (handle_key "F" (timer_with_entry "5"))
     = fst (process_time_input "f" (timer_with_entry "5")).
Proof.
  destruct (handle_key_filter "x" (timer_with_entry "5")) as (_ & _ & H).
  destruct H as [A B]; try discriminate.
  split.
  - rewrite (surjective_pairing (handle_key "x" (timer_with_entry "5"))).
    rewrite A, B. reflexivity.
  - split.
    + apply (proj1 (proj1 (handle_key_filter "D" (timer_with_entry "5"))
                      (or_intror eq_refl))).
    + apply (proj1 (proj1 (proj2 (handle_key_filter "F"
                                     (timer_with_entry "5")))
                      (or_intror eq_refl))).
Defined.

(** ** What leaves [process_time_input] *)

(** X9.  [ValueError] never leaves [process_time_input].  It raises only
    [TclError], when the entry is gone, and [OverflowError], when the
    number of seconds is infinite; and whenever it raises, the timer is
    left exactly as it was. *)
Theorem process_time_input_raises (key : string) (t : ModernTimer)
  (e : exn) :
  snd (process_time_input key t) = Raise e ->
  fst (process_time_input key t) = t
  /\ ((e = TclError /\ time_entry t = None)
      \/ (e = OverflowError /\ time_entry t <> None
          /\ exists s v,
               time_entry t = Some s /\ PyFloat.of_string s = Ok v
               /\ PyFloat.fmul v
                    (PyFloat.of_int (if (key =? "d")%string then 60 else 1))
                  = S754_infinity false)).
Proof.
  intros H.
  destruct (time_entry t) as [s|] eqn:He.
  2:{ rewrite process_time_input_no_entry in * by assumption.
      simpl in *. injection H as <-. auto. }
  destruct (String.eqb_spec s "") as [->|Hne].
  { rewrite process_time_input_empty in H by assumption. discriminate. }
  destruct (of_string_cases s) as [E|(v & E & _)].
  { rewrite (process_time_input_rejects key s t He Hne) in H by now left.
    discriminate. }
  destruct (fleb_zero_cases v) as [L|[L|L]].
  - rewrite (process_time_input_rejects key s t He Hne) in H
      by (right; exists v; auto).
    discriminate.
  - destruct (process_time_input_takes key s t v He E L)
      as [[Hinf R]|(n & _ & _ & R)]; rewrite R in *; cbn [fst snd] in *.
    + injection H as <-. split; [reflexivity|]. right.
      split; [reflexivity|]. split; [discriminate|].
      exists s, v. repeat split; assumption.
    + discriminate.
  - rewrite (process_time_input_rejects key s t He Hne) in H
      by (right; exists v; auto).
    discriminate.
Qed.

Lemma process_time_input_raises_witness :
  fst (process_time_input "d" (dialog_destroy (timer_with_entry "5")))
  = dialog_destroy (timer_with_entry "5").
Proof.
  apply (proj1 (process_time_input_raises "d"
                  (dialog_destroy (timer_with_entry "5")) TclError eq_refl)).
Defined.

(** ** Callbacks that come due *)

Lemma fire_nth_idle (i : nat) (t : ModernTimer) :
  state t <> RUNNING ->
  state (fire_nth i t) = state t /\ remaining (fire_nth i t) = remaining t
  /\ time_label (fire_nth i t) = time_label t
  /\ buttons (fire_nth i t) = buttons t
  /\ alarms (fire_nth i t) = alarms t /\ played (fire_nth i t) = played t
  /\ printed (fire_nth i t) = printed t.
Proof.
  intros Hs. unfold fire_nth.
  destruct (root_alive t); [|repeat split].
  destruct (nth_error (pending t) i) as [[ms f]|]; [|repeat split].
  destruct f as [| |id]; cbn [run_callback].
  - rewrite update_timer_not_running by exact Hs. repeat split.
  - repeat split.
  - repeat split.
Qed.

(** X10.  While the engine is not RUNNING, callbacks that come due, in
    whatever number and order, leave the engine, the display, the buttons
    and the alarm alone: a paused or stopped countdown does not move. *)
Theorem callbacks_idle_unless_running (l : list nat) (t : ModernTimer) :
  state t <> RUNNING ->
  let t' := fold_left (fun u i => fire_nth i u) l t in
  state t' = state t /\ remaining t' = remaining t
  /\ time_label t' = time_label t /\ buttons t' = buttons t
  /\ alarms t' = alarms t /\ played t' = played t
  /\ printed t' = printed t.
Proof.
  revert t; induction l as [|i l IH]; intros t Hs; cbv zeta.
  - repeat split.
  - cbn [fold_left].
    destruct (fire_nth_idle i t Hs) as (A & B & C & D & E & F & G).
    destruct (IH (fire_nth i t)) as (A' & B' & C' & D' & E' & F' & G').
    { now rewrite A. }
    cbv zeta in *.
    rewrite A', B', C', D', E', F', G'. repeat split; assumption.
Qed.

Lemma callbacks_idle_unless_running_witness :
  let t := pause_timer (update_timer (timer_running 5 (fun _ => true))) in
  remaining (fold_left (fun u i => fire_nth i u) [0%nat; 0%nat] t) = 4.
Proof.
  intros t.
  destruct (callbacks_idle_unless_running [0%nat; 0%nat] t) as (_ & B & _).
  - vm_compute. discriminate.
  - exact B.
Defined.

Lemma repeat_snoc {A : Type} (a : A) (n : nat) :
  (repeat a n ++ [a])%list = a :: repeat a n.
Proof.
  induction n as [|k IH]; simpl; [reflexivity|]. now rewrite IH.
Qed.

(** One firing of a running engine with [k + 1] ticks pending. *)
Lemma fire_tick_chain (k : nat) (t : ModernTimer) :
  state t = RUNNING -> root_alive t = true ->
  pending t = repeat (1000, cb_update_timer) (S k) ->
  remaining t > 0 ->
  state (fire t) = RUNNING /\ root_alive (fire t) = true
  /\ pending (fire t) = pending t
  /\ remaining (fire t) = remaining t - 1
  /\ alarms (fire t) = alarms t
  /\ time_label (fire t) = format_time t.
Proof.
  intros Hs Ha Hp Hr.
  assert (Hf : fire t
               = after 1000 cb_update_timer
                   (set_remaining (remaining t - 1)
                      (set_time_label (format_time t)
                         (set_pending (repeat (1000, cb_update_timer) k) t)))).
  { unfold fire. rewrite Ha, Hp. cbn [repeat run_callback].
    apply (update_timer_running_pos
             (set_pending (repeat (1000, cb_update_timer) k) t) Hs Hr). }
  rewrite Hf, Hp.
  cbn [after set_pending set_remaining set_time_label state root_alive
       pending remaining alarms time_label].
  rewrite repeat_snoc. repeat split; assumption.
Qed.

Lemma fire_tick_chain_iter (k j : nat) (t : ModernTimer) :
  state t = RUNNING -> root_alive t = true ->
  pending t = repeat (1000, cb_update_timer) (S k) ->
  Z.of_nat j <= remaining t ->
  let t' := Nat.iter j fire t in
  state t' = RUNNING /\ root_alive t' = true /\ pending t' = pending t
  /\ remaining t' = remaining t - Z.of_nat j /\ alarms t' = alarms t.
Proof.
  intros Hs Ha Hp. induction j as [|j IH]; intros Hj; cbv zeta.
  - simpl Nat.iter. repeat split; try assumption; try reflexivity. lia.
  - simpl Nat.iter. destruct IH as (A & B & C & D & E); [lia|].
    destruct (fire_tick_chain k (Nat.iter j fire t))
      as (A' & B' & C' & D' & E' & _); try assumption.
    + now rewrite C.
    + lia.
    + repeat split; try assumption; try congruence.
      rewrite D', D. lia.
Qed.

(** X11.  Every tick that is pending takes its own second off and schedules
    its successor, so the number of pending ticks never goes down while
    the engine runs: with [k + 1] of them pending (resuming adds one to
    those already there), the time left goes down by [k + 1] for every
    second that passes. *)
Theorem tick_chains_multiply_speed (k j : nat) (t : ModernTimer) :
  state t = RUNNING -> root_alive t = true ->
  pending t = repeat (1000, cb_update_timer) (S k) ->
  Z.of_nat j <= remaining t ->
  let t' := Nat.iter j fire t in
  state t' = RUNNING /\ pending t' = pending t
  /\ remaining t' = remaining t - Z.of_nat j /\ alarms t' = alarms t.
Proof.
  intros Hs Ha Hp Hj.
  destruct (fire_tick_chain_iter k j t Hs Ha Hp Hj) as (A & _ & C & D & E).
  repeat split; assumption.
Qed.

Lemma tick_chains_multiply_speed_witness :
  let t := pause_timer (pause_timer
             (update_timer (timer_running 5 (fun _ => true)))) in
  remaining t = 3
  /\ pending t = [(1000, cb_update_timer); (1000, cb_update_timer)]
  /\ remaining (Nat.iter 2 fire t) = 3 - 2.
Proof.
  intros t. split; [reflexivity|]. split; [reflexivity|].
  destruct (tick_chains_multiply_speed 1 2 t) as (_ & _ & C & _);
    [reflexivity|reflexivity|reflexivity|vm_compute; discriminate|].
  exact C.
Defined.

(** ** A whole countdown *)

Lemma format_time_zero (t : ModernTimer) :
  remaining t = 0 -> format_time t = "00:00:00".
Proof. intros H. unfold format_time. rewrite H. reflexivity. Qed.

Lemma countdown_ends (r : nat) (t : ModernTimer) :
  root_alive t = true -> state t = RUNNING -> remaining t = Z.of_nat r ->
  pending t = [(1000, cb_update_timer)] ->
  let t' := Nat.iter (S r) fire t in
  state t' = STOPPED /\ alarms t' = S (alarms t) /\ remaining t' = 0
  /\ time_label t' = "00:00:00"
  /\ pending t' = [(1000, cb_root_destroy)] /\ root_alive t' = true
  /\ root_alive (fire t') = false.
Proof.
  intros Ha Hs Hr Hp.
  destruct (fire_tick_chain_iter 0 r t Hs Ha Hp ltac:(lia))
    as (A & B & C & D & E).
  cbv zeta in *. simpl Nat.iter.
  set (u := Nat.iter r fire t) in *.
  set (w := set_pending [] u).
  assert (Hf : fire u = update_timer w).
  { unfold fire. rewrite B, C, Hp. reflexivity. }
  assert (Hz : remaining w = 0) by (change (remaining u = 0); lia).
  destruct (update_timer_fields w A) as (_ & Z0).
  destruct (Z0 Hz) as (L & Al & St & Pe & Re).
  destruct (play_alarm_frame (set_time_label (format_time w) w))
    as (_ & _ & _ & _ & _ & _ & _ & _ & _ & F & _).
  assert (G : root_alive (update_timer w) = true).
  { rewrite (update_timer_running_zero w A) by lia.
    cbn [after set_pending set_state root_alive] in *. rewrite F. exact B. }
  rewrite Hf.
  repeat split; try assumption.
  - rewrite Al. change (alarms w) with (alarms u). now rewrite E.
  - rewrite L. now apply format_time_zero.
  - unfold fire. rewrite G, Pe. reflexivity.
Qed.

(** X12.  From an accepted entry to the alarm.  When the entry parses as a
    float above zero whose product by the unit has the floor [n], the
    confirmation followed by [n] ticks, and not fewer, ends the countdown:
    before that the engine is RUNNING and no alarm has fired; then the
    display shows 00:00:00, the alarm has fired once, the engine is STOPPED
    and the callback that is left ends the application.  With [n = 0] (an
    entry below one second) the alarm fires inside the confirmation. *)
Theorem confirmed_countdown_rings (t : ModernTimer) (s key : string)
  (v : PyFloat.float) (n : Z) :
  time_entry t = Some s -> PyFloat.of_string s = Ok v ->
  PyFloat.fltb PyFloat.zero v = true ->
  PyFloat.floor
    (PyFloat.fmul v (PyFloat.of_int (if (key =? "d")%string then 60 else 1)))
  = Some n ->
  root_alive t = true -> pending t = [] ->
  let t1 := fst (process_time_input key t) in
  (forall j, (j < Z.to_nat n)%nat ->
     state (Nat.iter j fire t1) = RUNNING
     /\ alarms (Nat.iter j fire t1) = alarms t)
  /\ let t' := Nat.iter (Z.to_nat n) fire t1 in
     state t' = STOPPED /\ remaining t' = 0 /\ time_label t' = "00:00:00"
     /\ alarms t' = S (alarms t)
     /\ pending t' = [(1000, cb_root_destroy)]
     /\ root_alive (fire t') = false.
Proof.
  intros He Hv Hpos Hfl Ha Hp t1.
  destruct (process_time_input_takes key s t v He Hv Hpos)
    as [[Hinf _]|(n' & Hn & Hfl' & R)].
  { rewrite Hinf in Hfl. discriminate. }
  rewrite Hfl in Hfl'. injection Hfl' as <-.
  unfold t1. rewrite R. cbn [fst]. clear t1 R.
  unfold start_countdown.
  set (u := on_iniciar _ _).
  assert (Hs : state u = RUNNING) by reflexivity.
  assert (Hr : remaining u = n) by reflexivity.
  assert (Hpu : pending u = []) by exact Hp.
  assert (Hau : root_alive u = true) by exact Ha.
  assert (Hal : alarms u = alarms t) by reflexivity.
  destruct (update_timer_fields u Hs) as (P & Z0).
  destruct (Z.eq_dec n 0) as [->|Hne].
  - destruct (Z0 Hr) as (L & Al & St & Pe & Re).
    split; [intros j Hj; simpl in Hj; lia|].
    simpl Z.to_nat; simpl Nat.iter.
    destruct (play_alarm_frame (set_time_label (format_time u) u))
      as (_ & _ & _ & _ & _ & _ & _ & _ & _ & F & _).
    assert (G : root_alive (update_timer u) = true).
    { rewrite (update_timer_running_zero u Hs) by lia.
      cbn [after set_pending set_state root_alive] in *. rewrite F.
      exact Hau. }
    split; [exact St|]. split; [exact Re|].
    split; [rewrite L; now apply format_time_zero|].
    split; [congruence|].
    split; [now rewrite Pe, Hpu|].
    unfold fire. rewrite G, Pe, Hpu. reflexivity.
  - destruct P as (L & Re & Pe & St & Al); [lia|].
    assert (G : root_alive (update_timer u) = true).
    { rewrite (update_timer_running_pos u Hs) by lia. exact Hau. }
    rewrite Hpu in Pe. cbn [app] in Pe.
    assert (Hn1 : Z.to_nat n = S (Z.to_nat (n - 1))).
    { rewrite <- Z2Nat.inj_succ by lia. f_equal. lia. }
    split.
    + intros j Hj.
      destruct (fire_tick_chain_iter 0 j (update_timer u) St G Pe)
        as (A & _ & _ & _ & E); [lia|].
      split; [exact A|]. cbv zeta in E. congruence.
    + rewrite Hn1.
      destruct (countdown_ends (Z.to_nat (n - 1)) (update_timer u) G St)
        as (A & B & C & D & E & _ & F); [lia|exact Pe|].
      cbv zeta in *. repeat split; try assumption. congruence.
Qed.

Lemma confirmed_countdown_rings_witness :
  let t1 := fst (process_time_input "f" (timer_with_entry "2")) in
  state (Nat.iter 1 fire t1) = RUNNING
  /\ state (Nat.iter 2 fire t1) = STOPPED
  /\ alarms (Nat.iter 2 fire t1) = 1%nat.
Proof.
  intros t1.
  destruct (confirmed_countdown_rings (timer_with_entry "2") "2" "f"
              (S754_finite false 4503599627370496 (-51)) 2)
    as (A & B & _ & _ & C & _); try reflexivity.
  split; [apply (A 1%nat); simpl; lia|].
  split; [exact B|exact C].
Defined.

(** ** The alarm *)

(** X13.  An alarm whose launch number [k] raises (counting from zero, with
    [k] below [repetitions]) has played [k] times, launches nothing more,
    and prints one line; the rest of the timer is as after any alarm. *)
Theorem alarm_stops_at_failed_launch (k : nat) (t : ModernTimer) :
  (k < Z.to_nat (repetitions (config t)))%nat ->
  (forall i, (i < k)%nat -> spawn_ok t (spawned t + i)%nat = true) ->
  spawn_ok t (spawned t + k)%nat = false ->
  spawned (play_alarm t) = (spawned t + S k)%nat
  /\ played (play_alarm t) = (played t + k)%nat
  /\ printed (play_alarm t) = alarm_error :: printed t
  /\ alarms (play_alarm t) = S (alarms t)
  /\ state (play_alarm t) = state t /\ remaining (play_alarm t) = remaining t
  /\ pending (play_alarm t) = pending t.
Proof.
  intros Hk Hok Hbad.
  destruct (play_alarm_frame t)
    as (_ & A2 & A3 & _ & _ & _ & _ & _ & A9 & _ & _ & A12).
  cbv zeta in *.
  destruct (alarm_loop_fails_at k (Z.to_nat (repetitions (config t)))
              (set_player (spawned t) (played t) (S (alarms t)) (printed t) t)
              Hk Hok Hbad) as (A & B & C).
  repeat split; assumption.
Qed.

Lemma alarm_stops_at_failed_launch_witness :
  played (play_alarm (timer_running 0 (fun i => Nat.ltb i 2))) = 2%nat
  /\ spawned (play_alarm (timer_running 0 (fun i => Nat.ltb i 2))) = 3%nat.
Proof.
  destruct (alarm_stops_at_failed_launch 2
              (timer_running 0 (fun i => Nat.ltb i 2)))
    as (A & B & _).
  - vm_compute. lia.
  - intros [|[|i]] Hi; try reflexivity. lia.
  - reflexivity.
  - split; [exact B|exact A].
Defined.

(** ** What the handlers leave alone *)

Lemma update_timer_buttons (t : ModernTimer) :
  buttons (update_timer t) = buttons t.
Proof.
  destruct (state t) eqn:Hs;
    try (rewrite update_timer_not_running by (rewrite Hs; discriminate);
         reflexivity).
  destruct (Z_gt_le_dec (remaining t) 0) as [Hpos|Hle].
  - rewrite (update_timer_running_pos t Hs Hpos). reflexivity.
  - rewrite (update_timer_running_zero t Hs Hle).
    destruct (play_alarm_frame (set_time_label (format_time t) t))
      as (_ & _ & _ & _ & Hb & _).
    cbn [after set_pending set_state buttons] in *. now rewrite Hb.
Qed.

Lemma update_timer_remaining (t : ModernTimer) :
  0 <= remaining t ->
  0 <= remaining (update_timer t) <= remaining t.
Proof.
  intros Hr.
  destruct (state t) eqn:Hs;
    try (rewrite update_timer_not_running by (rewrite Hs; discriminate);
         lia).
  destruct (Z_gt_le_dec (remaining t) 0) as [Hpos|Hle].
  - rewrite (update_timer_running_pos t Hs Hpos).
    cbn [after set_pending set_remaining remaining]. lia.
  - rewrite (update_timer_running_zero t Hs Hle).
    destruct (play_alarm_frame (set_time_label (format_time t) t))
      as (_ & _ & Hm & _).
    cbn [after set_pending set_state remaining set_time_label] in *.
    rewrite Hm. lia.
Qed.

Lemma step_button_texts (e : event) (t : ModernTimer) :
  btn_text (iniciar (buttons (step e t))) = btn_text (iniciar (buttons t))
  /\ btn_text (detener (buttons (step e t))) = btn_text (detener (buttons t))
  /\ (e <> ev_pausar ->
      btn_text (pausar (buttons (step e t))) = btn_text (pausar (buttons t))).
Proof.
  destruct e as [char|text| | | |i]; cbn [step].
  - assert (H : buttons (fst (handle_key char t)) = buttons t
                \/ exists n, fst (handle_key char t)
                     = start_countdown (dialog_destroy (set_remaining n t))).
    { unfold handle_key.
      destruct ((lower char =? "d")%string || (lower char =? "f")%string).
      - destruct (process_time_input_outcomes (lower char) t)
          as [[E _]|[E|(n & _ & E)]].
        + left.
          destruct (process_time_input (lower char) t) as [t1 [[]|e]];
            simpl in *; now subst.
        + left. rewrite E. reflexivity.
        + right. exists n. rewrite E. reflexivity.
      - left. destruct (_ && _); reflexivity. }
    destruct H as [->|(n & ->)]; [repeat split|].
    unfold start_countdown. rewrite update_timer_buttons. repeat split.
  - unfold type_text. destruct (time_entry t); repeat split.
  - repeat split.
  - split; [|split; [|congruence]].
    + unfold pause_timer.
      destruct (TimerState_eqb (state t) RUNNING
                || TimerState_eqb (state t) PAUSED); [|reflexivity].
      match goal with |- context [if ?c then update_timer ?u else _] =>
        destruct c; [rewrite update_timer_buttons|]; reflexivity end.
    + unfold pause_timer.
      destruct (TimerState_eqb (state t) RUNNING
                || TimerState_eqb (state t) PAUSED); [|reflexivity].
      match goal with |- context [if ?c then update_timer ?u else _] =>
        destruct c; [rewrite update_timer_buttons|]; reflexivity end.
  - repeat split.
  - unfold fire_nth. destruct (root_alive t); [|repeat split].
    destruct (nth_error (pending t) i) as [[ms f]|]; [|repeat split].
    destruct f as [| |id]; cbn [run_callback]; [|repeat split|repeat split].
    rewrite update_timer_buttons. repeat split.
Qed.

(** X14.  No handler but [pause_timer] ever writes the text of a button.
    Whatever happens, Iniciar and Detener keep their texts, and the pause
    button keeps its text as long as it is not pressed: stopping a paused
    countdown and starting a new one leaves it reading Reanudar while the
    engine runs. *)
Theorem button_texts_kept (es : list event) (t : ModernTimer) :
  let t' := fold_left (fun u e => step e u) es t in
  btn_text (iniciar (buttons t')) = btn_text (iniciar (buttons t))
  /\ btn_text (detener (buttons t')) = btn_text (detener (buttons t))
  /\ (~ In ev_pausar es ->
      btn_text (pausar (buttons t')) = btn_text (pausar (buttons t))).
Proof.
  revert t; induction es as [|e es IH]; intros t; cbv zeta.
  - repeat split.
  - cbn [fold_left].
    destruct (step_button_texts e t) as (A & B & C).
    destruct (IH (step e t)) as (A' & B' & C'). cbv zeta in *.
    split; [congruence|]. split; [congruence|].
    intros Hn. rewrite C', C; [reflexivity| |].
    + intros ->. apply Hn. now left.
    + intros Hin. apply Hn. now right.
Qed.

Lemma button_texts_kept_witness :
  let t := run default_config (fun _ => true)
             [ev_edit "9"; ev_key "f"; ev_pausar] in
  let t' := fold_left (fun u e => step e u)
              [ev_detener; ev_iniciar; ev_edit "5"; ev_key "f"] t in
  state t' = RUNNING /\ btn_text (pausar (buttons t')) = "Reanudar".
Proof.
  intros t t'. split; [reflexivity|].
  destruct (button_texts_kept
              [ev_detener; ev_iniciar; ev_edit "5"; ev_key "f"] t)
    as (_ & _ & C).
  cbv zeta in C. unfold t'. rewrite C; [reflexivity|].
  intros [H|[H|[H|[H|[]]]]]; discriminate H.
Defined.

Lemma step_remaining (e : event) (t : ModernTimer) :
  (forall c, e <> ev_key c) -> 0 <= remaining t ->
  0 <= remaining (step e t) <= remaining t.
Proof.
  intros Hk Hr. destruct e as [char|text| | | |i]; cbn [step].
  - now elim (Hk char).
  - unfold type_text. destruct (time_entry t); simpl; lia.
  - simpl. lia.
  - unfold pause_timer.
    destruct (TimerState_eqb (state t) RUNNING
              || TimerState_eqb (state t) PAUSED); [|lia].
    match goal with |- context [if ?c then update_timer ?u else _] =>
      destruct c; [apply (update_timer_remaining u Hr)|simpl; lia] end.
  - simpl. lia.
  - unfold fire_nth. destruct (root_alive t); [|lia].
    destruct (nth_error (pending t) i) as [[ms f]|]; [|lia].
    destruct f as [| |id]; cbn [run_callback]; [|simpl; lia|simpl; lia].
    apply (update_timer_remaining
             (set_pending (remove_nth i (pending t)) t) Hr).
Qed.

(** X15.  Only a confirmation in the dialog can raise the time left.  Over
    any events among which no key is pressed in the entry (edits of the
    text, the three buttons, callbacks coming due), the time left never
    goes up. *)
Theorem only_confirmation_adds_time (es : list event) (t : ModernTimer) :
  (forall c, ~ In (ev_key c) es) -> 0 <= remaining t ->
  0 <= remaining (fold_left (fun u e => step e u) es t) <= remaining t.
Proof.
  revert t; induction es as [|e es IH]; intros t Hk Hr.
  - simpl. lia.
  - cbn [fold_left].
    assert (H : 0 <= remaining (step e t) <= remaining t).
    { apply step_remaining; [|exact Hr].
      intros c ->. apply (Hk c). now left. }
    destruct (IH (step e t)) as [A B]; [|lia|lia].
    intros c Hin. apply (Hk c). now right.
Qed.

Lemma only_confirmation_adds_time_witness :
  let t := run default_config (fun _ => true) [ev_edit "9"; ev_key "f"] in
  remaining (fold_left (fun u e => step e u)
               [ev_pausar; ev_timer 0; ev_pausar; ev_edit "100"; ev_timer 1] t)
  <= 8.
Proof.
  intros t.
  apply (only_confirmation_adds_time
           [ev_pausar; ev_timer 0; ev_pausar; ev_edit "100"; ev_timer 1] t).
  - intros c [H|[H|[H|[H|[H|[]]]]]]; discriminate H.
  - vm_compute. discriminate.
Defined.

(** ** The validator *)

Lemma append_nil_inv (a b : string) : (a ++ b)%string = "" -> a = "" /\ b = "".
Proof. destruct a; simpl; [auto|discriminate]. Qed.

Lemma append_nil_r (a : string) : (a ++ "")%string = a.
Proof. induction a as [|c a IH]; simpl; [reflexivity|now rewrite IH]. Qed.

Lemma append_assoc (a b c : string) :
  ((a ++ b) ++ c)%string = (a ++ b ++ c)%string.
Proof. induction a as [|x a IH]; simpl; [reflexivity|now rewrite IH]. Qed.

Lemma lang_empty_inv (s : string) : ~ lang Re.Empty s.
Proof. intros H. inversion H. Qed.

Lemma lang_eps_inv (s : string) : lang Re.Eps s -> s = "".
Proof. intros H. now inversion H. Qed.

Lemma lang_chr_inv (p : ascii -> bool) (s : string) :
  lang (Re.Chr p) s -> exists c, s = String c "" /\ p c = true.
Proof. intros H. inversion H; subst. now exists c. Qed.

Lemma lang_seq_inv (r1 r2 : Re.regex) (s : string) :
  lang (Re.Seq r1 r2) s ->
  exists s1 s2, s = (s1 ++ s2)%string /\ lang r1 s1 /\ lang r2 s2.
Proof. intros H. inversion H; subst. now exists s1, s2. Qed.

Lemma lang_alt_inv (r1 r2 : Re.regex) (s : string) :
  lang (Re.Alt r1 r2) s -> lang r1 s \/ lang r2 s.
Proof. intros H. inversion H; subst; auto. Qed.

Lemma lang_star_inv (r : Re.regex) (s : string) :
  lang (Re.Star r) s ->
  s = ""
  \/ exists c s1 s2, s = String c (s1 ++ s2)
       /\ lang r (String c s1) /\ lang (Re.Star r) s2.
Proof.
  intros H. remember (Re.Star r) as r0 eqn:Er.
  induction H as [| | | | |r'|r' s1 s2 H1 _ H2 IH2]; try discriminate.
  - now left.
  - injection Er as ->. destruct s1 as [|c s1].
    + simpl. now apply IH2.
    + right. now exists c, s1, s2.
Qed.

Lemma nullable_lang (r : Re.regex) : Re.nullable r = true <-> lang r "".
Proof.
  induction r as [| |p|r1 IH1 r2 IH2|r1 IH1 r2 IH2|r IH]; simpl.
  - split; [discriminate|]. intros H. now apply lang_empty_inv in H.
  - split; [constructor|reflexivity].
  - split; [discriminate|]. intros H. apply lang_chr_inv in H.
    destruct H as (c & H & _). discriminate.
  - rewrite andb_true_iff, IH1, IH2. split.
    + intros [A B]. apply (lang_seq r1 r2 "" "" A B).
    + intros H. apply lang_seq_inv in H.
      destruct H as (s1 & s2 & E & A & B). symmetry in E.
      apply append_nil_inv in E. destruct E as [-> ->]. now split.
  - rewrite orb_true_iff, IH1, IH2. split.
    + intros [A|B]; [now apply lang_alt_l|now apply lang_alt_r].
    + apply lang_alt_inv.
  - split; [constructor|reflexivity].
Qed.

Lemma deriv_lang (c : ascii) (r : Re.regex) :
  forall s, lang (Re.deriv c r) s <-> lang r (String c s).
Proof.
  induction r as [| |p|r1 IH1 r2 IH2|r1 IH1 r2 IH2|r IH]; intros s; simpl.
  - split; intros H; now apply lang_empty_inv in H.
  - split; intros H; [now apply lang_empty_inv in H|].
    apply lang_eps_inv in H. discriminate.
  - destruct (p c) eqn:Hp; split; intros H.
    + apply lang_eps_inv in H. subst. now constructor.
    + apply lang_chr_inv in H. destruct H as (c' & E & _).
      injection E as _ ->. constructor.
    + now apply lang_empty_inv in H.
    + apply lang_chr_inv in H. destruct H as (c' & E & Hc).
      injection E as -> _. congruence.
  - assert (L : lang (Re.Seq (Re.deriv c r1) r2) s ->
                lang (Re.Seq r1 r2) (String c s)).
    { intros H. apply lang_seq_inv in H.
      destruct H as (s1 & s2 & -> & A & B). apply IH1 in A.
      apply (lang_seq r1 r2 (String c s1) s2 A B). }
    assert (R : lang (Re.Seq r1 r2) (String c s) ->
                lang (Re.Seq (Re.deriv c r1) r2) s
                \/ (lang r1 "" /\ lang (Re.deriv c r2) s)).
    { intros H. apply lang_seq_inv in H.
      destruct H as (s1 & s2 & E & A & B). destruct s1 as [|c' s1].
      - right. simpl in E. subst s2. split; [exact A|now apply IH2].
      - left. simpl in E. injection E as -> ->.
        apply lang_seq; [now apply IH1|exact B]. }
    destruct (Re.nullable r1) eqn:Hn.
    + split.
      * intros H. apply lang_alt_inv in H. destruct H as [H|H].
        -- now apply L.
        -- apply IH2 in H. apply nullable_lang in Hn.
           apply (lang_seq r1 r2 "" (String c s) Hn H).
      * intros H. destruct (R H) as [A|[_ A]];
          [now apply lang_alt_l|now apply lang_alt_r].
    + split; [exact L|].
      intros H. destruct (R H) as [A|[A _]]; [exact A|].
      apply nullable_lang in A. congruence.
  - split.
    + intros H. apply lang_alt_inv in H.
      destruct H as [H|H]; [apply lang_alt_l, IH1|apply lang_alt_r, IH2];
        exact H.
    + intros H. apply lang_alt_inv in H.
      destruct H as [H|H]; [apply lang_alt_l, IH1|apply lang_alt_r, IH2];
        exact H.
  - split.
    + intros H. apply lang_seq_inv in H.
      destruct H as (s1 & s2 & -> & A & B). apply IH in A.
      apply (lang_star_cons r (String c s1) s2 A B).
    + intros H. apply lang_star_inv in H.
      destruct H as [H|(c' & s1 & s2 & E & A & B)]; [discriminate|].
      injection E as -> ->. apply lang_seq; [now apply IH|exact B].
Qed.

(** Matching by derivatives decides the language. *)
Lemma matches_lang (s : string) :
  forall r, Re.matches r s = true <-> lang r s.
Proof.
  induction s as [|c s IH]; intros r; simpl.
  - apply nullable_lang.
  - rewrite IH. apply deriv_lang.
Qed.

Lemma lang_star_chr (p : ascii -> bool) (s : string) :
  lang (Re.Star (Re.Chr p)) s <-> all_chars p s = true.
Proof.
  induction s as [|c s IH]; simpl.
  - split; [reflexivity|constructor].
  - rewrite andb_true_iff, <- IH. split.
    + intros H. apply lang_star_inv in H.
      destruct H as [H|(c' & s1 & s2 & E & A & B)]; [discriminate|].
      apply lang_chr_inv in A. destruct A as (c'' & E' & Hc).
      injection E' as -> ->. simpl in E. injection E as -> ->. now split.
    + intros [A B].
      apply (lang_star_cons (Re.Chr p) (String c "") s);
        [now constructor|exact B].
Qed.

Lemma lang_plus_chr (p : ascii -> bool) (s : string) :
  lang (Re.Plus (Re.Chr p)) s <-> s <> "" /\ all_chars p s = true.
Proof.
  unfold Re.Plus. split.
  - intros H. apply lang_seq_inv in H. destruct H as (s1 & s2 & -> & A & B).
    apply lang_chr_inv in A. destruct A as (c & -> & Hc).
    apply lang_star_chr in B. simpl. rewrite Hc, B. split; [discriminate|auto].
  - intros [Hne H]. destruct s as [|c s]; [contradiction|].
    simpl in H. apply andb_true_iff in H. destruct H as [A B].
    apply (lang_seq (Re.Chr p) _ (String c "") s);
      [now constructor|now apply lang_star_chr].
Qed.

Lemma lang_lit (a : ascii) (s : string) :
  lang (Re.lit a) s <-> s = String a "".
Proof.
  unfold Re.lit. split.
  - intros H. apply lang_chr_inv in H. destruct H as (c & -> & Hc).
    apply Ascii.eqb_eq in Hc. now subst.
  - intros ->. constructor. apply Ascii.eqb_refl.
Qed.

(** The strings the pattern of [validate_input] matches. *)
Lemma validate_input_shape (s : string) :
  validate_input s = true <->
  exists ip frac nl : string,
    s = (ip ++ frac ++ nl)%string
    /\ (ip <> "" /\ all_chars is_digit ip = true)
    /\ (frac = ""
        \/ exists fp, frac = String "." fp
             /\ fp <> "" /\ all_chars is_digit fp = true)
    /\ (nl = "" \/ nl = String "010" "").
Proof.
  unfold validate_input. rewrite matches_lang. split.
  - intros H. apply lang_seq_inv in H. destruct H as (ip & s' & -> & A & H).
    apply lang_seq_inv in H. destruct H as (frac & nl & -> & B & C).
    exists ip, frac, nl. split; [reflexivity|].
    split; [now apply lang_plus_chr|]. split.
    + apply lang_alt_inv in B. destruct B as [B|B].
      * right. apply lang_seq_inv in B.
        destruct B as (d & fp & -> & B1 & B2).
        apply lang_lit in B1. subst d. apply lang_plus_chr in B2.
        exists fp. now split.
      * left. now apply lang_eps_inv.
    + apply lang_alt_inv in C. destruct C as [C|C].
      * left. now apply lang_eps_inv.
      * right. now apply lang_lit.
  - intros (ip & frac & nl & -> & A & B & C).
    apply lang_seq; [now apply lang_plus_chr|]. apply lang_seq.
    + destruct B as [->|(fp & -> & B)].
      * apply lang_alt_r. constructor.
      * apply lang_alt_l.
        apply (lang_seq (Re.lit ".") _ (String "." "") fp);
          [now apply lang_lit|now apply lang_plus_chr].
    + destruct C as [->| ->]; [apply lang_alt_l; constructor|].
      apply lang_alt_r. now apply lang_lit.
Qed.

(** ** Decimal literals through the scanner of [float] *)

Lemma list_ascii_of_append (a b : string) :
  list_ascii_of_string (a ++ b)
  = (list_ascii_of_string a ++ list_ascii_of_string b)%list.
Proof. induction a as [|c a IH]; simpl; [reflexivity|now rewrite IH]. Qed.

Lemma all_chars_forallb (p : ascii -> bool) (s : string) :
  all_chars p s = forallb p (list_ascii_of_string s).
Proof. induction s as [|c s IH]; simpl; [reflexivity|now rewrite IH]. Qed.

(** What a digit is not. *)
Lemma digit_char_plain (c : ascii) :
  is_digit c = true ->
  (code c <? 128)%N = true /\ Py_ISSPACE c = false
  /\ PyFloat.is_char "_" c = false /\ PyFloat.is_char "-" c = false
  /\ PyFloat.is_char "+" c = false /\ 0 <= digit_val c <= 9.
Proof.
  destruct c as [[] [] [] [] [] [] [] []]; vm_compute;
    intros H; try discriminate H; repeat split; discriminate.
Qed.

Lemma span_app (p : ascii -> bool) (a b : list ascii) :
  forallb p a = true ->
  match b with [] => True | c :: _ => p c = false end ->
  PyFloat.span p (a ++ b)%list = (a, b).
Proof.
  intros Ha Hb. induction a as [|c a IH]; simpl in *.
  - destruct b as [|c b]; [reflexivity|]. simpl. now rewrite Hb.
  - apply andb_true_iff in Ha. destruct Ha as [Hc Ha].
    rewrite Hc, (IH Ha). reflexivity.
Qed.

Lemma strip_right (b : list ascii) (z : ascii) (nl : list ascii) :
  Py_ISSPACE z = false -> nl = [] \/ nl = ["010"%char] ->
  List.rev (PyFloat.drop_while Py_ISSPACE (List.rev ((b ++ [z]) ++ nl)))
  = (b ++ [z])%list.
Proof.
  intros Hz [->| ->].
  - rewrite app_nil_r, rev_unit. simpl. rewrite Hz.
    change (z :: List.rev b) with (List.rev [z] ++ List.rev b)%list.
    rewrite <- rev_app_distr. apply rev_involutive.
  - rewrite (rev_unit (b ++ [z])), rev_unit. simpl. rewrite Hz.
    change (z :: List.rev b) with (List.rev [z] ++ List.rev b)%list.
    rewrite <- rev_app_distr. apply rev_involutive.
Qed.

Lemma forallb_last (p : ascii -> bool) (a : list ascii) :
  a <> [] -> forallb p a = true ->
  exists b z, a = (b ++ [z])%list /\ p z = true.
Proof.
  intros Hne Ha. destruct (exists_last Hne) as (b & z & ->).
  exists b, z. split; [reflexivity|].
  rewrite forallb_app in Ha. apply andb_true_iff in Ha.
  destruct Ha as [_ Ha]. simpl in Ha. now rewrite andb_true_r in Ha.
Qed.

Lemma forallb_weaken (p q : ascii -> bool) (a : list ascii) :
  (forall c, p c = true -> q c = true) ->
  forallb p a = true -> forallb q a = true.
Proof.
  intros H Ha. rewrite forallb_forall in *. auto.
Qed.

Lemma existsb_none (p q : ascii -> bool) (a : list ascii) :
  (forall c, p c = true -> q c = false) ->
  forallb p a = true -> existsb q a = false.
Proof.
  intros H Ha. induction a as [|c a IH]; simpl in *; [reflexivity|].
  apply andb_true_iff in Ha. destruct Ha as [Hc Ha].
  now rewrite (H c Hc), (IH Ha).
Qed.

Lemma literal_char_plain (c : ascii) :
  literal_char c = true ->
  (code c <? 128)%N = true /\ PyFloat.is_char "_" c = false.
Proof.
  destruct c as [[] [] [] [] [] [] [] []]; vm_compute;
    intros H; try discriminate H; split; reflexivity.
Qed.

(** [float_from_string_inner] on digits, an optional point followed by
    digits, and an optional final newline. *)
Lemma float_of_literal (ip fp : list ascii) (point : bool)
  (nl : list ascii) :
  ip <> [] -> forallb is_digit ip = true -> forallb is_digit fp = true ->
  (if point then fp <> [] else fp = []) ->
  nl = [] \/ nl = ["010"%char] ->
  PyFloat.float_from_string_inner
    ((ip ++ (if point then "."%char :: fp else [])) ++ nl)%list
  = Ok (PyFloat.of_decimal false (PyFloat.digits_value (ip ++ fp)%list)
          (0 - Z.of_nat (List.length fp))).
Proof.
  intros Hne Hip Hfp Hpt Hnl.
  set (a := (ip ++ (if point then "."%char :: fp else []))%list).
  assert (Hlast : exists b z, a = (b ++ [z])%list /\ is_digit z = true).
  { unfold a. destruct point.
    - destruct (forallb_last is_digit fp Hpt Hfp) as (b & z & -> & Hz).
      exists (ip ++ "."%char :: b)%list, z. split; [|exact Hz].
      now rewrite <- app_assoc.
    - rewrite app_nil_r. now apply forallb_last. }
  destruct ip as [|c0 ip']; [contradiction|].
  assert (Hc0 : is_digit c0 = true).
  { simpl in Hip. now apply andb_true_iff in Hip. }
  destruct (digit_char_plain c0 Hc0) as (_ & S0 & _ & M0 & P0 & _).
  unfold PyFloat.float_from_string_inner.
  assert (Hd : PyFloat.drop_while Py_ISSPACE (a ++ nl)%list = (a ++ nl)%list).
  { unfold a. cbn [Datatypes.app PyFloat.drop_while]. now rewrite S0. }
  rewrite Hd. clear Hd.
  assert (Hcons : exists r, (a ++ nl)%list = c0 :: r).
  { unfold a. simpl. eauto. }
  destruct Hcons as (r & Hr).
  destruct (a ++ nl)%list as [|c1 r1] eqn:Ea; [discriminate|].
  rewrite <- Ea. clear Hr r c1 r1 Ea.
  destruct Hlast as (b & z & Eb & Hz).
  destruct (digit_char_plain z Hz) as (_ & Sz & _).
  rewrite Eb, (strip_right b z nl Sz Hnl), <- Eb.
  assert (Hs : PyFloat.dg_strtod a
               = Some (PyFloat.of_decimal false
                         (PyFloat.digits_value ((c0 :: ip') ++ fp)%list)
                         (0 - Z.of_nat (List.length fp)), [])).
  { unfold PyFloat.dg_strtod.
    assert (Hsg : PyFloat.scan_sign a = (false, a)).
    { unfold a, PyFloat.scan_sign. cbn [Datatypes.app]. now rewrite M0, P0. }
    rewrite Hsg. cbv beta iota.
    assert (Hsp : PyFloat.span is_digit a
                  = (c0 :: ip', if point then "."%char :: fp else [])).
    { unfold a. apply span_app; [exact Hip|].
      destruct point; [reflexivity|exact I]. }
    rewrite Hsp. cbv beta iota.
    destruct point.
    - change (PyFloat.is_char "." ".") with true. cbv beta iota.
      replace (PyFloat.span is_digit fp) with (fp, @nil ascii).
      + cbv beta iota. reflexivity.
      + symmetry. rewrite <- (app_nil_r fp) at 1.
        now apply span_app.
    - subst fp. reflexivity. }
  unfold PyFloat.string_to_double. rewrite Hs. reflexivity.
Qed.

(** [float] on the same texts. *)
Lemma of_string_literal (ip fp nl : string) (point : bool) :
  ip <> "" -> all_chars is_digit ip = true ->
  all_chars is_digit fp = true ->
  (if point then fp <> "" else fp = "") ->
  nl = "" \/ nl = String "010" "" ->
  PyFloat.of_string (ip ++ (if point then String "." fp else "") ++ nl)
  = Ok (PyFloat.of_decimal false
          (PyFloat.digits_value
             (list_ascii_of_string ip ++ list_ascii_of_string fp)%list)
          (0 - Z.of_nat (List.length (list_ascii_of_string fp)))).
Proof.
  intros Hne Hip Hfp Hpt Hnl.
  rewrite all_chars_forallb in Hip, Hfp.
  assert (Hnl' : list_ascii_of_string nl = []
                 \/ list_ascii_of_string nl = ["010"%char]).
  { destruct Hnl as [->| ->]; [now left|now right]. }
  assert (Hip' : list_ascii_of_string ip <> []).
  { destruct ip; [contradiction|discriminate]. }
  assert (Hpt' : if point then list_ascii_of_string fp <> []
                 else list_ascii_of_string fp = []).
  { destruct point; [|now subst]. destruct fp; [contradiction|discriminate]. }
  assert (Ef : list_ascii_of_string (if point then String "." fp else "")
               = if point then "."%char :: list_ascii_of_string fp else [])
    by now destruct point.
  unfold PyFloat.of_string.
  rewrite !list_ascii_of_append, Ef, app_assoc.
  set (L := ((list_ascii_of_string ip
                ++ (if point then "."%char :: list_ascii_of_string fp
                    else []))
               ++ list_ascii_of_string nl)%list).
  assert (HL : forallb literal_char L = true).
  { unfold L. rewrite !forallb_app.
    assert (W : forall l, forallb is_digit l = true ->
                          forallb literal_char l = true).
    { intros l. apply forallb_weaken. intros c Hc. unfold literal_char.
      now rewrite Hc. }
    rewrite (W _ Hip).
    replace (forallb literal_char
               (if point then "."%char :: list_ascii_of_string fp else []))
      with true by (destruct point; [simpl; now rewrite (W _ Hfp)|reflexivity]).
    destruct Hnl' as [->| ->]; reflexivity. }
  assert (Ht : PyFloat.transform L = L).
  { unfold PyFloat.transform.
    now rewrite (forallb_weaken literal_char _ L
                   (fun c H => proj1 (literal_char_plain c H)) HL). }
  rewrite Ht. unfold PyFloat.has_char.
  rewrite (existsb_none literal_char _ L
             (fun c H => proj2 (literal_char_plain c H)) HL).
  unfold L. now apply float_of_literal.
Qed.

Lemma digits_value_nonneg (l : list ascii) :
  forallb is_digit l = true -> 0 <= PyFloat.digits_value l.
Proof.
  intros Hl. unfold PyFloat.digits_value.
  assert (G : forall acc, 0 <= acc ->
            0 <= fold_left (fun acc c => 10 * acc + digit_val c) l acc).
  { induction l as [|c l IH]; intros acc Hacc; cbn [fold_left];
      [exact Hacc|].
    simpl in Hl. apply andb_true_iff in Hl. destruct Hl as [Hc Hl].
    destruct (digit_char_plain c Hc) as (_ & _ & _ & _ & _ & Hv).
    apply (IH Hl). lia. }
  apply G. lia.
Qed.

(** ** The sign of what is read *)

Lemma binary_round_aux_sign (s : bool) (m e : Z) (l : location) :
  0 <= m ->
  let r := binary_round_aux PyFloat.prec PyFloat.emax s m e l in
  r = S754_infinity s \/ r = S754_zero s
  \/ exists m' e', r = S754_finite s m' e'.
Proof.
  intros Hm.
  pose proof (binary_round_aux_not_nan PyFloat.prec PyFloat.emax s m e l Hm)
    as N.
  cbv zeta. unfold binary_round_aux in *.
  destruct (shr_fexp _ _ _ _ _) as [mrs1 e1].
  destruct (shr_fexp _ _ _ _ _) as [mrs2 e2].
  destruct (shr_m mrs2) as [|p|p] eqn:E.
  - right. now left.
  - destruct (e2 <=? _); [right; right; now exists p, e2|now left].
  - now elim N.
Qed.

Lemma of_decimal_nonneg (d e : Z) :
  0 <= d -> PyFloat.fleb PyFloat.zero (PyFloat.of_decimal false d e) = true.
Proof.
  intros Hd.
  assert (G : forall r : PyFloat.float,
            (r = S754_infinity false \/ r = S754_zero false
             \/ exists m' e', r = S754_finite false m' e') ->
            PyFloat.fleb PyFloat.zero r = true).
  { intros r [->|[->|(m' & e' & ->)]]; reflexivity. }
  unfold PyFloat.of_decimal. destruct d as [|p|p]; [reflexivity| |lia].
  destruct (0 <=? e).
  - apply G. unfold binary_round.
    destruct (shl_align _ _ _) as [mz ez].
    apply binary_round_aux_sign. lia.
  - apply G. unfold SFdiv.
    pose proof (SFdiv_core_binary_fits PyFloat.prec PyFloat.emax
                  ltac:(reflexivity) p (Z.to_pos (10 ^ (- e))) 0 0) as H.
    destruct (SFdiv_core_binary _ _ _ _ _ _) as [[q e'] l].
    destruct H as [Hq _]. apply (binary_round_aux_sign _ _ _ _ Hq).
Qed.

(** ** The validator and [float] *)

(** X16.  The texts [validate_input] accepts are exactly the decimal
    literals: one digit or more, then possibly a point followed by one
    digit or more, then possibly one final newline (which [$] lets
    through). *)
Theorem validate_input_accepts (s : string) :
  validate_input s = true <->
  exists ip frac nl : string,
    s = (ip ++ frac ++ nl)%string
    /\ (ip <> "" /\ all_chars is_digit ip = true)
    /\ (frac = ""
        \/ exists fp, frac = String "." fp
             /\ fp <> "" /\ all_chars is_digit fp = true)
    /\ (nl = "" \/ nl = String "010" "").
Proof. apply validate_input_shape. Qed.

(** X17.  Every text [validate_input] accepts is read by [float] without
    error, as a value that is not negative and is no NaN: the validator
    asks for more than [process_time_input] does. *)
Theorem validated_text_is_a_float (s : string) :
  validate_input s = true ->
  exists v, PyFloat.of_string s = Ok v
            /\ PyFloat.fleb PyFloat.zero v = true.
Proof.
  intros H. apply validate_input_shape in H.
  destruct H as (ip & frac & nl & -> & [Hne Hip] & Hfrac & Hnl).
  assert (E : exists (fp : string) (point : bool),
            frac = (if point then String "." fp else "")
            /\ all_chars is_digit fp = true
            /\ (if point then fp <> "" else fp = "")).
  { destruct Hfrac as [->|(fp & -> & Hf & Hd)].
    - exists "", false. repeat split.
    - exists fp, true. repeat split; assumption. }
  destruct E as (fp & point & -> & Hfp & Hpt).
  rewrite (of_string_literal ip fp nl point Hne Hip Hfp Hpt Hnl).
  eexists. split; [reflexivity|].
  apply of_decimal_nonneg, digits_value_nonneg.
  rewrite forallb_app, <- !all_chars_forallb, Hip, Hfp. reflexivity.
Qed.

Lemma validated_text_is_a_float_witness :
  exists v, PyFloat.of_string "2.5" = Ok v
            /\ PyFloat.fleb PyFloat.zero v = true.
Proof.
  apply (validated_text_is_a_float "2.5"). reflexivity.
Defined.

(** ** Whole numbers *)

Lemma binary_round_aux_still (s : bool) (m : positive) (e : Z) :
  bounded PyFloat.prec PyFloat.emax m e = true ->
  binary_round_aux PyFloat.prec PyFloat.emax s (Zpos m) e loc_Exact
  = S754_finite s m e.
Proof.
  unfold bounded, canonical_mantissa. intros Hb.
  apply andb_prop in Hb. destruct Hb as [Hc Hb].
  apply Z.eqb_eq in Hc.
  unfold binary_round_aux.
  rewrite (shr_fexp_still _ _ m e Hc).
  cbn [shr_m loc_of_shr_record round_nearest_even].
  rewrite (shr_fexp_still _ _ m e Hc). cbn [shr_m].
  rewrite Hb. reflexivity.
Qed.

Lemma digits2_pos_le (p q : positive) :
  Zpos p <= Zpos q -> Zpos (digits2_pos p) <= Zpos (digits2_pos q).
Proof.
  intros H. pose proof (digits2_pos_bounds p) as Bp.
  pose proof (digits2_pos_bounds q) as Bq.
  assert (Zpos (digits2_pos p) - 1 < Zpos (digits2_pos q)); [|lia].
  apply (Z.pow_lt_mono_r_iff 2); lia.
Qed.

Lemma digits2_pos_below (p : positive) (n : Z) :
  Zpos p < 2 ^ n -> 0 <= n -> Zpos (digits2_pos p) <= n.
Proof.
  intros H Hn. pose proof (digits2_pos_bounds p) as Bp.
  assert (Zpos (digits2_pos p) - 1 < n); [|lia].
  apply (Z.pow_lt_mono_r_iff 2); lia.
Qed.

(** A whole number below 2^53 in its place: the mantissa is shifted to
    53 bits, and nothing is lost. *)
Lemma whole_canonical (p : positive) :
  Zpos p < 2 ^ 53 ->
  exists m,
    shl_align p 0
      (fexp PyFloat.prec PyFloat.emax (Zpos (digits2_pos p) + 0))
    = (m, Zpos (digits2_pos p) - 53)
    /\ bounded PyFloat.prec PyFloat.emax m (Zpos (digits2_pos p) - 53) = true
    /\ Zpos m = Zpos p * 2 ^ (53 - Zpos (digits2_pos p)).
Proof.
  intros Hp. pose proof (digits2_pos_below p 53 Hp ltac:(lia)) as Hd.
  assert (Hf : fexp PyFloat.prec PyFloat.emax (Zpos (digits2_pos p) + 0)
               = Zpos (digits2_pos p) - 53).
  { unfold SpecFloat.fexp, SpecFloat.emin, PyFloat.prec, PyFloat.emax. lia. }
  rewrite Hf. unfold shl_align.
  destruct (Zpos (digits2_pos p) - 53 - 0) as [|d|d] eqn:Ed; [|lia|].
  - exists p. replace (Zpos (digits2_pos p) - 53) with 0 by lia.
    split; [reflexivity|]. split.
    + unfold bounded, canonical_mantissa. rewrite Hf.
      replace (Zpos (digits2_pos p) - 53) with 0 by lia. reflexivity.
    + replace (53 - Zpos (digits2_pos p)) with 0 by lia. lia.
  - exists (Pos.iter xO p d). split; [reflexivity|]. split.
    + unfold bounded, canonical_mantissa. rewrite iter_xO_digits.
      apply andb_true_intro. split.
      * apply Z.eqb_eq.
        unfold SpecFloat.fexp, SpecFloat.emin, PyFloat.prec, PyFloat.emax.
        lia.
      * apply Z.leb_le. unfold PyFloat.prec, PyFloat.emax. lia.
    + rewrite iter_xO_value. f_equal. f_equal. lia.
Qed.

Lemma binary_round_whole (p : positive) :
  Zpos p < 2 ^ 53 ->
  exists m,
    binary_round PyFloat.prec PyFloat.emax false p 0
    = S754_finite false m (Zpos (digits2_pos p) - 53)
    /\ bounded PyFloat.prec PyFloat.emax m (Zpos (digits2_pos p) - 53) = true
    /\ Zpos m = Zpos p * 2 ^ (53 - Zpos (digits2_pos p)).
Proof.
  intros Hp. destruct (whole_canonical p Hp) as (m & E & B & V).
  exists m. unfold binary_round. rewrite E.
  split; [now apply binary_round_aux_still|]. now split.
Qed.

Lemma floor_whole (m : positive) (e n : Z) :
  e <= 0 -> Zpos m = n * 2 ^ (- e) ->
  PyFloat.floor (S754_finite false m e) = Some n.
Proof.
  intros He Hm. cbn [PyFloat.floor]. f_equal.
  destruct (Z.leb_spec 0 e).
  - replace e with 0 in * by lia. change (2 ^ (- 0)) with 1 in Hm.
    change (2 ^ 0) with 1. lia.
  - rewrite Hm. apply Z.div_mul.
    assert (0 < 2 ^ (- e)) by (apply Z.pow_pos_nonneg; lia). lia.
Qed.

(** Sixty times a whole number, as long as the product is below 2^53, is
    exact. *)
Lemma fmul_sixty_whole (p m : positive) :
  Zpos p * 60 < 2 ^ 53 ->
  bounded PyFloat.prec PyFloat.emax m (Zpos (digits2_pos p) - 53) = true ->
  Zpos m = Zpos p * 2 ^ (53 - Zpos (digits2_pos p)) ->
  PyFloat.floor
    (PyFloat.fmul (S754_finite false m (Zpos (digits2_pos p) - 53))
       (PyFloat.of_int 60))
  = Some (Zpos p * 60).
Proof.
  intros Hq Hb Hm.
  change (PyFloat.of_int 60)
    with (S754_finite false 8444249301319680 (-47)).
  unfold PyFloat.fmul, SFmul. cbn [xorb].
  set (q := (p * 60)%positive).
  assert (Hq' : Zpos q < 2 ^ 53) by (unfold q; lia).
  destruct (whole_canonical q Hq') as (M & _ & BM & VM).
  set (dp := Zpos (digits2_pos p)) in *.
  set (dq := Zpos (digits2_pos q)) in *.
  assert (Hle : dp <= dq) by (apply digits2_pos_le; unfold q; lia).
  assert (Hdq : dq <= 53) by (apply digits2_pos_below; lia).
  assert (Hdp : 0 < dp) by (unfold dp; lia).
  set (k := Z.to_pos (47 + dq - dp)).
  assert (Hk : Zpos k = 47 + dq - dp) by (unfold k; rewrite Z2Pos.id; lia).
  replace (Zpos (m * 8444249301319680)) with (Zpos M * 2 ^ Zpos k).
  2:{ rewrite Pos2Z.inj_mul, Hm, VM, Hk. unfold q.
      rewrite Pos2Z.inj_mul.
      change (Zpos 8444249301319680) with (60 * 2 ^ 47).
      change (Zpos 60) with 60.
      replace (Zpos p * 60 * 2 ^ (53 - dq) * 2 ^ (47 + dq - dp))
        with (Zpos p * 60 * (2 ^ (53 - dq) * 2 ^ (47 + dq - dp))) by ring.
      rewrite <- Z.pow_add_r by lia.
      replace (Zpos p * 2 ^ (53 - dp) * (60 * 2 ^ 47))
        with (Zpos p * 60 * (2 ^ (53 - dp) * 2 ^ 47)) by ring.
      rewrite <- Z.pow_add_r by lia.
      f_equal. f_equal. lia. }
  replace (dp - 53 + -47) with (dq - 53 - Zpos k) by lia.
  rewrite (binary_round_aux_exact _ _ false M (dq - 53) k BM).
  apply floor_whole; [lia|].
  rewrite VM. unfold q. rewrite Pos2Z.inj_mul. f_equal. f_equal. lia.
Qed.

(** X18.  A whole number typed in digits is taken exactly.  When the entry
    holds one digit or more that write the number [n], with [n] above
    zero and 60 [n] below 2^53, the key d sets 60 [n] seconds and the key f
    sets [n]: no rounding of the float product comes in. *)
Theorem whole_number_is_exact (t : ModernTimer) (s key : string) (n : Z) :
  time_entry t = Some s ->
  s <> "" -> all_chars is_digit s = true ->
  PyFloat.digits_value (list_ascii_of_string s) = n ->
  0 < n -> n * 60 < 2 ^ 53 ->
  process_time_input key t
  = (start_countdown
       (dialog_destroy
          (set_remaining (n * (if (key =? "d")%string then 60 else 1)) t)),
     Ok tt).
Proof.
  intros He Hne Hd Hv Hn Hb.
  destruct n as [|p|p]; try lia.
  assert (Hp : Zpos p < 2 ^ 53) by lia.
  destruct (binary_round_whole p Hp) as (m & Er & Bm & Vm).
  assert (Hs : PyFloat.of_string s
               = Ok (S754_finite false m (Zpos (digits2_pos p) - 53))).
  { pose proof (of_string_literal s "" "" false Hne Hd eq_refl eq_refl
                  (or_introl eq_refl)) as H.
    cbn [list_ascii_of_string List.length Z.of_nat] in H.
    rewrite app_nil_r, Hv in H.
    change (s ++ "" ++ "")%string with (s ++ "")%string in H.
    rewrite append_nil_r in H. rewrite H. f_equal.
    unfold PyFloat.of_decimal. change (0 <=? 0 - 0) with true. cbv iota.
    change (Z.to_pos (10 ^ (0 - 0))) with 1%positive.
    rewrite Pos.mul_1_r. exact Er. }
  destruct (process_time_input_takes key s t _ He Hs eq_refl)
    as [[Hinf _]|(n' & _ & Hfl & R)].
  - exfalso. destruct (key =? "d")%string.
    + pose proof (fmul_sixty_whole p m Hb Bm Vm) as F.
      rewrite Hinf in F. discriminate.
    + rewrite (fmul_one (S754_finite false m (Zpos (digits2_pos p) - 53)) Bm) in Hinf. discriminate.
  - rewrite R. f_equal. f_equal. f_equal. f_equal.
    destruct (key =? "d")%string.
    + rewrite (fmul_sixty_whole p m Hb Bm Vm) in Hfl. congruence.
    + rewrite (fmul_one (S754_finite false m (Zpos (digits2_pos p) - 53)) Bm) in Hfl.
      rewrite (floor_whole m _ (Zpos p)) in Hfl.
      * injection Hfl as <-. lia.
      * pose proof (digits2_pos_below p 53 Hp ltac:(lia)). lia.
      * rewrite Vm. f_equal. f_equal. lia.
Qed.

Lemma whole_number_is_exact_witness :
  process_time_input "d" (timer_with_entry "25")
  = (start_countdown
       (dialog_destroy (set_remaining (25 * 60) (timer_with_entry "25"))),
     Ok tt).
Proof.
  apply (whole_number_is_exact (timer_with_entry "25") "25" "d" 25);
    try reflexivity.
  discriminate.
Defined.
